(** * ESP8266 AT-command engine and MQTT session layer

    A shallow embedding of [Core/Src/esp8266.c] and [Core/Src/esp8266_mqtt.c]
    (with the types of [Core/Inc/esp8266.h] and [Core/Inc/esp8266_mqtt.h]),
    followed by the properties of the command engine, the transport and the
    MQTT session that the design document states about them.

    The firmware is a single cooperative thread plus the UART/DMA interrupt
    handlers.  The embedding threads one [World] value through every
    function: the two global handles [esp8266] and [mqtt], the millisecond
    clock behind [HAL_GetTick], the bytes handed to the transmit DMA and the
    application callbacks that were invoked.  The interrupts that fire while
    the thread sleeps in [HAL_Delay] are read from a script carried by the
    world, so a theorem quantified over the world holds for every behaviour
    of the co-processor. *)

From Stdlib Require Import ZArith String Ascii List Lia Bool DecimalString
  DecimalPos.
From stdpp Require Import base option list strings.

Local Open Scope string_scope.
Local Open Scope Z_scope.

(** ** The C library functions the driver relies on *)

(** A [char *] is modelled by the bytes it points at.  Bytes past the end of
    a modelled array read as zero, so the empty string is also the array of
    zeros. *)
Module LibC.

Definition NUL : ascii := Ascii.zero.

(** The C string held by a byte array: the bytes before the first NUL. *)
Fixpoint cstr (s : string) : string :=
  match s with
  | EmptyString => EmptyString
  | String c rest => if Ascii.eqb c NUL then EmptyString else String c (cstr rest)
  end.

Definition strlen (s : string) : Z := Z.of_nat (String.length (cstr s)).

(** [strcmp a b == 0] *)
Definition strcmp0 (a b : string) : bool := String.eqb (cstr a) (cstr b).

(** [strstr]: the tail of [haystack] that starts at the first occurrence
    of [needle], [None] for a null result. *)
Fixpoint strstr (haystack needle : string) : option string :=
  if String.prefix (cstr needle) haystack then Some haystack
  else match haystack with
       | EmptyString => None
       | String c rest => if Ascii.eqb c NUL then None else strstr rest needle
       end.

(** [*p] and [p + n] *)
Definition deref (p : string) : ascii :=
  match p with EmptyString => NUL | String c _ => c end.

Fixpoint ptr_add (p : string) (n : nat) : string :=
  match n, p with
  | O, _ => p
  | S n', String _ rest => ptr_add rest n'
  | S _, EmptyString => EmptyString
  end.

(** [strchr (s, c) - s] for a character other than NUL: how far the first
    occurrence of [c] is from [s], [None] for a null result. *)
Fixpoint strchr_offset (s : string) (c : ascii) : option nat :=
  match s with
  | EmptyString => None
  | String a rest =>
      if Ascii.eqb a c then Some O
      else if Ascii.eqb a NUL then None
      else S <$> strchr_offset rest c
  end.

Definition strchr (s : string) (c : ascii) : option string :=
  ptr_add s <$> strchr_offset s c.

(** The first [n] bytes at [p] ([memcpy] out of [p]); bytes past the
    modelled array are zero. *)
Fixpoint bytes (p : string) (n : nat) : string :=
  match n with
  | O => EmptyString
  | S n' => String (deref p) (bytes (ptr_add p 1) n')
  end.

(** [strncpy (dst, src, n)] into a zeroed array, read back as a C string. *)
Fixpoint strncpy (src : string) (n : nat) : string :=
  match n, src with
  | S n', String c rest =>
      if Ascii.eqb c NUL then EmptyString else String c (strncpy rest n')
  | _, _ => EmptyString
  end.

Definition isspace (c : ascii) : bool :=
  let n := nat_of_ascii c in
  (Nat.eqb n 32 || (Nat.leb 9 n && Nat.leb n 13))%bool.

Definition digit (c : ascii) : option Z :=
  let n := Z.of_nat (nat_of_ascii c) in
  if ((48 <=? n) && (n <=? 57))%bool then Some (n - 48) else None.

Fixpoint atoi_digits (acc : Z) (s : string) : Z :=
  match s with
  | EmptyString => acc
  | String c rest =>
      match digit c with
      | Some d => atoi_digits (10 * acc + d) rest
      | None => acc
      end
  end.

Fixpoint skip_spaces (s : string) : string :=
  match s with
  | String c rest => if isspace c then skip_spaces rest else s
  | EmptyString => s
  end.

(** [atoi]: optional white space, optional sign, decimal digits.  The
    value is the mathematical one (the C result is undefined once it
    leaves the range of [int]). *)
Definition atoi (s : string) : Z :=
  match skip_spaces s with
  | String "-"%char rest => - atoi_digits 0 rest
  | String "+"%char rest => atoi_digits 0 rest
  | t => atoi_digits 0 t
  end.

(** ["%d"] of an integer. *)
Definition itoa (z : Z) : string := NilZero.string_of_int (Z.to_int z).

(** The result of [vsnprintf (buf, size, ...)] for the rendered text:
    at most [size - 1] characters are stored. *)
Definition vsnprintf (size : nat) (text : string) : string :=
  strncpy text (size - 1).

Definition uint8 (z : Z) : Z := z mod 2 ^ 8.
Definition uint16 (z : Z) : Z := z mod 2 ^ 16.
Definition uint32 (z : Z) : Z := z mod 2 ^ 32.

End LibC.
Import LibC.

Definition CRLF : string := String (ascii_of_nat 13) (String (ascii_of_nat 10) EmptyString).

(** The double quote, as a character and as a one-character string. *)
Definition DQUOTE : ascii := ascii_of_nat 34.
Definition DQ : string := String DQUOTE EmptyString.


(** ** Types of [esp8266.h] *)

Inductive ESP8266_Status_t :=
| ESP8266_OK | ESP8266_ERROR | ESP8266_TIMEOUT | ESP8266_BUSY | ESP8266_NOT_FOUND
| ESP8266_CONNECT_FAIL | ESP8266_SEND_FAIL | ESP8266_ALREADY_CONNECTED
| ESP8266_NOT_CONNECTED | ESP8266_WIFI_DISCONNECT | ESP8266_INVALID_PARAM.

Definition ESP8266_RX_BUF_SIZE : nat := 2048.
Definition ESP8266_TX_BUF_SIZE : nat := 1024.
Definition ESP8266_DEFAULT_TIMEOUT : Z := 3000.

(** [ESP8266_Handle_t], restricted to the members the modelled functions
    touch.  [esp_initialized] is the member [initialized]; it is renamed
    because the MQTT handle has a member of the same name. *)
Record ESP8266_Handle_t := {
  rxBuffer : string;
  rxLength : Z;
  rxComplete : bool;
  txBuffer : string;
  txBusy : bool;
  esp_initialized : bool;
}.

(** ** Types of [esp8266_mqtt.h] *)

Definition MQTT_LINK_ID : Z := 0.
Definition MQTT_CLIENT_ID_MAX_LEN : nat := 64.
Definition MQTT_USERNAME_MAX_LEN : nat := 64.
Definition MQTT_PASSWORD_MAX_LEN : nat := 64.
Definition MQTT_TOPIC_MAX_LEN : nat := 128.
Definition MQTT_MESSAGE_MAX_LEN : nat := 1024.
Definition MQTT_HOST_MAX_LEN : nat := 128.
Definition MQTT_CONNECT_TIMEOUT : Z := 10000.
Definition MQTT_PUBLISH_TIMEOUT : Z := 5000.
Definition MQTT_SUBSCRIBE_TIMEOUT : Z := 5000.
Definition MQTT_DEFAULT_TIMEOUT : Z := 3000.
Definition MQTT_MAX_SUBSCRIPTIONS : nat := 8.

Inductive MQTT_Status_t :=
| MQTT_OK | MQTT_ERROR | MQTT_TIMEOUT | MQTT_NOT_INITIALIZED | MQTT_NOT_CONNECTED
| MQTT_ALREADY_CONNECTED | MQTT_CONNECT_FAIL | MQTT_SUBSCRIBE_FAIL
| MQTT_PUBLISH_FAIL | MQTT_INVALID_PARAM | MQTT_BUFFER_FULL
| MQTT_WIFI_NOT_CONNECTED.

Inductive MQTT_QoS_t := MQTT_QOS_0 | MQTT_QOS_1 | MQTT_QOS_2.

Definition MQTT_QoS_value (q : MQTT_QoS_t) : Z :=
  match q with MQTT_QOS_0 => 0 | MQTT_QOS_1 => 1 | MQTT_QOS_2 => 2 end.

(** [MQTT_Scheme_t] and [MQTT_State_t] are kept as their integer values: the
    handle is zeroed with [memset], and [MQTT_QueryConnection] stores
    whatever integer [atoi] returned into [state]. *)
Definition MQTT_Scheme_t := Z.
Definition MQTT_SCHEME_TCP : MQTT_Scheme_t := 1.

Definition MQTT_State_t := Z.
Definition MQTT_STATE_NOT_INIT : MQTT_State_t := 0.
Definition MQTT_STATE_USER_SET : MQTT_State_t := 1.
Definition MQTT_STATE_CONN_SET : MQTT_State_t := 2.
Definition MQTT_STATE_DISCONNECTED : MQTT_State_t := 3.
Definition MQTT_STATE_CONNECTED : MQTT_State_t := 4.
Definition MQTT_STATE_CONN_NO_SUB : MQTT_State_t := 5.
Definition MQTT_STATE_CONN_WITH_SUB : MQTT_State_t := 6.

Record MQTT_UserConfig_t := {
  scheme : MQTT_Scheme_t;
  clientId : string;
  username : string;
  password : string;
  certKeyId : Z;
  caId : Z;
  path : string;
}.

Record MQTT_ConnConfig_t := {
  keepAlive : Z;
  disableCleanSession : Z;
  lwtTopic : string;
  lwtMessage : string;
  lwtQos : MQTT_QoS_t;
  lwtRetain : Z;
}.

Record MQTT_BrokerConfig_t := {
  host : string;
  port : Z;
  reconnect : Z;
}.

Record MQTT_Subscription_t := {
  topic : string;
  qos : MQTT_QoS_t;
  active : bool;
}.

(** The members [topic] and [qos] of [MQTT_Message_t] are [msg_topic] and
    [msg_qos] here; [data] holds the [dataLen] bytes copied by the parser
    (capped at the size of the array). *)
Record MQTT_Message_t := {
  msg_topic : string;
  data : string;
  dataLen : Z;
  msg_qos : MQTT_QoS_t;
  retain : Z;
}.

(** Modelled from the spec: [MQTT_ProcessData] reads [mqtt.msgPending] and
    [mqtt.msgBuffer], two members that the header under [Core/Inc] does not
    declare.  They are the flagged "message pending" condition of the design
    document, serviced first on every processing tick: a flag, and the
    buffer holding the line that is pending. *)
Record MQTT_Pending_t := {
  msgPending : bool;
  msgBuffer : string;
}.

(** A callback member is [true] when a function is registered and [false]
    when the pointer is null.  [pending] groups the two members described
    above. *)
Record MQTT_Handle_t := {
  userConfig : MQTT_UserConfig_t;
  connConfig : MQTT_ConnConfig_t;
  brokerConfig : MQTT_BrokerConfig_t;
  subscriptions : list MQTT_Subscription_t;
  subscriptionCount : Z;
  state : MQTT_State_t;
  initialized : bool;
  connected : bool;
  publishCount : Z;
  receiveCount : Z;
  reconnectCount : Z;
  onConnected : bool;
  onDisconnected : bool;
  onMessageReceived : bool;
  onPublishComplete : bool;
  onSubscribed : bool;
  onUnsubscribed : bool;
  onError : bool;
  pending : MQTT_Pending_t;
}.

(** What an application callback was called with.  The callbacks are the
    application's code; the embedding records each invocation and lets the
    callback return without touching the handles. *)
Inductive Callback :=
| Call_onConnected
| Call_onDisconnected
| Call_onMessageReceived (message : MQTT_Message_t)
| Call_onPublishComplete (t : string)
| Call_onSubscribed (t : string)
| Call_onUnsubscribed (t : string)
| Call_onError (error : MQTT_Status_t).

(** ** The board: clock, UART and DMA *)

Inductive HAL_StatusTypeDef := HAL_OK | HAL_ERROR | HAL_BUSY | HAL_TIMEOUT.

(** The interrupts of the UART wired to the co-processor: a receive event
    that delivers the bytes the DMA wrote to [dmaRxBuffer], and the
    completion of a DMA transmission. *)
Inductive Irq :=
| RxEvent (received : string)
| TxCplt.

(** [uart_irq t] lists the interrupts that fire when the clock reaches
    millisecond [t]; [uart_tx_dma t] is what [HAL_UART_Transmit_DMA]
    answers when it is called at millisecond [t]. *)
Record Board := {
  uart_irq : Z -> list Irq;
  uart_tx_dma : Z -> HAL_StatusTypeDef;
}.

Record World := {
  board : Board;
  now : Z;
  esp8266 : ESP8266_Handle_t;
  mqtt : MQTT_Handle_t;
  wire : list string;
  calls : list Callback;
}.

Definition with_now (t : Z) (w : World) : World :=
  {| board := board w; now := t; esp8266 := esp8266 w; mqtt := mqtt w;
     wire := wire w; calls := calls w |}.

Definition with_esp8266 (e : ESP8266_Handle_t) (w : World) : World :=
  {| board := board w; now := now w; esp8266 := e; mqtt := mqtt w;
     wire := wire w; calls := calls w |}.

Definition with_mqtt (m : MQTT_Handle_t) (w : World) : World :=
  {| board := board w; now := now w; esp8266 := esp8266 w; mqtt := m;
     wire := wire w; calls := calls w |}.

Definition transmit (sent : string) (w : World) : World :=
  {| board := board w; now := now w; esp8266 := esp8266 w; mqtt := mqtt w;
     wire := wire w ++ [sent]; calls := calls w |}.

Definition invoke (c : Callback) (w : World) : World :=
  {| board := board w; now := now w; esp8266 := esp8266 w; mqtt := mqtt w;
     wire := wire w; calls := calls w ++ [c] |}.

Definition with_rx (buf : string) (len : Z) (complete : bool)
    (e : ESP8266_Handle_t) : ESP8266_Handle_t :=
  {| rxBuffer := buf; rxLength := len; rxComplete := complete;
     txBuffer := txBuffer e; txBusy := txBusy e;
     esp_initialized := esp_initialized e |}.

Definition with_txBusy (b : bool) (e : ESP8266_Handle_t) : ESP8266_Handle_t :=
  {| rxBuffer := rxBuffer e; rxLength := rxLength e; rxComplete := rxComplete e;
     txBuffer := txBuffer e; txBusy := b;
     esp_initialized := esp_initialized e |}.

Definition with_txBuffer (s : string) (e : ESP8266_Handle_t) : ESP8266_Handle_t :=
  {| rxBuffer := rxBuffer e; rxLength := rxLength e; rxComplete := rxComplete e;
     txBuffer := s; txBusy := txBusy e;
     esp_initialized := esp_initialized e |}.

(** [memcpy (rxBuffer, dmaRxBuffer, Size); rxBuffer[Size] = '\0'] *)
Definition receive_into (old received : string) : string :=
  (received ++ String NUL (ptr_add old (S (String.length received))))%string.

(** [HAL_UARTEx_RxEventCallback] for the co-processor's UART. *)
Definition HAL_UARTEx_RxEventCallback (received : string) (w : World) : World :=
  let Size := Z.of_nat (String.length received) in
  if 0 <? Size then
    with_esp8266
      (with_rx (receive_into (rxBuffer (esp8266 w)) received) Size true (esp8266 w)) w
  else w.

(** [HAL_UART_TxCpltCallback] for the co-processor's UART. *)
Definition HAL_UART_TxCpltCallback (w : World) : World :=
  with_esp8266 (with_txBusy false (esp8266 w)) w.

Definition handle_irq (w : World) (i : Irq) : World :=
  match i with
  | RxEvent received => HAL_UARTEx_RxEventCallback received w
  | TxCplt => HAL_UART_TxCpltCallback w
  end.

(** One millisecond passes: the clock advances and the interrupts due at
    the new instant are served. *)
Definition SysTick (w : World) : World :=
  let t := now w + 1 in
  fold_left handle_irq (uart_irq (board w) t) (with_now t w).

Definition HAL_GetTick (w : World) : Z := uint32 (now w).

(** [HAL_Delay ms] returns once [ms] ticks have passed. *)
Definition HAL_Delay (ms : Z) (w : World) : World :=
  Nat.iter (Z.to_nat ms) SysTick w.

(** [HAL_UART_Transmit_DMA (esp8266.huart, data, len)]: when the HAL
    accepts the request the first [len] bytes go out on the wire. *)
Definition HAL_UART_Transmit_DMA (data : string) (len : Z) (w : World)
    : HAL_StatusTypeDef * World :=
  match uart_tx_dma (board w) (now w) with
  | HAL_OK => (HAL_OK, transmit (bytes data (Z.to_nat len)) w)
  | st => (st, w)
  end.

(** ** [esp8266.c]: transport and command engine *)

(** A function that waits in a loop takes [fuel], the number of iterations
    each of its loops may run, and answers [None] when a loop needs more.
    [call (r, w) := f ... ;; k] runs such a function and goes on with its
    result and the world it left. *)
Notation "'call' ( r , w ) := f ;; k" :=
  (match f with Some (r, w) => k | None => None end)
  (at level 10, r pattern, w name, f at level 99, k at level 200,
   format "'[v' 'call'  ( r ,  w )  :=  f  ;;  '/' k ']'").

Definition ESP8266_Delay (ms : Z) (w : World) : World := HAL_Delay ms w.

(** The first wait of [ESP8266_SendDMA]: [Some st] when the function
    returned [st] from inside the loop, [None] when the loop was left. *)
Fixpoint ESP8266_SendDMA_wait_idle (fuel : nat) (timeout : Z) (w : World)
    : option (option ESP8266_Status_t * World) :=
  match fuel with
  | O => None
  | S fuel' =>
      if txBusy (esp8266 w) then
        if uint32 (HAL_GetTick w - timeout) >? 1000
        then Some (Some ESP8266_TIMEOUT, w)
        else ESP8266_SendDMA_wait_idle fuel' timeout (ESP8266_Delay 1 w)
      else Some (None, w)
  end.

(** The second wait of [ESP8266_SendDMA]. *)
Fixpoint ESP8266_SendDMA_wait_done (fuel : nat) (timeout : Z) (w : World)
    : option (option ESP8266_Status_t * World) :=
  match fuel with
  | O => None
  | S fuel' =>
      if txBusy (esp8266 w) then
        if uint32 (HAL_GetTick w - timeout) >? 5000
        then Some (Some ESP8266_TIMEOUT,
                   with_esp8266 (with_txBusy false (esp8266 w)) w)
        else ESP8266_SendDMA_wait_done fuel' timeout (ESP8266_Delay 1 w)
      else Some (None, w)
  end.

(** [data] is [None] for a null pointer; [len] is a [uint16_t]. *)
Definition ESP8266_SendDMA (fuel : nat) (data : option string) (len : Z)
    (w : World) : option (ESP8266_Status_t * World) :=
  match data with
  | None => Some (ESP8266_INVALID_PARAM, w)
  | Some data =>
      if len =? 0 then Some (ESP8266_INVALID_PARAM, w) else
      let timeout := HAL_GetTick w in
      call (ret, w) := ESP8266_SendDMA_wait_idle fuel timeout w ;;
      match ret with
      | Some st => Some (st, w)
      | None =>
          let w := with_esp8266 (with_txBusy true (esp8266 w)) w in
          match HAL_UART_Transmit_DMA data len w with
          | (HAL_OK, w) =>
              let timeout := HAL_GetTick w in
              call (ret, w) := ESP8266_SendDMA_wait_done fuel timeout w ;;
              match ret with
              | Some st => Some (st, w)
              | None => Some (ESP8266_OK, w)
              end
          | (_, w) =>
              Some (ESP8266_ERROR, with_esp8266 (with_txBusy false (esp8266 w)) w)
          end
      end
  end.

Definition ESP8266_ClearBuffer (w : World) : World :=
  with_esp8266 (with_rx EmptyString 0 false (esp8266 w)) w.

Definition ESP8266_ContainsString (str : string) (w : World) : bool :=
  match strstr (rxBuffer (esp8266 w)) str with
  | Some _ => true
  | None => false
  end.

Definition ESP8266_GetResponseBuffer (w : World) : string := rxBuffer (esp8266 w).

Fixpoint ESP8266_WaitForResponse_loop (fuel : nat) (response : string)
    (timeout start : Z) (w : World) : option (bool * World) :=
  match fuel with
  | O => None
  | S fuel' =>
      if uint32 (HAL_GetTick w - start) <? timeout then
        if ESP8266_ContainsString response w then Some (true, w)
        else ESP8266_WaitForResponse_loop fuel' response timeout start
               (ESP8266_Delay 10 w)
      else Some (false, w)
  end.

(** [timeout] is a [uint32_t]. *)
Definition ESP8266_WaitForResponse (fuel : nat) (response : string)
    (timeout : Z) (w : World) : option (bool * World) :=
  let start := HAL_GetTick w in
  ESP8266_WaitForResponse_loop fuel response timeout start w.

(** [cmd] and [expectedResp] are [None] for a null pointer. *)
Definition ESP8266_SendCommand (fuel : nat) (cmd expectedResp : option string)
    (timeout : Z) (w : World) : option (ESP8266_Status_t * World) :=
  match cmd with
  | None => Some (ESP8266_INVALID_PARAM, w)
  | Some cmd =>
      let w := ESP8266_ClearBuffer w in
      call (_, w) := ESP8266_SendDMA fuel (Some cmd) (uint16 (strlen cmd)) w ;;
      match expectedResp with
      | None => Some (ESP8266_OK, w)
      | Some expectedResp =>
          call (found, w) := ESP8266_WaitForResponse fuel expectedResp timeout w ;;
          if found then Some (ESP8266_OK, w)
          else if ESP8266_ContainsString "ERROR" w then Some (ESP8266_ERROR, w)
          else if ESP8266_ContainsString "BUSY" w then Some (ESP8266_BUSY, w)
          else Some (ESP8266_TIMEOUT, w)
      end
  end.

(** [text] is the rendering of the format string with its arguments. *)
Definition ESP8266_SendCommandF (fuel : nat) (expectedResp : option string)
    (timeout : Z) (text : string) (w : World)
    : option (ESP8266_Status_t * World) :=
  let w := with_esp8266
             (with_txBuffer (vsnprintf ESP8266_TX_BUF_SIZE text) (esp8266 w)) w in
  ESP8266_SendCommand fuel (Some (txBuffer (esp8266 w))) expectedResp timeout w.

Definition ESP8266_IsInitialized (w : World) : bool := esp_initialized (esp8266 w).
Definition ESP8266_IsTxBusy (w : World) : bool := txBusy (esp8266 w).

(** ** [esp8266_mqtt.c]: the MQTT session *)

(** Assignments to single members of [mqtt]. *)
Definition with_userConfig (v : MQTT_UserConfig_t) (m : MQTT_Handle_t) : MQTT_Handle_t :=
  {| userConfig := v; connConfig := connConfig m;
     brokerConfig := brokerConfig m; subscriptions := subscriptions m;
     subscriptionCount := subscriptionCount m; state := state m;
     initialized := initialized m; connected := connected m;
     publishCount := publishCount m; receiveCount := receiveCount m;
     reconnectCount := reconnectCount m; onConnected := onConnected m;
     onDisconnected := onDisconnected m;
     onMessageReceived := onMessageReceived m;
     onPublishComplete := onPublishComplete m;
     onSubscribed := onSubscribed m; onUnsubscribed := onUnsubscribed m;
     onError := onError m; pending := pending m |}.

Definition with_brokerConfig (v : MQTT_BrokerConfig_t) (m : MQTT_Handle_t) : MQTT_Handle_t :=
  {| userConfig := userConfig m; connConfig := connConfig m;
     brokerConfig := v; subscriptions := subscriptions m;
     subscriptionCount := subscriptionCount m; state := state m;
     initialized := initialized m; connected := connected m;
     publishCount := publishCount m; receiveCount := receiveCount m;
     reconnectCount := reconnectCount m; onConnected := onConnected m;
     onDisconnected := onDisconnected m;
     onMessageReceived := onMessageReceived m;
     onPublishComplete := onPublishComplete m;
     onSubscribed := onSubscribed m; onUnsubscribed := onUnsubscribed m;
     onError := onError m; pending := pending m |}.

Definition with_subscriptions (v : list MQTT_Subscription_t) (m : MQTT_Handle_t) : MQTT_Handle_t :=
  {| userConfig := userConfig m; connConfig := connConfig m;
     brokerConfig := brokerConfig m; subscriptions := v;
     subscriptionCount := subscriptionCount m; state := state m;
     initialized := initialized m; connected := connected m;
     publishCount := publishCount m; receiveCount := receiveCount m;
     reconnectCount := reconnectCount m; onConnected := onConnected m;
     onDisconnected := onDisconnected m;
     onMessageReceived := onMessageReceived m;
     onPublishComplete := onPublishComplete m;
     onSubscribed := onSubscribed m; onUnsubscribed := onUnsubscribed m;
     onError := onError m; pending := pending m |}.

Definition with_subscriptionCount (v : Z) (m : MQTT_Handle_t) : MQTT_Handle_t :=
  {| userConfig := userConfig m; connConfig := connConfig m;
     brokerConfig := brokerConfig m; subscriptions := subscriptions m;
     subscriptionCount := v; state := state m; initialized := initialized m;
     connected := connected m; publishCount := publishCount m;
     receiveCount := receiveCount m; reconnectCount := reconnectCount m;
     onConnected := onConnected m; onDisconnected := onDisconnected m;
     onMessageReceived := onMessageReceived m;
     onPublishComplete := onPublishComplete m;
     onSubscribed := onSubscribed m; onUnsubscribed := onUnsubscribed m;
     onError := onError m; pending := pending m |}.

Definition with_state (v : MQTT_State_t) (m : MQTT_Handle_t) : MQTT_Handle_t :=
  {| userConfig := userConfig m; connConfig := connConfig m;
     brokerConfig := brokerConfig m; subscriptions := subscriptions m;
     subscriptionCount := subscriptionCount m; state := v;
     initialized := initialized m; connected := connected m;
     publishCount := publishCount m; receiveCount := receiveCount m;
     reconnectCount := reconnectCount m; onConnected := onConnected m;
     onDisconnected := onDisconnected m;
     onMessageReceived := onMessageReceived m;
     onPublishComplete := onPublishComplete m;
     onSubscribed := onSubscribed m; onUnsubscribed := onUnsubscribed m;
     onError := onError m; pending := pending m |}.

Definition with_connected (v : bool) (m : MQTT_Handle_t) : MQTT_Handle_t :=
  {| userConfig := userConfig m; connConfig := connConfig m;
     brokerConfig := brokerConfig m; subscriptions := subscriptions m;
     subscriptionCount := subscriptionCount m; state := state m;
     initialized := initialized m; connected := v;
     publishCount := publishCount m; receiveCount := receiveCount m;
     reconnectCount := reconnectCount m; onConnected := onConnected m;
     onDisconnected := onDisconnected m;
     onMessageReceived := onMessageReceived m;
     onPublishComplete := onPublishComplete m;
     onSubscribed := onSubscribed m; onUnsubscribed := onUnsubscribed m;
     onError := onError m; pending := pending m |}.

Definition with_publishCount (v : Z) (m : MQTT_Handle_t) : MQTT_Handle_t :=
  {| userConfig := userConfig m; connConfig := connConfig m;
     brokerConfig := brokerConfig m; subscriptions := subscriptions m;
     subscriptionCount := subscriptionCount m; state := state m;
     initialized := initialized m; connected := connected m;
     publishCount := v; receiveCount := receiveCount m;
     reconnectCount := reconnectCount m; onConnected := onConnected m;
     onDisconnected := onDisconnected m;
     onMessageReceived := onMessageReceived m;
     onPublishComplete := onPublishComplete m;
     onSubscribed := onSubscribed m; onUnsubscribed := onUnsubscribed m;
     onError := onError m; pending := pending m |}.

Definition with_receiveCount (v : Z) (m : MQTT_Handle_t) : MQTT_Handle_t :=
  {| userConfig := userConfig m; connConfig := connConfig m;
     brokerConfig := brokerConfig m; subscriptions := subscriptions m;
     subscriptionCount := subscriptionCount m; state := state m;
     initialized := initialized m; connected := connected m;
     publishCount := publishCount m; receiveCount := v;
     reconnectCount := reconnectCount m; onConnected := onConnected m;
     onDisconnected := onDisconnected m;
     onMessageReceived := onMessageReceived m;
     onPublishComplete := onPublishComplete m;
     onSubscribed := onSubscribed m; onUnsubscribed := onUnsubscribed m;
     onError := onError m; pending := pending m |}.

Definition with_reconnectCount (v : Z) (m : MQTT_Handle_t) : MQTT_Handle_t :=
  {| userConfig := userConfig m; connConfig := connConfig m;
     brokerConfig := brokerConfig m; subscriptions := subscriptions m;
     subscriptionCount := subscriptionCount m; state := state m;
     initialized := initialized m; connected := connected m;
     publishCount := publishCount m; receiveCount := receiveCount m;
     reconnectCount := v; onConnected := onConnected m;
     onDisconnected := onDisconnected m;
     onMessageReceived := onMessageReceived m;
     onPublishComplete := onPublishComplete m;
     onSubscribed := onSubscribed m; onUnsubscribed := onUnsubscribed m;
     onError := onError m; pending := pending m |}.

Definition with_onConnected (v : bool) (m : MQTT_Handle_t) : MQTT_Handle_t :=
  {| userConfig := userConfig m; connConfig := connConfig m;
     brokerConfig := brokerConfig m; subscriptions := subscriptions m;
     subscriptionCount := subscriptionCount m; state := state m;
     initialized := initialized m; connected := connected m;
     publishCount := publishCount m; receiveCount := receiveCount m;
     reconnectCount := reconnectCount m; onConnected := v;
     onDisconnected := onDisconnected m;
     onMessageReceived := onMessageReceived m;
     onPublishComplete := onPublishComplete m;
     onSubscribed := onSubscribed m; onUnsubscribed := onUnsubscribed m;
     onError := onError m; pending := pending m |}.

Definition with_onDisconnected (v : bool) (m : MQTT_Handle_t) : MQTT_Handle_t :=
  {| userConfig := userConfig m; connConfig := connConfig m;
     brokerConfig := brokerConfig m; subscriptions := subscriptions m;
     subscriptionCount := subscriptionCount m; state := state m;
     initialized := initialized m; connected := connected m;
     publishCount := publishCount m; receiveCount := receiveCount m;
     reconnectCount := reconnectCount m; onConnected := onConnected m;
     onDisconnected := v; onMessageReceived := onMessageReceived m;
     onPublishComplete := onPublishComplete m;
     onSubscribed := onSubscribed m; onUnsubscribed := onUnsubscribed m;
     onError := onError m; pending := pending m |}.

Definition with_onMessageReceived (v : bool) (m : MQTT_Handle_t) : MQTT_Handle_t :=
  {| userConfig := userConfig m; connConfig := connConfig m;
     brokerConfig := brokerConfig m; subscriptions := subscriptions m;
     subscriptionCount := subscriptionCount m; state := state m;
     initialized := initialized m; connected := connected m;
     publishCount := publishCount m; receiveCount := receiveCount m;
     reconnectCount := reconnectCount m; onConnected := onConnected m;
     onDisconnected := onDisconnected m; onMessageReceived := v;
     onPublishComplete := onPublishComplete m;
     onSubscribed := onSubscribed m; onUnsubscribed := onUnsubscribed m;
     onError := onError m; pending := pending m |}.

Definition with_onPublishComplete (v : bool) (m : MQTT_Handle_t) : MQTT_Handle_t :=
  {| userConfig := userConfig m; connConfig := connConfig m;
     brokerConfig := brokerConfig m; subscriptions := subscriptions m;
     subscriptionCount := subscriptionCount m; state := state m;
     initialized := initialized m; connected := connected m;
     publishCount := publishCount m; receiveCount := receiveCount m;
     reconnectCount := reconnectCount m; onConnected := onConnected m;
     onDisconnected := onDisconnected m;
     onMessageReceived := onMessageReceived m; onPublishComplete := v;
     onSubscribed := onSubscribed m; onUnsubscribed := onUnsubscribed m;
     onError := onError m; pending := pending m |}.

Definition with_onSubscribed (v : bool) (m : MQTT_Handle_t) : MQTT_Handle_t :=
  {| userConfig := userConfig m; connConfig := connConfig m;
     brokerConfig := brokerConfig m; subscriptions := subscriptions m;
     subscriptionCount := subscriptionCount m; state := state m;
     initialized := initialized m; connected := connected m;
     publishCount := publishCount m; receiveCount := receiveCount m;
     reconnectCount := reconnectCount m; onConnected := onConnected m;
     onDisconnected := onDisconnected m;
     onMessageReceived := onMessageReceived m;
     onPublishComplete := onPublishComplete m; onSubscribed := v;
     onUnsubscribed := onUnsubscribed m; onError := onError m;
     pending := pending m |}.

Definition with_onUnsubscribed (v : bool) (m : MQTT_Handle_t) : MQTT_Handle_t :=
  {| userConfig := userConfig m; connConfig := connConfig m;
     brokerConfig := brokerConfig m; subscriptions := subscriptions m;
     subscriptionCount := subscriptionCount m; state := state m;
     initialized := initialized m; connected := connected m;
     publishCount := publishCount m; receiveCount := receiveCount m;
     reconnectCount := reconnectCount m; onConnected := onConnected m;
     onDisconnected := onDisconnected m;
     onMessageReceived := onMessageReceived m;
     onPublishComplete := onPublishComplete m;
     onSubscribed := onSubscribed m; onUnsubscribed := v;
     onError := onError m; pending := pending m |}.

Definition with_onError (v : bool) (m : MQTT_Handle_t) : MQTT_Handle_t :=
  {| userConfig := userConfig m; connConfig := connConfig m;
     brokerConfig := brokerConfig m; subscriptions := subscriptions m;
     subscriptionCount := subscriptionCount m; state := state m;
     initialized := initialized m; connected := connected m;
     publishCount := publishCount m; receiveCount := receiveCount m;
     reconnectCount := reconnectCount m; onConnected := onConnected m;
     onDisconnected := onDisconnected m;
     onMessageReceived := onMessageReceived m;
     onPublishComplete := onPublishComplete m;
     onSubscribed := onSubscribed m; onUnsubscribed := onUnsubscribed m;
     onError := v; pending := pending m |}.

Definition with_pending (v : MQTT_Pending_t) (m : MQTT_Handle_t) : MQTT_Handle_t :=
  {| userConfig := userConfig m; connConfig := connConfig m;
     brokerConfig := brokerConfig m; subscriptions := subscriptions m;
     subscriptionCount := subscriptionCount m; state := state m;
     initialized := initialized m; connected := connected m;
     publishCount := publishCount m; receiveCount := receiveCount m;
     reconnectCount := reconnectCount m; onConnected := onConnected m;
     onDisconnected := onDisconnected m;
     onMessageReceived := onMessageReceived m;
     onPublishComplete := onPublishComplete m;
     onSubscribed := onSubscribed m; onUnsubscribed := onUnsubscribed m;
     onError := onError m; pending := v |}.

Definition zero_subscription : MQTT_Subscription_t :=
  {| topic := EmptyString; qos := MQTT_QOS_0; active := false |}.

(** [memset (&mqtt, 0, sizeof (MQTT_Handle_t))] *)
Definition zero_handle : MQTT_Handle_t :=
  {| userConfig := {| scheme := 0; clientId := EmptyString; username := EmptyString;
                      password := EmptyString; certKeyId := 0; caId := 0;
                      path := EmptyString |};
     connConfig := {| keepAlive := 0; disableCleanSession := 0;
                      lwtTopic := EmptyString; lwtMessage := EmptyString;
                      lwtQos := MQTT_QOS_0; lwtRetain := 0 |};
     brokerConfig := {| host := EmptyString; port := 0; reconnect := 0 |};
     subscriptions := replicate MQTT_MAX_SUBSCRIPTIONS zero_subscription;
     subscriptionCount := 0;
     state := 0; initialized := false; connected := false;
     publishCount := 0; receiveCount := 0; reconnectCount := 0;
     onConnected := false; onDisconnected := false; onMessageReceived := false;
     onPublishComplete := false; onSubscribed := false; onUnsubscribed := false;
     onError := false;
     pending := {| msgPending := false; msgBuffer := EmptyString |} |}.

Definition MQTT_Delay (ms : Z) (w : World) : World := HAL_Delay ms w.

(** The command lines, as the format strings of the source render them. *)
Definition AT_MQTTUSERCFG (cid user pass : string) : string :=
  "AT+MQTTUSERCFG=" +:+ itoa MQTT_LINK_ID +:+ "," +:+ itoa MQTT_SCHEME_TCP
  +:+ "," +:+ DQ +:+ cstr cid +:+ DQ +:+ "," +:+ DQ +:+ cstr user +:+ DQ
  +:+ "," +:+ DQ +:+ cstr pass +:+ DQ +:+ ",0,0," +:+ DQ +:+ DQ +:+ CRLF.

Definition AT_MQTTCONN (b : MQTT_BrokerConfig_t) : string :=
  "AT+MQTTCONN=" +:+ itoa MQTT_LINK_ID +:+ "," +:+ DQ +:+ cstr (host b) +:+ DQ
  +:+ "," +:+ itoa (port b) +:+ "," +:+ itoa (reconnect b) +:+ CRLF.

Definition AT_MQTTCONN_query : string := "AT+MQTTCONN?" +:+ CRLF.

Definition AT_MQTTCLEAN : string := "AT+MQTTCLEAN=" +:+ itoa MQTT_LINK_ID +:+ CRLF.

Definition AT_MQTTSUB (t : string) (q : MQTT_QoS_t) : string :=
  "AT+MQTTSUB=" +:+ itoa MQTT_LINK_ID +:+ "," +:+ DQ +:+ cstr t +:+ DQ
  +:+ "," +:+ itoa (MQTT_QoS_value q) +:+ CRLF.

Definition AT_MQTTUNSUB (t : string) : string :=
  "AT+MQTTUNSUB=" +:+ itoa MQTT_LINK_ID +:+ "," +:+ DQ +:+ cstr t +:+ DQ +:+ CRLF.

Definition AT_MQTTPUBRAW (t : string) (len : Z) (q : MQTT_QoS_t) (retain' : Z)
    : string :=
  "AT+MQTTPUBRAW=" +:+ itoa MQTT_LINK_ID +:+ "," +:+ DQ +:+ cstr t +:+ DQ
  +:+ "," +:+ itoa len +:+ "," +:+ itoa (MQTT_QoS_value q)
  +:+ "," +:+ itoa (if retain' =? 0 then 0 else 1) +:+ CRLF.

(** The handle after [memset] and the default values of [MQTT_Init]. *)
Definition init_handle : MQTT_Handle_t :=
  {| userConfig := {| scheme := MQTT_SCHEME_TCP; clientId := EmptyString;
                      username := EmptyString; password := EmptyString;
                      certKeyId := 0; caId := 0; path := EmptyString |};
     connConfig := {| keepAlive := 120; disableCleanSession := 0;
                      lwtTopic := EmptyString; lwtMessage := EmptyString;
                      lwtQos := MQTT_QOS_0; lwtRetain := 0 |};
     brokerConfig := {| host := EmptyString; port := 1883; reconnect := 1 |};
     subscriptions := replicate MQTT_MAX_SUBSCRIPTIONS zero_subscription;
     subscriptionCount := 0;
     state := MQTT_STATE_NOT_INIT; initialized := true; connected := false;
     publishCount := 0; receiveCount := 0; reconnectCount := 0;
     onConnected := false; onDisconnected := false; onMessageReceived := false;
     onPublishComplete := false; onSubscribed := false; onUnsubscribed := false;
     onError := false;
     pending := {| msgPending := false; msgBuffer := EmptyString |} |}.

Definition MQTT_Init (w : World) : MQTT_Status_t * World :=
  if negb (ESP8266_IsInitialized w) then (MQTT_NOT_INITIALIZED, w)
  else (MQTT_OK, with_mqtt init_handle w).

(** [if (mqtt.cb) mqtt.cb (...)] *)
Definition fire (registered : bool) (c : Callback) (w : World) : World :=
  if registered then invoke c w else w.

Definition MQTT_SetUserConfigSimple (fuel : nat)
    (clientId' username' password' : option string) (w : World)
    : option (MQTT_Status_t * World) :=
  if negb (initialized (mqtt w)) then Some (MQTT_NOT_INITIALIZED, w) else
  match clientId' with
  | None => Some (MQTT_INVALID_PARAM, w)
  | Some cid =>
      call (ret, w) :=
        ESP8266_SendCommandF fuel (Some "OK") MQTT_DEFAULT_TIMEOUT
          (AT_MQTTUSERCFG cid (default EmptyString username')
             (default EmptyString password')) w ;;
      match ret with
      | ESP8266_OK =>
          let u := userConfig (mqtt w) in
          let u :=
            {| scheme := MQTT_SCHEME_TCP;
               clientId := strncpy cid (MQTT_CLIENT_ID_MAX_LEN - 1);
               username := match username' with
                           | Some n => strncpy n (MQTT_USERNAME_MAX_LEN - 1)
                           | None => username u
                           end;
               password := match password' with
                           | Some p => strncpy p (MQTT_PASSWORD_MAX_LEN - 1)
                           | None => password u
                           end;
               certKeyId := certKeyId u; caId := caId u; path := path u |} in
          Some (MQTT_OK,
                with_mqtt (with_state MQTT_STATE_USER_SET
                             (with_userConfig u (mqtt w))) w)
      | _ => Some (MQTT_ERROR, w)
      end
  end.

Definition MQTT_SetBroker (host' : option string) (port' reconnect' : Z)
    (w : World) : MQTT_Status_t * World :=
  match host' with
  | None => (MQTT_INVALID_PARAM, w)
  | Some h =>
      let b := {| host := strncpy h (MQTT_HOST_MAX_LEN - 1); port := port';
                  reconnect := if reconnect' =? 0 then 0 else 1 |} in
      (MQTT_OK, with_mqtt (with_brokerConfig b (mqtt w)) w)
  end.

Definition MQTT_Connect (fuel : nat) (w : World) : option (MQTT_Status_t * World) :=
  call (ret, w) :=
    ESP8266_SendCommandF fuel (Some "OK") MQTT_CONNECT_TIMEOUT
      (AT_MQTTCONN (brokerConfig (mqtt w))) w ;;
  match ret with
  | ESP8266_OK =>
      let w := with_mqtt (with_state MQTT_STATE_CONN_NO_SUB
                            (with_connected true (mqtt w))) w in
      Some (MQTT_OK, fire (onConnected (mqtt w)) Call_onConnected w)
  | _ =>
      let w := with_mqtt (with_state MQTT_STATE_DISCONNECTED
                            (with_connected false (mqtt w))) w in
      Some (MQTT_CONNECT_FAIL,
            fire (onError (mqtt w)) (Call_onError MQTT_CONNECT_FAIL) w)
  end.

Definition MQTT_Disconnect (fuel : nat) (w : World) : option (MQTT_Status_t * World) :=
  if negb (initialized (mqtt w)) then Some (MQTT_NOT_INITIALIZED, w) else
  call (ret, w) :=
    ESP8266_SendCommandF fuel (Some "OK") MQTT_DEFAULT_TIMEOUT
      AT_MQTTCLEAN w ;;
  let m := with_state MQTT_STATE_DISCONNECTED (with_connected false (mqtt w)) in
  let m := with_subscriptionCount 0
             (with_subscriptions
                (replicate MQTT_MAX_SUBSCRIPTIONS zero_subscription) m) in
  let w := with_mqtt m w in
  let w := fire (onDisconnected (mqtt w)) Call_onDisconnected w in
  Some (match ret with ESP8266_OK => MQTT_OK | _ => MQTT_ERROR end, w).

Definition MQTT_Clean (fuel : nat) (w : World) : option (MQTT_Status_t * World) :=
  call (ret, w) :=
    ESP8266_SendCommandF fuel (Some "OK") MQTT_DEFAULT_TIMEOUT
      AT_MQTTCLEAN w ;;
  let w := with_mqtt (with_state MQTT_STATE_NOT_INIT
                        (with_connected false (mqtt w))) w in
  Some (match ret with ESP8266_OK => MQTT_OK | _ => MQTT_ERROR end, w).

Definition MQTT_Reconnect (fuel : nat) (w : World) : option (MQTT_Status_t * World) :=
  let w := with_mqtt (with_reconnectCount
                        (uint32 (reconnectCount (mqtt w) + 1)) (mqtt w)) w in
  call (_, w) := MQTT_Clean fuel w ;;
  let w := MQTT_Delay 1000 w in
  call (ret, w) :=
    MQTT_SetUserConfigSimple fuel
      (Some (clientId (userConfig (mqtt w))))
      (Some (username (userConfig (mqtt w))))
      (Some (password (userConfig (mqtt w)))) w ;;
  match ret with
  | MQTT_OK => MQTT_Connect fuel w
  | _ => Some (ret, w)
  end.

Definition MQTT_DeInit (fuel : nat) (w : World) : option (MQTT_Status_t * World) :=
  call (_, w) :=
    (if connected (mqtt w) then MQTT_Disconnect fuel w else Some (MQTT_OK, w)) ;;
  call (_, w) := MQTT_Clean fuel w ;;
  Some (MQTT_OK, with_mqtt zero_handle w).

(** The test of both loops over the subscription table:
    [subscriptions[i].active && strcmp (subscriptions[i].topic, topic) == 0]. *)
Definition holds_topic (t : string) (s : MQTT_Subscription_t) : bool :=
  active s && strcmp0 (topic s) t.

(** The loops of [MQTT_AddSubscription] and [MQTT_RemoveSubscription] visit
    the slots of the table in order and return at the first hit, which is
    what [list_find] computes.  [strncpy] stores at most
    [MQTT_TOPIC_MAX_LEN - 1] characters of the topic. *)
Definition MQTT_AddSubscription (t : string) (q : MQTT_QoS_t)
    (m : MQTT_Handle_t) : MQTT_Handle_t :=
  match list_find (λ s, holds_topic t s = true) (subscriptions m) with
  | Some (i, s) =>
      with_subscriptions
        (<[i := {| topic := topic s; qos := q; active := active s |}]>
           (subscriptions m)) m
  | None =>
      match list_find (λ s, active s = false) (subscriptions m) with
      | Some (i, _) =>
          with_subscriptionCount (uint8 (subscriptionCount m + 1))
            (with_subscriptions
               (<[i := {| topic := strncpy t (MQTT_TOPIC_MAX_LEN - 1);
                          qos := q; active := true |}]> (subscriptions m)) m)
      | None => m
      end
  end.

Definition MQTT_RemoveSubscription (t : string) (m : MQTT_Handle_t)
    : MQTT_Handle_t :=
  match list_find (λ s, holds_topic t s = true) (subscriptions m) with
  | Some (i, _) =>
      with_subscriptionCount (uint8 (subscriptionCount m - 1))
        (with_subscriptions (<[i := zero_subscription]> (subscriptions m)) m)
  | None => m
  end.

Definition MQTT_Subscribe (fuel : nat) (topic' : option string) (q : MQTT_QoS_t)
    (w : World) : option (MQTT_Status_t * World) :=
  if negb (initialized (mqtt w)) then Some (MQTT_NOT_INITIALIZED, w) else
  if negb (connected (mqtt w)) then Some (MQTT_NOT_CONNECTED, w) else
  match topic' with
  | None => Some (MQTT_INVALID_PARAM, w)
  | Some t =>
      if subscriptionCount (mqtt w) >=? Z.of_nat MQTT_MAX_SUBSCRIPTIONS
      then Some (MQTT_BUFFER_FULL, w) else
      call (ret, w) :=
        ESP8266_SendCommandF fuel (Some "OK") MQTT_SUBSCRIBE_TIMEOUT
          (AT_MQTTSUB t q) w ;;
      match ret with
      | ESP8266_OK =>
          let w := with_mqtt (MQTT_AddSubscription t q (mqtt w)) w in
          let w := with_mqtt (with_state MQTT_STATE_CONN_WITH_SUB (mqtt w)) w in
          Some (MQTT_OK, fire (onSubscribed (mqtt w)) (Call_onSubscribed (cstr t)) w)
      | _ => Some (MQTT_SUBSCRIBE_FAIL, w)
      end
  end.

Definition MQTT_Unsubscribe (fuel : nat) (topic' : option string) (w : World)
    : option (MQTT_Status_t * World) :=
  if negb (initialized (mqtt w)) then Some (MQTT_NOT_INITIALIZED, w) else
  if negb (connected (mqtt w)) then Some (MQTT_NOT_CONNECTED, w) else
  match topic' with
  | None => Some (MQTT_INVALID_PARAM, w)
  | Some t =>
      call (ret, w) :=
        ESP8266_SendCommandF fuel (Some "OK") MQTT_DEFAULT_TIMEOUT
          (AT_MQTTUNSUB t) w ;;
      match ret with
      | ESP8266_OK =>
          let w := with_mqtt (MQTT_RemoveSubscription t (mqtt w)) w in
          Some (MQTT_OK,
                fire (onUnsubscribed (mqtt w)) (Call_onUnsubscribed (cstr t)) w)
      | _ => Some (MQTT_ERROR, w)
      end
  end.

(** [MQTT_GetSubscriptions] for non-null [list] and [count]: the copied
    entries and [*count]. *)
Definition MQTT_GetSubscriptions (w : World)
    : MQTT_Status_t * list MQTT_Subscription_t * Z :=
  let list' := filter (λ s, active s = true) (subscriptions (mqtt w)) in
  (MQTT_OK, list', uint8 (Z.of_nat (length list'))).

(** The wait loop at the end of [MQTT_Publish]. *)
Fixpoint MQTT_Publish_wait (fuel : nat) (t : string) (startTick : Z) (w : World)
    : option (MQTT_Status_t * World) :=
  match fuel with
  | O => None
  | S fuel' =>
      if uint32 (HAL_GetTick w - startTick) <? MQTT_PUBLISH_TIMEOUT then
        if ESP8266_ContainsString "+MQTTPUB:OK" w || ESP8266_ContainsString "OK" w
        then
          let w := with_mqtt (with_publishCount
                                (uint32 (publishCount (mqtt w) + 1)) (mqtt w)) w in
          Some (MQTT_OK,
                fire (onPublishComplete (mqtt w)) (Call_onPublishComplete (cstr t)) w)
        else if ESP8266_ContainsString "ERROR" w || ESP8266_ContainsString "FAIL" w
        then Some (MQTT_PUBLISH_FAIL, w)
        else MQTT_Publish_wait fuel' t startTick (HAL_Delay 10 w)
      else Some (MQTT_TIMEOUT, w)
  end.

(** The two tests on [mqtt.initialized] and [mqtt.connected] at the head of
    the C function are commented out in the source, so the function starts
    with the test of its arguments. *)
Definition MQTT_Publish (fuel : nat) (topic' message' : option string)
    (q : MQTT_QoS_t) (retain' : Z) (w : World) : option (MQTT_Status_t * World) :=
  match topic', message' with
  | Some t, Some message =>
      let len := uint16 (strlen message) in
      call (ret, w) :=
        ESP8266_SendCommandF fuel (Some ">") MQTT_DEFAULT_TIMEOUT
          (AT_MQTTPUBRAW t len q retain') w ;;
      match ret with
      | ESP8266_OK =>
          let w := ESP8266_ClearBuffer w in
          call (ret, w) := ESP8266_SendDMA fuel (Some message) len w ;;
          match ret with
          | ESP8266_OK =>
              let startTick := HAL_GetTick w in
              MQTT_Publish_wait fuel t startTick w
          | _ => Some (MQTT_PUBLISH_FAIL, w)
          end
      | _ => Some (MQTT_PUBLISH_FAIL, w)
      end
  | _, _ => Some (MQTT_INVALID_PARAM, w)
  end.

(** As in [MQTT_Publish], the two tests on the handle are commented out. *)
Definition MQTT_PublishRaw (fuel : nat) (topic' data' : option string) (len : Z)
    (q : MQTT_QoS_t) (retain' : Z) (w : World) : option (MQTT_Status_t * World) :=
  match topic', data' with
  | Some t, Some d =>
      if len =? 0 then Some (MQTT_INVALID_PARAM, w) else
      call (ret, w) :=
        ESP8266_SendCommandF fuel (Some ">") MQTT_DEFAULT_TIMEOUT
          (AT_MQTTPUBRAW t len q retain') w ;;
      match ret with
      | ESP8266_OK =>
          let w := ESP8266_ClearBuffer w in
          call (ret, w) := ESP8266_SendDMA fuel (Some d) len w ;;
          match ret with
          | ESP8266_OK =>
              call (found, w) :=
                ESP8266_WaitForResponse fuel "+MQTTPUB:OK" MQTT_PUBLISH_TIMEOUT w ;;
              if found then
                let w := with_mqtt (with_publishCount
                                      (uint32 (publishCount (mqtt w) + 1)) (mqtt w)) w in
                Some (MQTT_OK,
                      fire (onPublishComplete (mqtt w))
                        (Call_onPublishComplete (cstr t)) w)
              else Some (MQTT_PUBLISH_FAIL, w)
          | _ => Some (MQTT_PUBLISH_FAIL, w)
          end
      | _ => Some (MQTT_PUBLISH_FAIL, w)
      end
  | _, _ => Some (MQTT_INVALID_PARAM, w)
  end.

Definition MQTT_PublishData (fuel : nat) (topic' data' : option string) (len : Z)
    (q : MQTT_QoS_t) (retain' : Z) (w : World) : option (MQTT_Status_t * World) :=
  if negb (initialized (mqtt w)) then Some (MQTT_NOT_INITIALIZED, w) else
  if negb (connected (mqtt w)) then Some (MQTT_NOT_CONNECTED, w) else
  match topic', data' with
  | Some t, Some d =>
      if len =? 0 then Some (MQTT_INVALID_PARAM, w) else
      if len <? Z.of_nat MQTT_MESSAGE_MAX_LEN then
        let msgBuf := bytes d (Z.to_nat len) in
        MQTT_Publish fuel (Some t) (Some msgBuf) q retain' w
      else MQTT_PublishRaw fuel (Some t) (Some d) len q retain' w
  | _, _ => Some (MQTT_INVALID_PARAM, w)
  end.

Definition MQTT_GetState (w : World) : MQTT_State_t := state (mqtt w).
Definition MQTT_IsConnected (w : World) : bool := connected (mqtt w).
Definition MQTT_IsInitialized (w : World) : bool := initialized (mqtt w).

Definition MQTT_QueryConnection (fuel : nat) (w : World)
    : option (MQTT_Status_t * World) :=
  call (ret, w) :=
    ESP8266_SendCommand fuel (Some AT_MQTTCONN_query) (Some "OK")
      MQTT_DEFAULT_TIMEOUT w ;;
  match ret with
  | ESP8266_OK =>
      match strstr (ESP8266_GetResponseBuffer w) "+MQTTCONN:" with
      | Some ptr =>
          let ptr := ptr_add ptr 10 in
          match strchr ptr ","%char with
          | Some ptr =>
              let ptr := ptr_add ptr 1 in
              let state' := atoi ptr in
              Some (MQTT_OK,
                    with_mqtt (with_connected (state' >=? 4)
                                 (with_state state' (mqtt w))) w)
          | None => Some (MQTT_OK, w)
          end
      | None => Some (MQTT_OK, w)
      end
  | _ => Some (MQTT_ERROR, w)
  end.

Definition MQTT_SetOnConnected (callback : bool) (w : World) : World :=
  with_mqtt (with_onConnected callback (mqtt w)) w.
Definition MQTT_SetOnDisconnected (callback : bool) (w : World) : World :=
  with_mqtt (with_onDisconnected callback (mqtt w)) w.
Definition MQTT_SetOnMessageReceived (callback : bool) (w : World) : World :=
  with_mqtt (with_onMessageReceived callback (mqtt w)) w.
Definition MQTT_SetOnPublishComplete (callback : bool) (w : World) : World :=
  with_mqtt (with_onPublishComplete callback (mqtt w)) w.
Definition MQTT_SetOnSubscribed (callback : bool) (w : World) : World :=
  with_mqtt (with_onSubscribed callback (mqtt w)) w.
Definition MQTT_SetOnUnsubscribed (callback : bool) (w : World) : World :=
  with_mqtt (with_onUnsubscribed callback (mqtt w)) w.
Definition MQTT_SetOnError (callback : bool) (w : World) : World :=
  with_mqtt (with_onError callback (mqtt w)) w.

(** [data] is [None] for a null pointer.  [msg] starts zeroed; the topic is
    copied only when the field after the first comma opens with a quote and
    a closing quote follows. *)
Definition MQTT_ParseSubMessage (data' : option string) (w : World)
    : MQTT_Status_t * World :=
  match data' with
  | None => (MQTT_ERROR, w)
  | Some d =>
      match strstr d "+MQTTSUBRECV:" with
      | None => (MQTT_ERROR, w)
      | Some ptr =>
          let ptr := ptr_add ptr 13 in
          match strchr ptr ","%char with
          | None => (MQTT_ERROR, w)
          | Some ptr =>
              let ptr := ptr_add ptr 1 in
              let '(topic', ptr) :=
                if Ascii.eqb (deref ptr) DQUOTE then
                  let ptr := ptr_add ptr 1 in
                  match strchr_offset ptr DQUOTE with
                  | Some end_minus_ptr =>
                      let end_ := ptr_add ptr end_minus_ptr in
                      let len := end_minus_ptr in
                      let len := if (MQTT_TOPIC_MAX_LEN <=? len)%nat
                                 then (MQTT_TOPIC_MAX_LEN - 1)%nat else len in
                      (strncpy ptr len, ptr_add end_ 1)
                  | None => (EmptyString, ptr)
                  end
                else (EmptyString, ptr) in
              match strchr ptr ","%char with
              | None => (MQTT_ERROR, w)
              | Some ptr =>
                  let ptr := ptr_add ptr 1 in
                  let dataLen' := uint16 (atoi ptr) in
                  match strchr ptr ","%char with
                  | None => (MQTT_ERROR, w)
                  | Some ptr =>
                      let ptr := ptr_add ptr 1 in
                      let copyLen :=
                        if dataLen' >=? Z.of_nat MQTT_MESSAGE_MAX_LEN
                        then Z.of_nat MQTT_MESSAGE_MAX_LEN - 1 else dataLen' in
                      let msg :=
                        {| msg_topic := topic'; data := bytes ptr (Z.to_nat copyLen);
                           dataLen := dataLen'; msg_qos := MQTT_QOS_0; retain := 0 |} in
                      let w := with_mqtt (with_receiveCount
                                            (uint32 (receiveCount (mqtt w) + 1))
                                            (mqtt w)) w in
                      (MQTT_OK,
                       fire (onMessageReceived (mqtt w)) (Call_onMessageReceived msg) w)
                  end
              end
          end
      end
  end.

Definition MQTT_ProcessData (w : World) : World :=
  if negb (initialized (mqtt w)) then w else
  let w :=
    if msgPending (pending (mqtt w)) then
      let w := with_mqtt
                 (with_pending {| msgPending := false;
                                  msgBuffer := msgBuffer (pending (mqtt w)) |}
                    (mqtt w)) w in
      snd (MQTT_ParseSubMessage (Some (msgBuffer (pending (mqtt w)))) w)
    else w in
  let respBuf := ESP8266_GetResponseBuffer w in
  let w :=
    match strstr respBuf "+MQTTDISCONNECTED:" with
    | Some _ =>
        let w := with_mqtt (with_state MQTT_STATE_DISCONNECTED
                              (with_connected false (mqtt w))) w in
        fire (onDisconnected (mqtt w)) Call_onDisconnected w
    | None => w
    end in
  let w :=
    match strstr respBuf "+MQTTCONNECTED:" with
    | Some _ =>
        let w := with_mqtt (with_state MQTT_STATE_CONNECTED
                              (with_connected true (mqtt w))) w in
        fire (onConnected (mqtt w)) Call_onConnected w
    | None => w
    end in
  match strstr respBuf "+MQTTSUBRECV:" with
  | Some _ => snd (MQTT_ParseSubMessage (Some respBuf) w)
  | None => w
  end.

(** [data] is [None] for a null pointer; [len] is a [uint16_t]. *)
Definition MQTT_ProcessMessage (data' : option string) (len : Z) (w : World)
    : World :=
  match data' with
  | None => w
  | Some d =>
      if len =? 0 then w else
      match strstr d "+MQTTSUBRECV:" with
      | Some _ => snd (MQTT_ParseSubMessage (Some d) w)
      | None => w
      end
  end.

(** ** Application programs and boards *)

(** What the application can do between two states: one call of the API, or
    letting time pass. *)
Inductive Api :=
| Api_Init
| Api_DeInit
| Api_SetUserConfigSimple (clientId' username' password' : option string)
| Api_SetBroker (host' : option string) (port' reconnect' : Z)
| Api_Connect
| Api_Disconnect
| Api_Reconnect
| Api_Clean
| Api_Subscribe (topic' : option string) (q : MQTT_QoS_t)
| Api_Unsubscribe (topic' : option string)
| Api_Publish (topic' message' : option string) (q : MQTT_QoS_t) (retain' : Z)
| Api_PublishData (topic' data' : option string) (len : Z) (q : MQTT_QoS_t) (retain' : Z)
| Api_PublishRaw (topic' data' : option string) (len : Z) (q : MQTT_QoS_t) (retain' : Z)
| Api_QueryConnection
| Api_ProcessData
| Api_ProcessMessage (data' : option string) (len : Z)
| Api_SetCallbacks (connected' disconnected' message' publish' subscribed'
                    unsubscribed' error' : bool)
| Api_Delay (ms : Z).

Definition run (fuel : nat) (a : Api) (w : World) : option World :=
  match a with
  | Api_Init => Some (snd (MQTT_Init w))
  | Api_DeInit => snd <$> MQTT_DeInit fuel w
  | Api_SetUserConfigSimple c u p => snd <$> MQTT_SetUserConfigSimple fuel c u p w
  | Api_SetBroker h p r => Some (snd (MQTT_SetBroker h p r w))
  | Api_Connect => snd <$> MQTT_Connect fuel w
  | Api_Disconnect => snd <$> MQTT_Disconnect fuel w
  | Api_Reconnect => snd <$> MQTT_Reconnect fuel w
  | Api_Clean => snd <$> MQTT_Clean fuel w
  | Api_Subscribe t q => snd <$> MQTT_Subscribe fuel t q w
  | Api_Unsubscribe t => snd <$> MQTT_Unsubscribe fuel t w
  | Api_Publish t m q r => snd <$> MQTT_Publish fuel t m q r w
  | Api_PublishData t d l q r => snd <$> MQTT_PublishData fuel t d l q r w
  | Api_PublishRaw t d l q r => snd <$> MQTT_PublishRaw fuel t d l q r w
  | Api_QueryConnection => snd <$> MQTT_QueryConnection fuel w
  | Api_ProcessData => Some (MQTT_ProcessData w)
  | Api_ProcessMessage d l => Some (MQTT_ProcessMessage d l w)
  | Api_SetCallbacks c d m p s u e =>
      Some (MQTT_SetOnError e (MQTT_SetOnUnsubscribed u (MQTT_SetOnSubscribed s
           (MQTT_SetOnPublishComplete p (MQTT_SetOnMessageReceived m
           (MQTT_SetOnDisconnected d (MQTT_SetOnConnected c w)))))))
  | Api_Delay ms => Some (HAL_Delay ms w)
  end.

(** The world at reset: both global handles are zero, nothing was sent and
    no callback was called.  The driver below the MQTT layer may or may not
    have been brought up. *)
Definition boot (b : Board) (t0 : Z) (driver_up : bool) : World :=
  {| board := b; now := t0;
     esp8266 := {| rxBuffer := EmptyString; rxLength := 0; rxComplete := false;
                   txBuffer := EmptyString; txBusy := false;
                   esp_initialized := driver_up |};
     mqtt := zero_handle; wire := []; calls := [] |}.

Inductive reachable : World -> Prop :=
| reachable_boot b t0 up : reachable (boot b t0 up)
| reachable_run fuel a w w' : reachable w -> run fuel a w = Some w' -> reachable w'.

(** A program: the calls the application makes, in order. *)
Fixpoint run_all (fuel : nat) (prog : list Api) (w : World) : option World :=
  match prog with
  | [] => Some w
  | a :: prog' =>
      match run fuel a w with
      | Some w' => run_all fuel prog' w'
      | None => None
      end
  end.

(** A board whose interrupts are listed with the millisecond at which they
    fire, and whose DMA accepts every transmission. *)
Definition scripted (script : list (Z * Irq)) : Board :=
  {| uart_irq := λ t, (filter (λ e, fst e = t) script).*2;
     uart_tx_dma := λ _, HAL_OK |}.

(** The co-processor never answers and no transmission ever completes. *)
Definition silent : Board := scripted [].

(** ** Notions used by the statements *)

Definition count_active (subs : list MQTT_Subscription_t) : nat :=
  length (filter (λ s, active s = true) subs).

(** The subscription table is the array of [MQTT_MAX_SUBSCRIPTIONS] slots
    and [subscriptionCount] counts its active slots. *)
Definition table_ok (m : MQTT_Handle_t) : Prop :=
  length (subscriptions m) = MQTT_MAX_SUBSCRIPTIONS /\
  subscriptionCount m = Z.of_nat (count_active (subscriptions m)).

(** The topic is in the subscription set: an active slot holds it. *)
Definition subscribed (t : string) (m : MQTT_Handle_t) : bool :=
  existsb (holds_topic t) (subscriptions m).

(** The messages handed to [onMessageReceived], oldest first. *)
Definition delivered (cs : list Callback) : list MQTT_Message_t :=
  omap (λ c, match c with Call_onMessageReceived m => Some m | _ => None end) cs.

(** The receive buffer [n] milliseconds after [w]. *)
Definition rx_after (n : Z) (w : World) : string := rxBuffer (esp8266 (HAL_Delay n w)).

Definition contains (buf token : string) : bool :=
  match strstr buf token with Some _ => true | None => false end.

(** The world after [k] ticks. *)
Definition after (k : nat) (w : World) : World := Nat.iter k SysTick w.

(** The part of the world that interrupts and waiting leave alone. *)
Definition same_session (w w' : World) : Prop :=
  board w' = board w /\ mqtt w' = mqtt w /\ calls w' = calls w.

(** The busy flag of the transmit slot [k] ticks after [w]. *)
Definition busy_at (k : nat) (w : World) : bool := txBusy (esp8266 (after k w)).

(** [ESP8266_WaitForResponse] looks at the receive buffer every 10 ms,
    starting when it is called: [poll_instant k] is the time of its look
    number [k] (counted from 0), [seen t k w] tells whether the token is
    in the buffer at that look when the wait starts in [w], and
    [deadline_poll d] is the first look that is not before [d]. *)
Definition poll_instant (k : nat) : Z := 10 * Z.of_nat k.

Definition seen (t : string) (k : nat) (w : World) : bool :=
  ESP8266_ContainsString t (HAL_Delay (poll_instant k) w).

Definition deadline_poll (d : Z) : nat := Z.to_nat ((d + 9) / 10).

(** The subscription table and its counter are the same in both worlds. *)
Definition same_table (w w' : World) : Prop :=
  subscriptions (mqtt w') = subscriptions (mqtt w)
  /\ subscriptionCount (mqtt w') = subscriptionCount (mqtt w).

(** ** Example sessions *)

(** Fuel that suffices for every exchange with a timeout of the library. *)
Definition plenty : nat := Z.to_nat 6000.

(** The co-processor signals the end of the transmission after 1 ms and
    delivers [response] in one piece [at_ms] milliseconds after the start. *)
Definition answering (at_ms : Z) (response : string) : Board :=
  scripted [(1, TxCplt); (at_ms, RxEvent response)].

Definition OK_line : string := CRLF +:+ "OK" +:+ CRLF.

(** An initialized, connected session whose table holds the given entries
    (at most [MQTT_MAX_SUBSCRIPTIONS] of them), with every callback
    registered, on board [b] at time 0. *)
Definition table_of (entries : list (string * MQTT_QoS_t)) : list MQTT_Subscription_t :=
  take MQTT_MAX_SUBSCRIPTIONS
    (map (λ e, {| topic := fst e; qos := snd e; active := true |}) entries
     ++ replicate MQTT_MAX_SUBSCRIPTIONS zero_subscription).

Definition connected_handle (entries : list (string * MQTT_QoS_t)) : MQTT_Handle_t :=
  {| userConfig := userConfig init_handle; connConfig := connConfig init_handle;
     brokerConfig := brokerConfig init_handle;
     subscriptions := table_of entries;
     subscriptionCount := Z.of_nat (count_active (table_of entries));
     state := MQTT_STATE_CONN_WITH_SUB; initialized := true; connected := true;
     publishCount := 0; receiveCount := 0; reconnectCount := 0;
     onConnected := true; onDisconnected := true; onMessageReceived := true;
     onPublishComplete := true; onSubscribed := true; onUnsubscribed := true;
     onError := true;
     pending := {| msgPending := false; msgBuffer := EmptyString |} |}.

Definition connected_session (b : Board) (entries : list (string * MQTT_QoS_t)) : World :=
  with_mqtt (connected_handle entries) (boot b 0 true).

Definition session_acked : World :=
  connected_session (answering 5 OK_line) [("a", MQTT_QOS_0)].

Definition session_unanswered : World :=
  connected_session silent [("a", MQTT_QOS_0)].

(** A co-processor that completes every transmission after 1 ms and answers
    the [n]-th exchange of the program, 4 ms after the start of its
    transmission, with the [n]-th entry of [answers].  [starts] lists the
    instants at which the exchanges start. *)
Definition dialogue (starts : list Z) (answers : list string) : Board :=
  scripted (flat_map (λ p, [(fst p + 1, TxCplt); (fst p + 4, RxEvent (snd p))])
              (zip starts answers)).

(** Connect, subscribe to topic a, then clean: each exchange is answered
    with OK. *)
Definition clean_program : list Api :=
  [Api_Init; Api_Connect; Api_Subscribe (Some "a") MQTT_QOS_0; Api_Clean].

Definition clean_board : Board := dialogue [0; 11; 22] [OK_line; OK_line; OK_line].

(** A session that was initialized and never connected, on a board that
    grants the raw publish and then confirms it. *)
Definition publish_board : Board :=
  dialogue [0; 11] [CRLF +:+ ">"; "+MQTTPUB:OK" +:+ CRLF].

Definition never_connected : World := snd (MQTT_Init (boot publish_board 0 true)).

(** A co-processor that answers OK 2995 ms after the end of the
    transmission, 5 ms before a timeout of 3000 ms runs out. *)
Definition late_answer : World := boot (answering 2996 OK_line) 0 true.

(** The unsolicited line that announces the five bytes hello on topic t/1. *)
Definition SUBRECV_line : string :=
  "+MQTTSUBRECV:0," +:+ DQ +:+ "t/1" +:+ DQ +:+ ",5,hello".

(** An occurrence of [needle] starts at one of the first [n] positions of
    [buf]. *)
Fixpoint occurs_before (needle buf : string) (n : nat) : bool :=
  match n with
  | O => false
  | S n' =>
      String.prefix (cstr needle) buf
      || match buf with
         | String _ rest => occurs_before needle rest n'
         | EmptyString => false
         end
  end.

(** The response to AT+MQTTCONN? as the receive interrupt leaves it in the
    buffer, for a link in state 4, and a co-processor that gives it. *)
Definition MQTTCONN_response : string :=
  "+MQTTCONN:0,4,1," +:+ DQ +:+ "broker.emqx.io" +:+ DQ +:+ ",1883," +:+ DQ +:+ DQ
  +:+ ",1" +:+ CRLF +:+ OK_line.

Definition reports_connected : World :=
  with_mqtt (with_state MQTT_STATE_DISCONNECTED
               (with_connected false (connected_handle [])))
    (boot (answering 5 (CRLF +:+ MQTTCONN_response)) 0 true).

(** The world in which that exchange ends. *)
Definition query_answered : World :=
  match ESP8266_SendCommand plenty (Some AT_MQTTCONN_query) (Some "OK")
          MQTT_DEFAULT_TIMEOUT reports_connected with
  | Some (_, v) => v
  | None => reports_connected
  end.

(** A session whose table is full, on a co-processor that answers the
    three exchanges of [MQTT_Reconnect] with OK. *)
Definition eight_topics : list (string * MQTT_QoS_t) :=
  map (λ t, (t, MQTT_QOS_0)) ["a"; "b"; "c"; "d"; "e"; "f"; "g"; "h"].

Definition full_session : World :=
  connected_session (dialogue [0; 1011; 1022] [OK_line; OK_line; OK_line])
    eight_topics.

(** The call that hands this message to the application. *)
Definition SUBRECV_call : Callback :=
  Call_onMessageReceived
    {| msg_topic := "t/1"; data := "hello"; dataLen := 5;
       msg_qos := MQTT_QOS_0; retain := 0 |}.

(** No event marker of the processing tick is in the buffer. *)
Definition no_event (buf : string) : bool :=
  negb (contains buf "+MQTTDISCONNECTED:") && negb (contains buf "+MQTTCONNECTED:")
  && negb (contains buf "+MQTTSUBRECV:").

(** The two ways in which a line reaches the parser of the processing
    tick: it is the string in the receive buffer while no message is
    pending, or it is the pending message while the receive buffer holds no
    event. *)
Definition fed_to_tick (line : string) (w : World) : Prop :=
  (msgPending (pending (mqtt w)) = false /\ cstr (rxBuffer (esp8266 w)) = line)
  \/ (msgPending (pending (mqtt w)) = true
      /\ cstr (msgBuffer (pending (mqtt w))) = line
      /\ no_event (rxBuffer (esp8266 w)) = true).

(** A session to which the line was delivered by the receive interrupt,
    as it is and followed by CR LF. *)
Definition line_received : World :=
  HAL_UARTEx_RxEventCallback SUBRECV_line session_unanswered.

Definition line_received_crlf : World :=
  HAL_UARTEx_RxEventCallback (SUBRECV_line +:+ CRLF) session_unanswered.

(** The world at reset on a silent board, and the same with a transmission
    in flight that never completes. *)
Definition idle_world : World := boot silent 0 true.


(** ** [esp8266_mqtt.c]: configuration and bulk operations *)

Definition with_connConfig (v : MQTT_ConnConfig_t) (m : MQTT_Handle_t) : MQTT_Handle_t :=
  {| userConfig := userConfig m; connConfig := v;
     brokerConfig := brokerConfig m; subscriptions := subscriptions m;
     subscriptionCount := subscriptionCount m; state := state m;
     initialized := initialized m; connected := connected m;
     publishCount := publishCount m; receiveCount := receiveCount m;
     reconnectCount := reconnectCount m; onConnected := onConnected m;
     onDisconnected := onDisconnected m;
     onMessageReceived := onMessageReceived m;
     onPublishComplete := onPublishComplete m;
     onSubscribed := onSubscribed m; onUnsubscribed := onUnsubscribed m;
     onError := onError m; pending := pending m |}.

(** The command lines of [MQTT_SetUserConfig] and [MQTT_SetConnConfig].
    The character arrays of a configuration hold C strings. *)
Definition AT_MQTTUSERCFG_of (c : MQTT_UserConfig_t) : string :=
  "AT+MQTTUSERCFG=" +:+ itoa MQTT_LINK_ID +:+ "," +:+ itoa (scheme c)
  +:+ "," +:+ DQ +:+ cstr (clientId c) +:+ DQ
  +:+ "," +:+ DQ +:+ cstr (username c) +:+ DQ
  +:+ "," +:+ DQ +:+ cstr (password c) +:+ DQ
  +:+ "," +:+ itoa (certKeyId c) +:+ "," +:+ itoa (caId c)
  +:+ "," +:+ DQ +:+ cstr (path c) +:+ DQ +:+ CRLF.

Definition AT_MQTTCONNCFG (c : MQTT_ConnConfig_t) : string :=
  "AT+MQTTCONNCFG=" +:+ itoa MQTT_LINK_ID +:+ "," +:+ itoa (keepAlive c)
  +:+ "," +:+ itoa (disableCleanSession c)
  +:+ "," +:+ DQ +:+ cstr (lwtTopic c) +:+ DQ
  +:+ "," +:+ DQ +:+ cstr (lwtMessage c) +:+ DQ
  +:+ "," +:+ itoa (MQTT_QoS_value (lwtQos c))
  +:+ "," +:+ itoa (lwtRetain c) +:+ CRLF.

(** [config] is [None] for a null pointer. *)
Definition MQTT_SetUserConfig (fuel : nat) (config : option MQTT_UserConfig_t)
    (w : World) : option (MQTT_Status_t * World) :=
  if negb (initialized (mqtt w)) then Some (MQTT_NOT_INITIALIZED, w) else
  match config with
  | None => Some (MQTT_INVALID_PARAM, w)
  | Some c =>
      call (ret, w) :=
        ESP8266_SendCommandF fuel (Some "OK") MQTT_DEFAULT_TIMEOUT
          (AT_MQTTUSERCFG_of c) w ;;
      match ret with
      | ESP8266_OK =>
          Some (MQTT_OK,
                with_mqtt (with_state MQTT_STATE_USER_SET
                             (with_userConfig c (mqtt w))) w)
      | _ => Some (MQTT_ERROR, w)
      end
  end.

Definition MQTT_SetConnConfig (fuel : nat) (config : option MQTT_ConnConfig_t)
    (w : World) : option (MQTT_Status_t * World) :=
  if negb (initialized (mqtt w)) then Some (MQTT_NOT_INITIALIZED, w) else
  match config with
  | None => Some (MQTT_INVALID_PARAM, w)
  | Some c =>
      call (ret, w) :=
        ESP8266_SendCommandF fuel (Some "OK") MQTT_DEFAULT_TIMEOUT
          (AT_MQTTCONNCFG c) w ;;
      match ret with
      | ESP8266_OK =>
          Some (MQTT_OK,
                with_mqtt (with_state MQTT_STATE_CONN_SET
                             (with_connConfig c (mqtt w))) w)
      | _ => Some (MQTT_ERROR, w)
      end
  end.

(** [keepAlive'] is a [uint16_t].  The value is stored before the
    configuration is sent again, and it is sent from [mqtt.connConfig]
    itself. *)
Definition MQTT_SetKeepAlive (fuel : nat) (keepAlive' : Z) (w : World)
    : option (MQTT_Status_t * World) :=
  let keepAlive' := if keepAlive' >? 7200 then 7200 else keepAlive' in
  let c := connConfig (mqtt w) in
  let c := {| keepAlive := keepAlive';
              disableCleanSession := disableCleanSession c;
              lwtTopic := lwtTopic c; lwtMessage := lwtMessage c;
              lwtQos := lwtQos c; lwtRetain := lwtRetain c |} in
  let w := with_mqtt (with_connConfig c (mqtt w)) w in
  if state (mqtt w) >=? MQTT_STATE_USER_SET
  then MQTT_SetConnConfig fuel (Some (connConfig (mqtt w))) w
  else Some (MQTT_OK, w).

(** [retain'] is a [uint8_t]. *)
Definition MQTT_SetLWT (fuel : nat) (topic' message' : option string)
    (q : MQTT_QoS_t) (retain' : Z) (w : World) : option (MQTT_Status_t * World) :=
  match topic', message' with
  | Some t, Some message =>
      let c := connConfig (mqtt w) in
      let c := {| keepAlive := keepAlive c;
                  disableCleanSession := disableCleanSession c;
                  lwtTopic := strncpy t (MQTT_TOPIC_MAX_LEN - 1);
                  lwtMessage := strncpy message (MQTT_MESSAGE_MAX_LEN - 1);
                  lwtQos := q; lwtRetain := if retain' =? 0 then 0 else 1 |} in
      let w := with_mqtt (with_connConfig c (mqtt w)) w in
      if state (mqtt w) >=? MQTT_STATE_USER_SET
      then MQTT_SetConnConfig fuel (Some (connConfig (mqtt w))) w
      else Some (MQTT_OK, w)
  | _, _ => Some (MQTT_INVALID_PARAM, w)
  end.

Definition MQTT_ConnectToBroker (fuel : nat) (host' : option string) (port' : Z)
    (clientId' username' password' : option string) (w : World)
    : option (MQTT_Status_t * World) :=
  call (ret, w) := MQTT_SetUserConfigSimple fuel clientId' username' password' w ;;
  match ret with
  | MQTT_OK =>
      match MQTT_SetBroker host' port' 1 w with
      | (MQTT_OK, w) => MQTT_Connect fuel w
      | (ret, w) => Some (ret, w)
      end
  | _ => Some (ret, w)
  end.

(** The loop of [MQTT_SubscribeMultiple] from index [i] on, with [n]
    iterations to go.  The two arrays are lists; a read past the end of one
    of them has no result ([None]). *)
Fixpoint MQTT_SubscribeMultiple_loop (fuel : nat) (topics : list (option string))
    (qos' : list MQTT_QoS_t) (i n : nat) (w : World)
    : option (MQTT_Status_t * World) :=
  match n with
  | O => Some (MQTT_OK, w)
  | S n' =>
      match topics !! i, qos' !! i with
      | Some t, Some q =>
          call (ret, w) := MQTT_Subscribe fuel t q w ;;
          match ret with
          | MQTT_OK =>
              MQTT_SubscribeMultiple_loop fuel topics qos' (S i) n' (MQTT_Delay 100 w)
          | _ => Some (ret, w)
          end
      | _, _ => None
      end
  end.

(** [topics] and [qos'] are [None] for null pointers; [count] is a
    [uint8_t]. *)
Definition MQTT_SubscribeMultiple (fuel : nat) (topics : option (list (option string)))
    (qos' : option (list MQTT_QoS_t)) (count : Z) (w : World)
    : option (MQTT_Status_t * World) :=
  match topics, qos' with
  | Some topics, Some qos' =>
      if count =? 0 then Some (MQTT_INVALID_PARAM, w)
      else MQTT_SubscribeMultiple_loop fuel topics qos' 0 (Z.to_nat count) w
  | _, _ => Some (MQTT_INVALID_PARAM, w)
  end.

(** A [const char *] argument: the address of a string of the caller, or
    the address of the member [topic] of slot [i] of [mqtt.subscriptions],
    which reads differently once the slot has been written. *)
Inductive CharPtr :=
| Ptr_string (s : string)
| Ptr_slot_topic (i : nat).

Definition read_ptr (p : CharPtr) (w : World) : string :=
  match p with
  | Ptr_string s => s
  | Ptr_slot_topic i =>
      match subscriptions (mqtt w) !! i with
      | Some s => topic s
      | None => EmptyString
      end
  end.

(** [MQTT_Unsubscribe] called with a non-null pointer, every use of
    [topic] reading through the pointer: the command line and the search in
    [MQTT_RemoveSubscription] read it before the table is written, the
    callback receives it after. *)
Definition MQTT_Unsubscribe_at (fuel : nat) (topic' : CharPtr) (w : World)
    : option (MQTT_Status_t * World) :=
  if negb (initialized (mqtt w)) then Some (MQTT_NOT_INITIALIZED, w) else
  if negb (connected (mqtt w)) then Some (MQTT_NOT_CONNECTED, w) else
  call (ret, w) :=
    ESP8266_SendCommandF fuel (Some "OK") MQTT_DEFAULT_TIMEOUT
      (AT_MQTTUNSUB (read_ptr topic' w)) w ;;
  match ret with
  | ESP8266_OK =>
      let w := with_mqtt (MQTT_RemoveSubscription (read_ptr topic' w) (mqtt w)) w in
      Some (MQTT_OK,
            fire (onUnsubscribed (mqtt w))
              (Call_onUnsubscribed (cstr (read_ptr topic' w))) w)
  | _ => Some (MQTT_ERROR, w)
  end.

(** The loop of [MQTT_UnsubscribeAll] from slot [i] on, with [n] slots to
    go.  The call passes [mqtt.subscriptions[i].topic] itself. *)
Fixpoint MQTT_UnsubscribeAll_loop (fuel : nat) (i n : nat) (w : World)
    : option (MQTT_Status_t * World) :=
  match n with
  | O => Some (MQTT_OK, w)
  | S n' =>
      match subscriptions (mqtt w) !! i with
      | Some s =>
          if active s then
            call (ret, w) := MQTT_Unsubscribe_at fuel (Ptr_slot_topic i) w ;;
            match ret with
            | MQTT_OK => MQTT_UnsubscribeAll_loop fuel (S i) n' (MQTT_Delay 100 w)
            | _ => Some (ret, w)
            end
          else MQTT_UnsubscribeAll_loop fuel (S i) n' w
      | None => MQTT_UnsubscribeAll_loop fuel (S i) n' w
      end
  end.

Definition MQTT_UnsubscribeAll (fuel : nat) (w : World)
    : option (MQTT_Status_t * World) :=
  MQTT_UnsubscribeAll_loop fuel 0 MQTT_MAX_SUBSCRIPTIONS w.

(** ** [esp8266.c]: connections, sending and received data *)

Definition ESP8266_CONNECT_TIMEOUT : Z := 15000.

Inductive ESP8266_ConnType_t := ESP8266_TCP | ESP8266_UDP | ESP8266_SSL.

Definition typeStr (type : ESP8266_ConnType_t) : string :=
  match type with
  | ESP8266_TCP => "TCP"
  | ESP8266_UDP => "UDP"
  | ESP8266_SSL => "SSL"
  end.

Definition AT_CIPSTART (type : ESP8266_ConnType_t) (host' : string) (port' : Z)
    : string :=
  "AT+CIPSTART=" +:+ DQ +:+ typeStr type +:+ DQ +:+ "," +:+ DQ +:+ cstr host' +:+ DQ
  +:+ "," +:+ itoa port' +:+ CRLF.

Definition is_OK (ret : ESP8266_Status_t) : bool :=
  match ret with ESP8266_OK => true | _ => false end.

(** [host'] is [None] for a null pointer and [port'] is a [uint16_t];
    [linkId] tells whether the last argument is a non-null pointer, and the
    result carries the value stored through it, if one was stored. *)
Definition ESP8266_Connect (fuel : nat) (type : ESP8266_ConnType_t)
    (host' : option string) (port' : Z) (linkId : bool) (w : World)
    : option ((ESP8266_Status_t * option Z) * World) :=
  match host' with
  | None => Some ((ESP8266_INVALID_PARAM, None), w)
  | Some h =>
      call (ret, w) :=
        ESP8266_SendCommandF fuel (Some "OK") ESP8266_CONNECT_TIMEOUT
          (AT_CIPSTART type h port') w ;;
      if is_OK ret || ESP8266_ContainsString "CONNECT" w
      then Some ((ESP8266_OK, if linkId then Some 0 else None), w)
      else if ESP8266_ContainsString "ALREADY" w
      then Some ((ESP8266_ALREADY_CONNECTED, None), w)
      else Some ((ESP8266_CONNECT_FAIL, None), w)
  end.

Record ESP8266_IPInfo_t := {
  ip : string;
  gateway : string;
  netmask : string;
}.

(** [ipInfo] is [None] for a null pointer, and otherwise what the
    structure holds; the result carries what it holds afterwards. *)
Definition ESP8266_GetIPInfo (fuel : nat) (ipInfo : option ESP8266_IPInfo_t)
    (w : World) : option ((ESP8266_Status_t * option ESP8266_IPInfo_t) * World) :=
  match ipInfo with
  | None => Some ((ESP8266_INVALID_PARAM, None), w)
  | Some info =>
      call (ret, w) :=
        ESP8266_SendCommand fuel (Some ("AT+CIFSR" +:+ CRLF)) (Some "OK")
          ESP8266_DEFAULT_TIMEOUT w ;;
      let info :=
        if is_OK ret then
          match strstr (rxBuffer (esp8266 w)) ("STAIP," +:+ DQ) with
          | Some ptr =>
              let ptr := ptr_add ptr 7 in
              match strchr_offset ptr DQUOTE with
              | Some end_minus_ptr =>
                  let len := if (15 <? end_minus_ptr)%nat then 15%nat
                             else end_minus_ptr in
                  {| ip := strncpy ptr len; gateway := gateway info;
                     netmask := netmask info |}
              | None => info
              end
          | None => info
          end
        else info in
      Some ((ret, Some info), w)
  end.

(** [ESP8266_RxData_t]: the members are [linkId], [length] and [data];
    [rx_data] holds the bytes copied by the parser. *)
Record ESP8266_RxData_t := {
  rx_linkId : Z;
  rx_length : Z;
  rx_data : string;
}.

Inductive ESP8266_Callback :=
| Call_onDataReceived (rxData : ESP8266_RxData_t)
| Call_onWifiConnected
| Call_onWifiDisconnected.

(** The members of [ESP8266_Handle_t] that the transport and the command
    engine leave alone and that the functions below read or write.  A
    callback member is [true] when a function is registered. *)
Record ESP8266_Link_t := {
  wifiConnected : bool;
  multiConnMode : Z;
  onDataReceived : bool;
  onWifiConnected : bool;
  onWifiDisconnected : bool;
}.

(** The world together with these members and with the calls made to the
    callbacks of the driver. *)
Record Station := {
  world : World;
  link : ESP8266_Link_t;
  link_calls : list ESP8266_Callback;
}.

Definition with_world (w : World) (s : Station) : Station :=
  {| world := w; link := link s; link_calls := link_calls s |}.

Definition with_link (l : ESP8266_Link_t) (s : Station) : Station :=
  {| world := world s; link := l; link_calls := link_calls s |}.

Definition with_wifiConnected (b : bool) (l : ESP8266_Link_t) : ESP8266_Link_t :=
  {| wifiConnected := b; multiConnMode := multiConnMode l;
     onDataReceived := onDataReceived l; onWifiConnected := onWifiConnected l;
     onWifiDisconnected := onWifiDisconnected l |}.

(** [if (esp8266.cb) esp8266.cb (...)] *)
Definition fire_link (registered : bool) (c : ESP8266_Callback) (s : Station)
    : Station :=
  if registered
  then {| world := world s; link := link s; link_calls := link_calls s ++ [c] |}
  else s.

(** Runs a function of the transport or of the command engine in the world
    of the station. *)
Definition in_world {A : Type} (f : World -> option (A * World)) (s : Station)
    : option (A * Station) :=
  match f (world s) with
  | Some (r, w) => Some (r, with_world w s)
  | None => None
  end.

Definition AT_CIPSEND (multi : bool) (linkId len : Z) : string :=
  if multi
  then "AT+CIPSEND=" +:+ itoa linkId +:+ "," +:+ itoa len +:+ CRLF
  else "AT+CIPSEND=" +:+ itoa len +:+ CRLF.

(** [linkId] is a [uint8_t], [data'] is [None] for a null pointer and
    [len] is a [uint16_t]. *)
Definition ESP8266_Send (fuel : nat) (linkId : Z) (data' : option string) (len : Z)
    (s : Station) : option (ESP8266_Status_t * Station) :=
  match data' with
  | None => Some (ESP8266_INVALID_PARAM, s)
  | Some d =>
      if len =? 0 then Some (ESP8266_INVALID_PARAM, s) else
      call (ret, s) :=
        in_world (ESP8266_SendCommandF fuel (Some ">") ESP8266_DEFAULT_TIMEOUT
                    (AT_CIPSEND (negb (multiConnMode (link s) =? 0)) linkId len)) s ;;
      if negb (is_OK ret) then Some (ESP8266_SEND_FAIL, s) else
      let s := with_world (ESP8266_ClearBuffer (world s)) s in
      call (_, s) := in_world (ESP8266_SendDMA fuel (Some d) len) s ;;
      call (found, s) :=
        in_world (ESP8266_WaitForResponse fuel "SEND OK" ESP8266_DEFAULT_TIMEOUT) s ;;
      if found then Some (ESP8266_OK, s) else Some (ESP8266_SEND_FAIL, s)
  end.

Definition ESP8266_SendString (fuel : nat) (linkId : Z) (str : option string)
    (s : Station) : option (ESP8266_Status_t * Station) :=
  match str with
  | None => Some (ESP8266_INVALID_PARAM, s)
  | Some str => ESP8266_Send fuel linkId (Some str) (uint16 (strlen str)) s
  end.

(** [ESP8266_ParseIPD]: [None] when the function returns 0, and what it
    stored in [rxData] when it returns 1. *)
Definition ESP8266_ParseIPD (s : Station) : option ESP8266_RxData_t :=
  match strstr (rxBuffer (esp8266 (world s))) "+IPD," with
  | None => None
  | Some ptr =>
      let ptr := ptr_add ptr 5 in
      let header :=
        if negb (multiConnMode (link s) =? 0) then
          match strchr ptr ","%char with
          | Some ptr' => Some (uint8 (atoi ptr), ptr_add ptr' 1)
          | None => None
          end
        else Some (0, ptr) in
      match header with
      | None => None
      | Some (linkId, ptr) =>
          let length := uint16 (atoi ptr) in
          match strchr ptr ":"%char with
          | None => None
          | Some ptr =>
              let ptr := ptr_add ptr 1 in
              let copyLen :=
                if length <? Z.of_nat ESP8266_RX_BUF_SIZE - 1 then length
                else Z.of_nat ESP8266_RX_BUF_SIZE - 1 in
              Some {| rx_linkId := linkId; rx_length := length;
                      rx_data := bytes ptr (Z.to_nat copyLen) |}
          end
      end
  end.

Definition contains_rx (str : string) (s : Station) : bool :=
  ESP8266_ContainsString str (world s).

Definition ESP8266_ProcessData (s : Station) : Station :=
  if negb (rxComplete (esp8266 (world s))) then s else
  let s :=
    if contains_rx "WIFI DISCONNECT" s then
      let s := with_link (with_wifiConnected false (link s)) s in
      fire_link (onWifiDisconnected (link s)) Call_onWifiDisconnected s
    else if contains_rx "WIFI CONNECTED" s then
      let s := with_link (with_wifiConnected true (link s)) s in
      fire_link (onWifiConnected (link s)) Call_onWifiConnected s
    else s in
  if contains_rx "+IPD," s then
    match ESP8266_ParseIPD s with
    | Some rxData => fire_link (onDataReceived (link s)) (Call_onDataReceived rxData) s
    | None => s
    end
  else s.

(** ** Notions used by the further statements *)

(** [s] holds neither the character [c] nor a NUL. *)
Fixpoint free_of (c : ascii) (s : string) : bool :=
  match s with
  | EmptyString => true
  | String a rest =>
      negb (Ascii.eqb a c) && negb (Ascii.eqb a NUL) && free_of c rest
  end.

(** The line by which the co-processor announces a message on a subscribed
    topic: +MQTTSUBRECV:<LinkID>,"<topic>",<data_length>,<data>. *)
Definition MQTTSUBRECV (link t p : string) : string :=
  "+MQTTSUBRECV:" +:+ link +:+ "," +:+ DQ +:+ t +:+ DQ +:+ ","
  +:+ itoa (Z.of_nat (String.length p)) +:+ "," +:+ p.

(** What [MQTT_ParseSubMessage] does once it has extracted a message: it
    counts the message and hands it to the callback, if one is
    registered. *)
Definition deliver (msg : MQTT_Message_t) (w : World) : World :=
  fire (onMessageReceived (mqtt w)) (Call_onMessageReceived msg)
    (with_mqtt (with_receiveCount (uint32 (receiveCount (mqtt w) + 1)) (mqtt w)) w).

(** The message fits the arrays of [MQTT_Message_t]: at most 127
    characters of topic and 1023 bytes of data, the bytes copied being the
    announced length capped at 1023. *)
Definition in_bounds (msg : MQTT_Message_t) : Prop :=
  (String.length (msg_topic msg) <= MQTT_TOPIC_MAX_LEN - 1)%nat
  /\ 0 <= dataLen msg < 2 ^ 16
  /\ Z.of_nat (String.length (data msg))
     = Z.min (dataLen msg) (Z.of_nat MQTT_MESSAGE_MAX_LEN - 1).

(** A control message as the application of [main.c] expects it, and a
    session that receives it. *)
Definition control_line : string := MQTTSUBRECV "0" "stm32/control" "led_on".

(** Two worlds that the processing tick cannot tell apart while no message
    is pending: the same driver handle, so the same receive buffer, and
    the same flags and callbacks read by the tick. *)
Definition same_for_tick (w w' : World) : Prop :=
  esp8266 w' = esp8266 w
  /\ initialized (mqtt w') = initialized (mqtt w)
  /\ msgPending (pending (mqtt w')) = msgPending (pending (mqtt w))
  /\ onConnected (mqtt w') = onConnected (mqtt w)
  /\ onDisconnected (mqtt w') = onDisconnected (mqtt w)
  /\ onMessageReceived (mqtt w') = onMessageReceived (mqtt w).

(** A session whose receive buffer holds a connect event followed by a
    disconnect event. *)
Definition both_events : World :=
  HAL_UARTEx_RxEventCallback
    ("+MQTTCONNECTED:0" +:+ CRLF +:+ "+MQTTDISCONNECTED:0" +:+ CRLF)
    session_unanswered.

(** The topic fits the array of a slot together with its terminator. *)
Definition fits (t : string) : Prop :=
  (String.length (cstr t) < MQTT_TOPIC_MAX_LEN)%nat.

(** Every slot that is not active is all zero, and every stored topic is a
    string of at most 127 characters. *)
Definition cleared_slots (m : MQTT_Handle_t) : Prop :=
  forall s, s ∈ subscriptions m -> active s = false -> s = zero_subscription.

Definition topics_fit (m : MQTT_Handle_t) : Prop :=
  forall s, s ∈ subscriptions m ->
    cstr (topic s) = topic s /\ (String.length (topic s) < MQTT_TOPIC_MAX_LEN)%nat.

(** The world in which a call ends, for the examples: [v] when the call
    has no result. *)
Definition outcome {A : Type} (r : option (A * World)) (v : World) : World :=
  match r with
  | Some (_, w) => w
  | None => v
  end.

(** The session of the examples after a successful subscribe to topic b,
    and the session in which a program that connects and subscribes
    ends. *)
Definition b_subscribed : World :=
  outcome (MQTT_Subscribe plenty (Some "b") MQTT_QOS_1 session_acked) session_acked.

Definition a_subscribed : World :=
  default (boot clean_board 0 true)
    (run_all plenty [Api_Init; Api_Connect; Api_Subscribe (Some "a") MQTT_QOS_0]
       (boot clean_board 0 true)).

(** A connected session with topic a in its table, on a co-processor that
    answers two exchanges with OK; the same after a subscribe to topic b,
    and after the unsubscribe that follows. *)
Definition two_exchanges : World :=
  connected_session (dialogue [0; 11] [OK_line; OK_line]) [("a", MQTT_QOS_0)].

Definition two_exchanges_1 : World :=
  outcome (MQTT_Subscribe plenty (Some "b") MQTT_QOS_2 two_exchanges) two_exchanges.

Definition two_exchanges_2 : World :=
  outcome (MQTT_Unsubscribe plenty (Some "b") two_exchanges_1) two_exchanges_1.

(** A topic of 130 characters. *)
Definition long_topic : string :=
  "sensors/building-0123456789/floor-0123456789/room-0123456789/"
  +:+ "device-0123456789/channel-0123456789/measurement-0123456789/value-01".

Definition long_subscribed : World :=
  outcome (MQTT_Subscribe plenty (Some long_topic) MQTT_QOS_0 session_acked)
    session_acked.

(** A connected session with the topics a, b and c in its table, on a
    co-processor that answers the three exchanges of [MQTT_UnsubscribeAll]
    with OK, and the session in which that call ends. *)
Definition three_topics : World :=
  connected_session (dialogue [0; 111; 222] [OK_line; OK_line; OK_line])
    [("a", MQTT_QOS_0); ("b", MQTT_QOS_1); ("c", MQTT_QOS_2)].

Definition three_topics_removed : World :=
  outcome (MQTT_UnsubscribeAll plenty three_topics) three_topics.

(** A connected session with an empty table on the same co-processor, the
    three topics of the example of [esp8266_mqtt_example.c], and the
    session after they were subscribed in one call. *)
Definition no_topics : World :=
  connected_session (dialogue [0; 111; 222] [OK_line; OK_line; OK_line]) [].

Definition example_topics : list (option string) :=
  [Some "stm32/control"; Some "stm32/config"; Some "stm32/ota"].

Definition example_qos : list MQTT_QoS_t := [MQTT_QOS_1; MQTT_QOS_0; MQTT_QOS_2].

Definition example_subscribed : World :=
  outcome (MQTT_SubscribeMultiple plenty (Some example_topics) (Some example_qos) 3
             no_topics) no_topics.

(** The session of the examples after [MQTT_SetKeepAlive (9000)], and a
    session after reset and [MQTT_Init] that was connected in one call. *)
Definition keep_alive_set : World :=
  outcome (MQTT_SetKeepAlive plenty 9000 two_exchanges) two_exchanges.

Definition initialized_session : World :=
  snd (MQTT_Init (boot (dialogue [0; 11] [OK_line; OK_line]) 0 true)).

Definition broker_connected : World :=
  outcome (MQTT_ConnectToBroker plenty (Some "broker.emqx.io") 1883
             (Some "STM32F407_Client") (Some "stm32") None initialized_session)
    initialized_session.

(** A session on a co-processor that grants a raw publish and confirms it,
    in which five bytes with a zero byte in the middle are published. *)
Definition publishing_session : World :=
  connected_session publish_board [].

Definition binary_data : string := "ab" +:+ String NUL "cd".

Definition binary_published : World :=
  outcome (MQTT_PublishData plenty (Some "t") (Some binary_data) 5 MQTT_QOS_0 0
             publishing_session) publishing_session.

Definition published : World :=
  outcome (MQTT_Publish plenty (Some "t") (Some "m") MQTT_QOS_0 0 never_connected)
    never_connected.

(** The answer OK arrives in two receive events, the letter O first. *)
Definition first_piece : World := HAL_UARTEx_RxEventCallback "O" idle_world.

(** The answer of the co-processor to a connection request on a link that
    is open already, and a station that receives it. *)
Definition ALREADY_CONNECTED_answer : string :=
  "ALREADY CONNECTED" +:+ CRLF +:+ CRLF +:+ "ERROR" +:+ CRLF.

Definition link_is_open : World := boot (answering 5 ALREADY_CONNECTED_answer) 0 true.

Definition connect_answered : World :=
  outcome (ESP8266_Connect plenty ESP8266_TCP (Some "broker.emqx.io") 1883 true
             link_is_open) link_is_open.

(** The line by which the co-processor hands over received network data:
    +IPD,<len>:<data> with a single connection and
    +IPD,<link ID>,<len>:<data> with multiple connections. *)
Definition IPD (multi : bool) (id : Z) (payload : string) : string :=
  "+IPD," +:+ (if multi then itoa id +:+ "," else EmptyString)
  +:+ itoa (Z.of_nat (String.length payload)) +:+ ":" +:+ payload.

(** A station with every callback of the driver registered. *)
Definition station (multi : Z) (w : World) : Station :=
  {| world := w;
     link := {| wifiConnected := true; multiConnMode := multi;
                onDataReceived := true; onWifiConnected := true;
                onWifiDisconnected := true |};
     link_calls := [] |}.

(** Five bytes with a zero byte in the middle arrive on link 3. *)
Definition data_arrived : Station :=
  station 1
    (HAL_UARTEx_RxEventCallback (CRLF +:+ IPD true 3 binary_data +:+ CRLF) idle_world).

(** The answer to AT+CIFSR of a station with an address, a world in which
    the co-processor gives it, and the world in which that exchange ends. *)
Definition CIFSR_answer : string :=
  "+CIFSR:STAIP," +:+ DQ +:+ "192.168.1.23" +:+ DQ +:+ CRLF
  +:+ "+CIFSR:STAMAC," +:+ DQ +:+ "5c:cf:7f:00:00:01" +:+ DQ +:+ CRLF +:+ OK_line.

Definition address_asked : World := boot (answering 5 CIFSR_answer) 0 true.

Definition address_answered : World :=
  outcome (ESP8266_SendCommand plenty (Some ("AT+CIFSR" +:+ CRLF)) (Some "OK")
             ESP8266_DEFAULT_TIMEOUT address_asked) address_asked.

Definition no_address : ESP8266_IPInfo_t :=
  {| ip := EmptyString; gateway := EmptyString; netmask := EmptyString |}.

(** A station on a co-processor that grants a send with its prompt and
    then confirms it, and the station after five bytes were sent. *)
Definition send_board : Board :=
  dialogue [0; 11] [CRLF +:+ ">"; CRLF +:+ "SEND OK" +:+ CRLF].

Definition sending : Station := station 0 (boot send_board 0 true).

Definition sent : Station :=
  match ESP8266_Send plenty 0 (Some "hello") 5 sending with
  | Some (_, s) => s
  | None => sending
  end.

(** The session of the examples after a will was set on it. *)
Definition will_set : World :=
  outcome (MQTT_SetLWT plenty (Some "stm32/status") (Some "offline") MQTT_QOS_1 5
             two_exchanges) two_exchanges.

(** The session of the examples after a reconnect, on a co-processor that
    answers its three exchanges with OK. *)
Definition reconnected : World := outcome (MQTT_Reconnect plenty full_session) full_session.

(** An upper bound, in milliseconds, of the time for which a call of the
    API blocks its caller: 1001 ms to get the transmit slot, 5001 ms for
    the transmission, and the timeout of each wait rounded up to the next
    look, which adds at most 9 ms. *)
Definition exchange_time (timeout : Z) : Z := 1001 + 5001 + (timeout + 9).

Definition worst_case (a : Api) : Z :=
  match a with
  | Api_Init | Api_SetBroker _ _ _ | Api_ProcessData | Api_ProcessMessage _ _
  | Api_SetCallbacks _ _ _ _ _ _ _ => 0
  | Api_SetUserConfigSimple _ _ _ | Api_Clean | Api_Disconnect | Api_Unsubscribe _
  | Api_QueryConnection => exchange_time MQTT_DEFAULT_TIMEOUT
  | Api_Connect => exchange_time MQTT_CONNECT_TIMEOUT
  | Api_Subscribe _ _ => exchange_time MQTT_SUBSCRIBE_TIMEOUT
  | Api_Publish _ _ _ _ | Api_PublishData _ _ _ _ _ | Api_PublishRaw _ _ _ _ _ =>
      exchange_time MQTT_DEFAULT_TIMEOUT + exchange_time MQTT_PUBLISH_TIMEOUT
  | Api_DeInit => 2 * exchange_time MQTT_DEFAULT_TIMEOUT
  | Api_Reconnect =>
      2 * exchange_time MQTT_DEFAULT_TIMEOUT + 1000 + exchange_time MQTT_CONNECT_TIMEOUT
  | Api_Delay ms => Z.max 0 ms
  end.

(** * Properties *)

(** ** Time and interrupts *)


Lemma HAL_Delay_to_after (ms : Z) (w : World) : HAL_Delay ms w = after (Z.to_nat ms) w.
Proof. done. Qed.

Lemma after_add (a b : nat) (w : World) : after a (after b w) = after (a + b) w.
Proof. unfold after. by rewrite Nat.iter_add. Qed.

Lemma HAL_Delay_add (a b : Z) (w : World) :
  0 <= a -> 0 <= b -> HAL_Delay b (HAL_Delay a w) = HAL_Delay (a + b) w.
Proof.
  intros Ha Hb. unfold HAL_Delay.
  rewrite Z2Nat.inj_add, Nat.add_comm by lia. by rewrite Nat.iter_add.
Qed.

Lemma same_session_refl w : same_session w w.
Proof. by repeat split. Qed.

Lemma same_session_trans w1 w2 w3 :
  same_session w1 w2 -> same_session w2 w3 -> same_session w1 w3.
Proof. unfold same_session. intros (-> & -> & ->) (-> & -> & ->). done. Qed.

Lemma handle_irq_frame w i :
  same_session w (handle_irq w i) /\ wire (handle_irq w i) = wire w
  /\ now (handle_irq w i) = now w.
Proof.
  destruct i as [received|]; simpl; [|by repeat split].
  unfold HAL_UARTEx_RxEventCallback. by case_match; repeat split.
Qed.

Lemma fold_irq_frame l w :
  same_session w (fold_left handle_irq l w)
  /\ wire (fold_left handle_irq l w) = wire w
  /\ now (fold_left handle_irq l w) = now w.
Proof.
  revert w. induction l as [|i l IH]; intros w; simpl.
  - by repeat split.
  - destruct (handle_irq_frame w i) as (Hs & Hw & Hn).
    destruct (IH (handle_irq w i)) as (Hs' & Hw' & Hn').
    split; [by eapply same_session_trans|]. split; congruence.
Qed.

Lemma SysTick_frame w :
  same_session w (SysTick w) /\ wire (SysTick w) = wire w
  /\ now (SysTick w) = now w + 1.
Proof.
  unfold SysTick.
  destruct (fold_irq_frame (uart_irq (board w) (now w + 1)) (with_now (now w + 1) w))
    as ((Hb & Hm & Hc) & Hw & Hn).
  repeat split; simpl in *; congruence.
Qed.

Lemma after_frame k w :
  same_session w (after k w) /\ wire (after k w) = wire w
  /\ now (after k w) = now w + Z.of_nat k.
Proof.
  induction k as [|k (Hs & Hw & Hn)]; simpl.
  - repeat split. lia.
  - destruct (SysTick_frame (after k w)) as (Hs' & Hw' & Hn').
    fold (after k w). split; [by eapply same_session_trans|].
    split; [congruence|lia].
Qed.

Lemma HAL_Delay_frame ms w :
  same_session w (HAL_Delay ms w) /\ wire (HAL_Delay ms w) = wire w.
Proof. unfold HAL_Delay. destruct (after_frame (Z.to_nat ms) w) as (? & ? & ?). done. Qed.

(** The elapsed time computed from two readings of the 32-bit tick counter. *)
Lemma elapsed_after (k : nat) (w : World) :
  uint32 (HAL_GetTick (after k w) - HAL_GetTick w) = Z.of_nat k mod 2 ^ 32.
Proof.
  unfold HAL_GetTick, uint32.
  destruct (after_frame k w) as (_ & _ & ->).
  rewrite <- Zminus_mod. f_equal. lia.
Qed.

Lemma elapsed_after_small (k : nat) (w : World) :
  Z.of_nat k < 2 ^ 32 ->
  uint32 (HAL_GetTick (after k w) - HAL_GetTick w) = Z.of_nat k.
Proof. intros H. rewrite elapsed_after. apply Z.mod_small. lia. Qed.

(** ** The transmit slot *)

Lemma busy_at_eq k w : txBusy (esp8266 (after k w)) = busy_at k w.
Proof. done. Qed.

Lemma Delay_1_after k w : ESP8266_Delay 1 (after k w) = after (S k) w.
Proof. done. Qed.

(** [n] iterations of the first wait during which the slot stays busy. *)
Lemma wait_idle_steps (n : nat) : forall (k fuel : nat) (w : World),
  (forall i, (k <= i < k + n)%nat -> busy_at i w = true) ->
  Z.of_nat (k + n) <= 1001 ->
  ESP8266_SendDMA_wait_idle (n + fuel) (HAL_GetTick w) (after k w)
  = ESP8266_SendDMA_wait_idle fuel (HAL_GetTick w) (after (k + n) w).
Proof.
  induction n as [|n IH]; intros k fuel w Hbusy Hk.
  - by rewrite Nat.add_0_r.
  - cbn [Nat.add ESP8266_SendDMA_wait_idle].
    rewrite busy_at_eq, Hbusy by lia.
    rewrite elapsed_after_small by lia.
    destruct (Z.gtb_spec (Z.of_nat k) 1000) as [?|_]; [lia|].
    rewrite Delay_1_after, (IH (S k)); [f_equal; f_equal; lia | intros; apply Hbusy; lia | lia].
Qed.

Lemma wait_idle_timeout (fuel : nat) (w : World) :
  1002 <= Z.of_nat fuel ->
  (forall i, Z.of_nat i <= 1001 -> busy_at i w = true) ->
  ESP8266_SendDMA_wait_idle fuel (HAL_GetTick w) w
  = Some (Some ESP8266_TIMEOUT, HAL_Delay 1001 w).
Proof.
  intros Hfuel Hbusy. rewrite !HAL_Delay_to_after.
  remember (Z.to_nat 1001) as N eqn:HN.
  replace fuel with (N + (fuel - N))%nat by lia.
  change w with (after 0 w) at 2.
  rewrite wait_idle_steps by (intros; try apply Hbusy; lia).
  destruct (fuel - N)%nat as [|f] eqn:E; [lia|].
  cbn [ESP8266_SendDMA_wait_idle Nat.add].
  rewrite busy_at_eq, Hbusy by lia.
  rewrite elapsed_after_small by lia.
  destruct (Z.gtb_spec (Z.of_nat N) 1000) as [_|?]; [reflexivity|lia].
Qed.

Lemma wait_idle_cleared (fuel j : nat) (w : World) :
  (j < fuel)%nat -> Z.of_nat j <= 1001 ->
  (forall i, (i < j)%nat -> busy_at i w = true) ->
  busy_at j w = false ->
  ESP8266_SendDMA_wait_idle fuel (HAL_GetTick w) w = Some (None, after j w).
Proof.
  intros Hfuel Hj Hbusy Hidle.
  replace fuel with (j + (fuel - j))%nat by lia.
  change w with (after 0 w) at 2.
  rewrite wait_idle_steps by (intros; try apply Hbusy; lia).
  destruct (fuel - j)%nat as [|f] eqn:E; [lia|].
  cbn [ESP8266_SendDMA_wait_idle Nat.add].
  by rewrite busy_at_eq, Hidle.
Qed.

(** The same for the second wait, whose ceiling is 5000 ms. *)
Lemma wait_done_steps (n : nat) : forall (k fuel : nat) (w : World),
  (forall i, (k <= i < k + n)%nat -> busy_at i w = true) ->
  Z.of_nat (k + n) <= 5001 ->
  ESP8266_SendDMA_wait_done (n + fuel) (HAL_GetTick w) (after k w)
  = ESP8266_SendDMA_wait_done fuel (HAL_GetTick w) (after (k + n) w).
Proof.
  induction n as [|n IH]; intros k fuel w Hbusy Hk.
  - by rewrite Nat.add_0_r.
  - cbn [Nat.add ESP8266_SendDMA_wait_done].
    rewrite busy_at_eq, Hbusy by lia.
    rewrite elapsed_after_small by lia.
    destruct (Z.gtb_spec (Z.of_nat k) 5000) as [?|_]; [lia|].
    rewrite Delay_1_after, (IH (S k)); [f_equal; f_equal; lia | intros; apply Hbusy; lia | lia].
Qed.

Lemma wait_done_timeout (fuel : nat) (w : World) :
  5002 <= Z.of_nat fuel ->
  (forall i, Z.of_nat i <= 5001 -> busy_at i w = true) ->
  ESP8266_SendDMA_wait_done fuel (HAL_GetTick w) w
  = Some (Some ESP8266_TIMEOUT,
          with_esp8266 (with_txBusy false (esp8266 (HAL_Delay 5001 w)))
            (HAL_Delay 5001 w)).
Proof.
  intros Hfuel Hbusy. rewrite !HAL_Delay_to_after.
  remember (Z.to_nat 5001) as N eqn:HN.
  replace fuel with (N + (fuel - N))%nat by lia.
  change w with (after 0 w) at 2.
  rewrite wait_done_steps by (intros; try apply Hbusy; lia).
  destruct (fuel - N)%nat as [|f] eqn:E; [lia|].
  cbn [ESP8266_SendDMA_wait_done Nat.add].
  rewrite busy_at_eq, Hbusy by lia.
  rewrite elapsed_after_small by lia.
  destruct (Z.gtb_spec (Z.of_nat N) 5000) as [_|?]; [reflexivity|lia].
Qed.

Lemma wait_done_cleared (fuel j : nat) (w : World) :
  (j < fuel)%nat -> Z.of_nat j <= 5001 ->
  (forall i, (i < j)%nat -> busy_at i w = true) ->
  busy_at j w = false ->
  ESP8266_SendDMA_wait_done fuel (HAL_GetTick w) w = Some (None, after j w).
Proof.
  intros Hfuel Hj Hbusy Hidle.
  replace fuel with (j + (fuel - j))%nat by lia.
  change w with (after 0 w) at 2.
  rewrite wait_done_steps by (intros; try apply Hbusy; lia).
  destruct (fuel - j)%nat as [|f] eqn:E; [lia|].
  cbn [ESP8266_SendDMA_wait_done Nat.add].
  by rewrite busy_at_eq, Hidle.
Qed.

(** A bounded search for the first instant at which a flag is down. *)
Lemma first_false (f : nat -> bool) (N : nat) :
  (forall i, (i <= N)%nat -> f i = true)
  \/ exists j, (j <= N)%nat /\ f j = false /\ forall i, (i < j)%nat -> f i = true.
Proof.
  induction N as [|N [IH|(j & Hj & Hf & Hlt)]].
  - destruct (f 0%nat) eqn:E.
    + left. intros i Hi. by replace i with 0%nat by lia.
    + right. exists 0%nat. split_and!; [lia|done|intros; lia].
  - destruct (f (S N)) eqn:E.
    + left. intros i Hi. destruct (decide (i = S N)) as [->|]; [done|]. apply IH. lia.
    + right. exists (S N). split_and!; [lia|done|]. intros i Hi. apply IH. lia.
  - right. exists j. split_and!; [lia|done..].
Qed.

Lemma with_esp8266_frame e w :
  same_session w (with_esp8266 e w) /\ wire (with_esp8266 e w) = wire w.
Proof. by repeat split. Qed.

Lemma wait_idle_total (fuel : nat) (w : World) :
  1002 <= Z.of_nat fuel ->
  exists r w', ESP8266_SendDMA_wait_idle fuel (HAL_GetTick w) w = Some (r, w')
               /\ same_session w w' /\ wire w' = wire w.
Proof.
  intros Hfuel.
  destruct (first_false (λ i, busy_at i w) (Z.to_nat 1001)) as [Hall|(j & Hj & Hf & Hlt)].
  - eexists _, _. split; [apply wait_idle_timeout; [done|]|].
    + intros i Hi. apply Hall. lia.
    + exact (HAL_Delay_frame 1001 w).
  - eexists _, _. split; [apply (wait_idle_cleared fuel j); [lia|lia|done..]|].
    destruct (after_frame j w) as (? & ? & ?). done.
Qed.

Lemma wait_done_total (fuel : nat) (w : World) :
  5002 <= Z.of_nat fuel ->
  exists r w', ESP8266_SendDMA_wait_done fuel (HAL_GetTick w) w = Some (r, w')
               /\ same_session w w' /\ wire w' = wire w.
Proof.
  intros Hfuel.
  destruct (first_false (λ i, busy_at i w) (Z.to_nat 5001)) as [Hall|(j & Hj & Hf & Hlt)].
  - eexists _, _. split; [apply wait_done_timeout; [done|]|].
    + intros i Hi. apply Hall. lia.
    + destruct (HAL_Delay_frame 5001 w) as (Hs & Hw).
      generalize dependent (HAL_Delay 5001 w). intros w5 Hs Hw. done.
  - eexists _, _. split; [apply (wait_done_cleared fuel j); [lia|lia|done..]|].
    destruct (after_frame j w) as (? & ? & ?). done.
Qed.

(** [ESP8266_SendDMA] always returns, and touches nothing of the session. *)
Lemma ESP8266_SendDMA_total (fuel : nat) (data' : option string) (len : Z) (w : World) :
  5002 <= Z.of_nat fuel ->
  exists r w', ESP8266_SendDMA fuel data' len w = Some (r, w') /\ same_session w w'.
Proof.
  intros Hfuel. unfold ESP8266_SendDMA.
  destruct data' as [d|]; [|eexists _, _; split; [done|apply same_session_refl]].
  destruct (len =? 0); [eexists _, _; split; [done|apply same_session_refl]|].
  destruct (wait_idle_total fuel w) as (r1 & w1 & -> & Hs1 & _); [lia|].
  destruct r1 as [st|]; [by eexists _, _|].
  unfold HAL_UART_Transmit_DMA. cbn [board now with_esp8266].
  set (w2 := with_esp8266 (with_txBusy true (esp8266 w1)) w1).
  destruct (uart_tx_dma (board w1) (now w1)).
  2-4: eexists _, _; split; [done|]; eapply same_session_trans; [exact Hs1|done].
  set (w3 := transmit _ w2).
  destruct (wait_done_total fuel w3) as (r2 & w4 & -> & Hs2 & _); [lia|].
  assert (same_session w w4).
  { eapply same_session_trans; [exact Hs1|]. eapply same_session_trans; [|exact Hs2]. done. }
  destruct r2; by eexists _, _.
Qed.

Lemma ESP8266_SendDMA_frame fuel data' len w r w' :
  ESP8266_SendDMA fuel data' len w = Some (r, w') -> same_session w w'.
Proof.
  unfold ESP8266_SendDMA.
  assert (Hidle : forall f t v r1 v1,
    ESP8266_SendDMA_wait_idle f t v = Some (r1, v1) -> same_session v v1).
  { induction f as [|f IH]; intros t v r1 v1; simpl; [done|].
    destruct (txBusy (esp8266 v)); [|intros [= <- <-]; apply same_session_refl].
    case_match; [intros [= <- <-]; apply same_session_refl|].
    intros Hr%IH. eapply same_session_trans; [|exact Hr]. apply HAL_Delay_frame. }
  assert (Hdone : forall f t v r1 v1,
    ESP8266_SendDMA_wait_done f t v = Some (r1, v1) -> same_session v v1).
  { induction f as [|f IH]; intros t v r1 v1; simpl; [done|].
    destruct (txBusy (esp8266 v)); [|intros [= <- <-]; apply same_session_refl].
    case_match; [intros [= <- <-]; done|].
    intros Hr%IH. eapply same_session_trans; [|exact Hr]. apply HAL_Delay_frame. }
  destruct data' as [d|]; [|intros [= <- <-]; apply same_session_refl].
  destruct (len =? 0); [intros [= <- <-]; apply same_session_refl|].
  destruct (ESP8266_SendDMA_wait_idle _ _ _) as [[[st|] w1]|] eqn:E1; [| |done].
  { intros [= <- <-]. by eapply Hidle. }
  apply Hidle in E1. unfold HAL_UART_Transmit_DMA. cbn [board now with_esp8266].
  destruct (uart_tx_dma (board w1) (now w1)).
  2-4: intros [= <- <-]; eapply same_session_trans; [exact E1|done].
  destruct (ESP8266_SendDMA_wait_done _ _ _) as [[r2 w4]|] eqn:E2; [|done].
  apply Hdone in E2. intros H.
  assert (w' = w4) as -> by (destruct r2; congruence).
  eapply same_session_trans; [exact E1|]. eapply same_session_trans; [|exact E2]. done.
Qed.

(** ** The command engine *)

Lemma poll_after k w : HAL_Delay (poll_instant k) w = after (10 * k) w.
Proof.
  unfold poll_instant. rewrite HAL_Delay_to_after. f_equal. lia.
Qed.

Lemma Delay_10_after k w : ESP8266_Delay 10 (after (10 * k) w) = after (10 * S k) w.
Proof.
  unfold ESP8266_Delay. rewrite HAL_Delay_to_after, after_add. f_equal. lia.
Qed.

Lemma elapsed_below (k : nat) (d : Z) (w : World) :
  Z.of_nat k < d -> (uint32 (HAL_GetTick (after k w) - HAL_GetTick w) <? d) = true.
Proof.
  intros H. rewrite elapsed_after. apply Z.ltb_lt.
  assert (Z.of_nat k mod 2 ^ 32 <= Z.of_nat k) by (apply Z.mod_le; lia). lia.
Qed.

Lemma deadline_poll_spec (d : Z) :
  0 <= d -> d <= 10 * Z.of_nat (deadline_poll d) < d + 10.
Proof.
  intros Hd. unfold deadline_poll.
  pose proof (Z.div_mod (d + 9) 10 ltac:(lia)).
  pose proof (Z.mod_pos_bound (d + 9) 10 ltac:(lia)).
  assert (0 <= (d + 9) / 10) by (apply Z.div_pos; lia).
  lia.
Qed.

(** [n] looks at the buffer that do not find the token. *)
Lemma wait_steps (t : string) (d : Z) (n : nat) : forall (k fuel : nat) (w : World),
  (forall i, (k <= i < k + n)%nat -> poll_instant i < d /\ seen t i w = false) ->
  ESP8266_WaitForResponse_loop (n + fuel) t d (HAL_GetTick w) (after (10 * k) w)
  = ESP8266_WaitForResponse_loop fuel t d (HAL_GetTick w) (after (10 * (k + n)) w).
Proof.
  induction n as [|n IH]; intros k fuel w Hno.
  - by rewrite Nat.add_0_r.
  - cbn [Nat.add ESP8266_WaitForResponse_loop].
    destruct (Hno k) as (Hk & Hs); [lia|].
    unfold poll_instant in Hk. rewrite elapsed_below by lia.
    unfold seen in Hs. rewrite poll_after in Hs. rewrite Hs.
    rewrite Delay_10_after, (IH (S k)); [f_equal; f_equal; lia|].
    intros i Hi. apply Hno. lia.
Qed.

Lemma wait_found (t : string) (d : Z) (fuel k : nat) (w : World) :
  (k < fuel)%nat -> poll_instant k < d ->
  (forall i, (i < k)%nat -> seen t i w = false) -> seen t k w = true ->
  ESP8266_WaitForResponse fuel t d w = Some (true, HAL_Delay (poll_instant k) w).
Proof.
  intros Hfuel Hk Hno Hyes. unfold ESP8266_WaitForResponse.
  replace fuel with (k + (fuel - k))%nat by lia.
  change w with (after (10 * 0) w) at 2.
  rewrite wait_steps.
  2:{ intros i Hi. split; [unfold poll_instant in *; lia|apply Hno; lia]. }
  destruct (fuel - k)%nat as [|f] eqn:E; [lia|].
  cbn [ESP8266_WaitForResponse_loop Nat.add].
  unfold poll_instant in Hk. rewrite elapsed_below by lia.
  unfold seen in Hyes. rewrite poll_after in Hyes. by rewrite Hyes, poll_after.
Qed.

Lemma wait_expired (t : string) (d : Z) (fuel : nat) (w : World) :
  0 <= d <= 2 ^ 32 - 10 -> (deadline_poll d < fuel)%nat ->
  (forall i, poll_instant i < d -> seen t i w = false) ->
  ESP8266_WaitForResponse fuel t d w
  = Some (false, HAL_Delay (poll_instant (deadline_poll d)) w).
Proof.
  intros Hd Hfuel Hno. unfold ESP8266_WaitForResponse.
  assert (Hn : 10 * Z.of_nat (deadline_poll d) < 2 ^ 32
               /\ d <= 10 * Z.of_nat (deadline_poll d)
               /\ forall i, (i < deadline_poll d)%nat -> poll_instant i < d).
  { pose proof (deadline_poll_spec d ltac:(lia)). unfold poll_instant.
    split_and!; [lia|lia|]. intros i Hi. lia. }
  destruct Hn as (Hlt & Hge & Hbefore).
  remember (deadline_poll d) as n eqn:En.
  replace fuel with (n + (fuel - n))%nat by lia.
  change w with (after (10 * 0) w) at 2.
  rewrite wait_steps.
  2:{ intros i Hi. split; [apply Hbefore; lia|apply Hno, Hbefore; lia]. }
  destruct (fuel - n)%nat as [|f] eqn:E; [lia|].
  cbn [ESP8266_WaitForResponse_loop Nat.add].
  rewrite elapsed_after_small by lia.
  destruct (Z.ltb_spec (Z.of_nat (10 * n)) d) as [?|_]; [lia|].
  by rewrite poll_after.
Qed.

Lemma ESP8266_WaitForResponse_frame fuel t d w r w' :
  ESP8266_WaitForResponse fuel t d w = Some (r, w') -> same_session w w'.
Proof.
  unfold ESP8266_WaitForResponse. generalize (HAL_GetTick w) as start.
  revert w. induction fuel as [|f IH]; intros w start; simpl; [done|].
  case_match; [|intros [= <- <-]; apply same_session_refl].
  case_match; [intros [= <- <-]; apply same_session_refl|].
  intros Hr%IH. eapply same_session_trans; [|exact Hr]. apply HAL_Delay_frame.
Qed.

(** With a deadline that the 32-bit counter can reach, the wait returns. *)
Lemma ESP8266_WaitForResponse_total (fuel : nat) (t : string) (d : Z) (w : World) :
  0 <= d <= 2 ^ 32 - 10 -> d / 10 + 2 <= Z.of_nat fuel ->
  exists r w', ESP8266_WaitForResponse fuel t d w = Some (r, w').
Proof.
  intros Hd Hfuel.
  assert (Hdl : Z.of_nat (deadline_poll d) <= d / 10 + 1).
  { pose proof (deadline_poll_spec d ltac:(lia)).
    pose proof (Z.div_mod d 10 ltac:(lia)).
    pose proof (Z.mod_pos_bound d 10 ltac:(lia)). lia. }
  destruct (first_false (λ i, negb (seen t i w)) (deadline_poll d))
    as [Hall|(j & Hj & Hf & Hlt)].
  - eexists _, _. apply wait_expired; [done|lia|].
    intros i Hi. specialize (Hall i). rewrite negb_true_iff in Hall. apply Hall.
    pose proof (deadline_poll_spec d ltac:(lia)). unfold poll_instant in *. lia.
  - rewrite negb_false_iff in Hf.
    destruct (Z.lt_ge_cases (poll_instant j) d) as [Hjd|Hjd].
    + eexists _, _. apply (wait_found t d fuel j); [lia|done| |done].
      intros i Hi. specialize (Hlt i Hi). by rewrite negb_true_iff in Hlt.
    + eexists _, _. apply wait_expired; [done|lia|].
      intros i Hi. assert (Hij : (i < j)%nat) by (unfold poll_instant in *; lia).
      specialize (Hlt i Hij). by rewrite negb_true_iff in Hlt.
Qed.

(** The fuel that the transmission needs also covers a wait of up to
    50 s. *)
Lemma fuel_for_wait (fuel : nat) (d : Z) :
  0 <= d <= 50000 -> 5002 <= Z.of_nat fuel -> d / 10 + 2 <= Z.of_nat fuel.
Proof.
  intros Hd Hf. assert (d / 10 <= 5000) by (apply Z.div_le_upper_bound; lia). lia.
Qed.

Lemma ESP8266_ClearBuffer_frame w :
  same_session w (ESP8266_ClearBuffer w) /\ wire (ESP8266_ClearBuffer w) = wire w.
Proof. by repeat split. Qed.

Lemma ESP8266_SendCommand_frame fuel cmd expected d w r w' :
  ESP8266_SendCommand fuel cmd expected d w = Some (r, w') -> same_session w w'.
Proof.
  unfold ESP8266_SendCommand.
  destruct cmd as [c|]; [|intros [= <- <-]; apply same_session_refl].
  destruct (ESP8266_SendDMA _ _ _ _) as [[r1 w1]|] eqn:E1; [|done].
  apply ESP8266_SendDMA_frame in E1.
  assert (Hs : same_session w w1).
  { eapply same_session_trans; [|exact E1]. apply ESP8266_ClearBuffer_frame. }
  destruct expected as [e|]; [|intros [= <- <-]; done].
  destruct (ESP8266_WaitForResponse _ _ _ _) as [[found w2]|] eqn:E2; [|done].
  apply ESP8266_WaitForResponse_frame in E2. intros Hr.
  assert (w' = w2) as -> by (repeat case_match; congruence).
  by eapply same_session_trans.
Qed.

Lemma ESP8266_SendCommandF_frame fuel expected d text w r w' :
  ESP8266_SendCommandF fuel expected d text w = Some (r, w') -> same_session w w'.
Proof.
  unfold ESP8266_SendCommandF. intros Hr%ESP8266_SendCommand_frame.
  eapply same_session_trans; [|exact Hr]. done.
Qed.

Lemma ESP8266_SendCommand_total fuel cmd expected d w :
  0 <= d <= 2 ^ 32 - 10 -> 5002 <= Z.of_nat fuel -> d / 10 + 2 <= Z.of_nat fuel ->
  exists r w', ESP8266_SendCommand fuel cmd expected d w = Some (r, w').
Proof.
  intros Hd Hf1 Hf2. unfold ESP8266_SendCommand.
  destruct cmd as [c|]; [|by eexists _, _].
  destruct (ESP8266_SendDMA_total fuel (Some c) (uint16 (strlen c)) (ESP8266_ClearBuffer w))
    as (r1 & w1 & -> & _); [done|].
  destruct expected as [e|]; [|by eexists _, _].
  destruct (ESP8266_WaitForResponse_total fuel e d w1) as (found & w2 & ->); [done..|].
  repeat case_match; by eexists _, _.
Qed.

Lemma ESP8266_SendCommandF_total fuel expected d text w :
  0 <= d <= 2 ^ 32 - 10 -> 5002 <= Z.of_nat fuel -> d / 10 + 2 <= Z.of_nat fuel ->
  exists r w', ESP8266_SendCommandF fuel expected d text w = Some (r, w').
Proof. intros. unfold ESP8266_SendCommandF. by apply ESP8266_SendCommand_total. Qed.

(** ** The subscription table *)

Lemma count_active_cons s l :
  count_active (s :: l) = ((if active s then 1 else 0) + count_active l)%nat.
Proof.
  unfold count_active. rewrite filter_cons.
  destruct (active s); by case_decide.
Qed.

Lemma count_active_le_length l : (count_active l <= length l)%nat.
Proof. apply length_filter. Qed.

Lemma count_active_replicate_zero n : count_active (replicate n zero_subscription) = 0%nat.
Proof. induction n as [|n IH]; [done|]. simpl. by rewrite count_active_cons, IH. Qed.

(** Writing a slot changes the number of active slots by the flags of the
    old and of the new entry. *)
Lemma count_active_insert l : forall i x y,
  l !! i = Some y ->
  (count_active (<[i:=x]> l) + (if active y then 1 else 0)
   = count_active l + (if active x then 1 else 0))%nat.
Proof.
  induction l as [|a l IH]; intros [|i] x y; simpl; try done.
  - intros [= ->]. rewrite !count_active_cons. lia.
  - intros Hy. rewrite !count_active_cons. specialize (IH i x y Hy). lia.
Qed.

Lemma subscribed_find t m :
  subscribed t m = true ->
  exists i s, list_find (λ s, holds_topic t s = true) (subscriptions m) = Some (i, s).
Proof.
  intros (s & Hin & Hs)%existsb_exists.
  destruct (list_find_elem_of (λ s, holds_topic t s = true) (subscriptions m) s)
    as [[j s'] Hj]; [by apply list_elem_of_In|done|]. by exists j, s'.
Qed.

Lemma not_subscribed_find t m :
  subscribed t m = false ->
  list_find (λ s, holds_topic t s = true) (subscriptions m) = None.
Proof.
  intros Hno. destruct (list_find _ _) as [[i s]|] eqn:E; [|done].
  apply list_find_Some in E as (Hi & Hs & _).
  assert (subscribed t m = true); [|congruence].
  apply existsb_exists. exists s. split; [|done].
  apply list_elem_of_In. by eapply list_elem_of_lookup_2.
Qed.

Lemma MQTT_AddSubscription_table_ok t q m :
  table_ok m -> subscriptionCount m < Z.of_nat MQTT_MAX_SUBSCRIPTIONS ->
  table_ok (MQTT_AddSubscription t q m).
Proof.
  intros (Hlen & Hcnt) Hroom. unfold MQTT_AddSubscription.
  destruct (list_find _ _) as [[i s]|] eqn:E1.
  - apply list_find_Some in E1 as (Hi & Hs & _).
    split; simpl; [by rewrite length_insert|].
    pose proof (count_active_insert _ i
      {| topic := topic s; qos := q; active := active s |} s Hi) as Hc.
    simpl in Hc. lia.
  - destruct (list_find (λ s, active s = false) _) as [[i s]|] eqn:E2; [|done].
    apply list_find_Some in E2 as (Hi & Hs & _).
    split; simpl; [by rewrite length_insert|].
    pose proof (count_active_insert _ i
      {| topic := strncpy t (MQTT_TOPIC_MAX_LEN - 1); qos := q; active := true |}
      s Hi) as Hc.
    simpl in Hc. rewrite Hs in Hc.
    unfold uint8. rewrite Z.mod_small; unfold MQTT_MAX_SUBSCRIPTIONS in *; lia.
Qed.

Lemma MQTT_RemoveSubscription_table_ok t m :
  table_ok m -> table_ok (MQTT_RemoveSubscription t m).
Proof.
  intros (Hlen & Hcnt). unfold MQTT_RemoveSubscription.
  destruct (list_find _ _) as [[i s]|] eqn:E1; [|done].
  apply list_find_Some in E1 as (Hi & Hs & _).
  split; simpl; [by rewrite length_insert|].
  pose proof (count_active_insert _ i zero_subscription s Hi) as Hc.
  simpl in Hc. unfold holds_topic in Hs. apply andb_true_iff in Hs as (Ha & _).
  rewrite Ha in Hc.
  pose proof (count_active_le_length (subscriptions m)).
  unfold uint8. rewrite Z.mod_small; unfold MQTT_MAX_SUBSCRIPTIONS in *; lia.
Qed.

Lemma table_ok_bound m :
  table_ok m ->
  (count_active (subscriptions m) <= MQTT_MAX_SUBSCRIPTIONS)%nat
  /\ 0 <= subscriptionCount m <= Z.of_nat MQTT_MAX_SUBSCRIPTIONS.
Proof.
  intros (Hlen & Hcnt). pose proof (count_active_le_length (subscriptions m)). lia.
Qed.


Lemma same_session_table w w' : same_session w w' -> same_table w w'.
Proof. unfold same_table. intros (_ & -> & _). done. Qed.

(** ** What each operation does to the subscription table *)

Lemma fire_mqtt b c w : mqtt (fire b c w) = mqtt w.
Proof. by destruct b. Qed.

Lemma fire_calls b c w :
  calls (fire b c w) = (calls w ++ (if b then [c] else []))%list.
Proof. destruct b; simpl; [done|by rewrite app_nil_r]. Qed.

Lemma same_table_refl w : same_table w w.
Proof. done. Qed.

Lemma same_table_trans w1 w2 w3 : same_table w1 w2 -> same_table w2 w3 -> same_table w1 w3.
Proof. unfold same_table. intros (-> & ->) (-> & ->). done. Qed.

(** Turns the equations that record a finished exchange into the facts
    that the exchange left the session alone. *)
Ltac exchange_frames :=
  repeat match goal with
  | H : ESP8266_SendCommandF _ _ _ _ _ = Some _ |- _ =>
      apply ESP8266_SendCommandF_frame in H as (? & ? & ?)
  | H : ESP8266_SendCommand _ _ _ _ _ = Some _ |- _ =>
      apply ESP8266_SendCommand_frame in H as (? & ? & ?)
  | H : ESP8266_SendDMA _ _ _ _ = Some _ |- _ =>
      apply ESP8266_SendDMA_frame in H as (? & ? & ?)
  | H : ESP8266_WaitForResponse _ _ _ _ = Some _ |- _ =>
      apply ESP8266_WaitForResponse_frame in H as (? & ? & ?)
  end.

Ltac same_table_by_frames :=
  exchange_frames; unfold same_table; rewrite ?fire_mqtt;
  cbn [mqtt with_mqtt with_esp8266 ESP8266_ClearBuffer] in *;
  cbn [subscriptions subscriptionCount with_state with_connected with_userConfig
       with_publishCount with_receiveCount];
  split; congruence.

Lemma MQTT_SetUserConfigSimple_table fuel c u p w r w' :
  MQTT_SetUserConfigSimple fuel c u p w = Some (r, w') -> same_table w w'.
Proof.
  unfold MQTT_SetUserConfigSimple. intros H.
  repeat (case_match; simplify_eq); try done; same_table_by_frames.
Qed.

Lemma MQTT_Connect_table fuel w r w' :
  MQTT_Connect fuel w = Some (r, w') -> same_table w w'.
Proof.
  unfold MQTT_Connect. intros H.
  repeat (case_match; simplify_eq); same_table_by_frames.
Qed.

Lemma MQTT_Clean_table fuel w r w' :
  MQTT_Clean fuel w = Some (r, w') -> same_table w w'.
Proof.
  unfold MQTT_Clean. intros H.
  repeat (case_match; simplify_eq); same_table_by_frames.
Qed.


Lemma MQTT_Reconnect_table fuel w r w' :
  MQTT_Reconnect fuel w = Some (r, w') -> same_table w w'.
Proof.
  unfold MQTT_Reconnect, MQTT_Delay. intros H.
  destruct (MQTT_Clean _ _) as [[r1 w1]|] eqn:E1; [|done].
  apply MQTT_Clean_table in E1.
  destruct (MQTT_SetUserConfigSimple _ _ _ _ _) as [[r2 w2]|] eqn:E2; [|done].
  apply MQTT_SetUserConfigSimple_table in E2.
  assert (Hd : same_table w1 (HAL_Delay 1000 w1)).
  { apply same_session_table. exact (proj1 (HAL_Delay_frame 1000 w1)). }
  assert (H2 : same_table w w2).
  { eapply same_table_trans; [|exact E2]. eapply same_table_trans; [|exact Hd].
    eapply same_table_trans; [|exact E1]. done. }
  destruct r2; simplify_eq; try done.
  apply MQTT_Connect_table in H. by eapply same_table_trans.
Qed.

Lemma MQTT_Subscribe_table_ok fuel t q w r w' :
  MQTT_Subscribe fuel t q w = Some (r, w') -> table_ok (mqtt w) -> table_ok (mqtt w').
Proof.
  unfold MQTT_Subscribe. intros H Hok.
  repeat (case_match; simplify_eq); try done; exchange_frames;
    rewrite ?fire_mqtt; simpl; try congruence.
  apply MQTT_AddSubscription_table_ok; [congruence|].
  match goal with E : (_ >=? _) = false |- _ =>
    rewrite Z.geb_leb in E; apply Z.leb_gt in E end.
  congruence.
Qed.


Lemma MQTT_Publish_wait_table fuel t start : forall w r w',
  MQTT_Publish_wait fuel t start w = Some (r, w') -> same_table w w'.
Proof.
  induction fuel as [|f IH]; intros w r w'; simpl; [done|].
  intros H. repeat (case_match; simplify_eq); try done.
  - unfold same_table; by rewrite fire_mqtt.
  - apply IH in H. eapply same_table_trans; [|exact H].
    apply same_session_table, HAL_Delay_frame.
Qed.

Lemma MQTT_Publish_table fuel t m q rt w r w' :
  MQTT_Publish fuel t m q rt w = Some (r, w') -> same_table w w'.
Proof.
  unfold MQTT_Publish. intros H.
  repeat (case_match; simplify_eq); try done;
    try (apply MQTT_Publish_wait_table in H; destruct H as (Hs & Hc);
         unfold same_table; rewrite Hs, Hc);
    same_table_by_frames.
Qed.

Lemma MQTT_PublishRaw_table fuel t d len q rt w r w' :
  MQTT_PublishRaw fuel t d len q rt w = Some (r, w') -> same_table w w'.
Proof.
  unfold MQTT_PublishRaw. intros H.
  repeat (case_match; simplify_eq); try done; same_table_by_frames.
Qed.

Lemma MQTT_PublishData_table fuel t d len q rt w r w' :
  MQTT_PublishData fuel t d len q rt w = Some (r, w') -> same_table w w'.
Proof.
  unfold MQTT_PublishData. intros H.
  repeat (case_match; simplify_eq); try done;
    eauto using MQTT_Publish_table, MQTT_PublishRaw_table.
Qed.

Lemma MQTT_QueryConnection_table fuel w r w' :
  MQTT_QueryConnection fuel w = Some (r, w') -> same_table w w'.
Proof.
  unfold MQTT_QueryConnection. intros H.
  repeat (case_match; simplify_eq); try done; same_table_by_frames.
Qed.

Lemma MQTT_ParseSubMessage_table d w : same_table w (snd (MQTT_ParseSubMessage d w)).
Proof.
  unfold MQTT_ParseSubMessage.
  destruct d as [d|]; [|done].
  destruct (strstr d _) as [ptr|]; [|done].
  destruct (strchr _ _) as [ptr1|]; [|done].
  match goal with |- context [let '(a, b) := ?X in _] => destruct X as [topic' ptr2] end.
  destruct (strchr _ _) as [ptr3|]; [|done].
  destruct (strchr _ _) as [ptr4|]; [|done].
  unfold same_table. cbn [snd]. by rewrite fire_mqtt.
Qed.

Lemma MQTT_ProcessMessage_table d len w : same_table w (MQTT_ProcessMessage d len w).
Proof.
  unfold MQTT_ProcessMessage.
  repeat case_match; try done; apply MQTT_ParseSubMessage_table.
Qed.

Lemma MQTT_ProcessData_table w : same_table w (MQTT_ProcessData w).
Proof.
  unfold MQTT_ProcessData. destruct (initialized (mqtt w)); [|done]. simpl negb. cbv iota.
  set (w1 := if msgPending _ then _ else w).
  assert (H1 : same_table w w1).
  { subst w1. case_match; [|done].
    eapply same_table_trans; [|apply MQTT_ParseSubMessage_table]. done. }
  clearbody w1. unfold ESP8266_GetResponseBuffer.
  set (w2 := match strstr _ "+MQTTDISCONNECTED:" with Some _ => _ | None => w1 end).
  assert (H2 : same_table w w2).
  { subst w2. case_match; [|done]. eapply same_table_trans; [exact H1|].
    unfold same_table; by rewrite fire_mqtt. }
  clearbody w2.
  set (w3 := match strstr _ "+MQTTCONNECTED:" with Some _ => _ | None => w2 end).
  assert (H3 : same_table w w3).
  { subst w3. case_match; [|done]. eapply same_table_trans; [exact H2|].
    unfold same_table; by rewrite fire_mqtt. }
  clearbody w3.
  case_match; [|done].
  eapply same_table_trans; [exact H3|apply MQTT_ParseSubMessage_table].
Qed.





(** ** Subscribe, unsubscribe, disconnect *)

Lemma MQTT_GetSubscriptions_count w :
  table_ok (mqtt w) ->
  snd (MQTT_GetSubscriptions w) = Z.of_nat (count_active (subscriptions (mqtt w))).
Proof.
  intros Hok. destruct (table_ok_bound _ Hok) as (Hb & _).
  unfold MQTT_GetSubscriptions. cbn [snd]. fold (count_active (subscriptions (mqtt w))).
  unfold uint8. apply Z.mod_small. unfold MQTT_MAX_SUBSCRIPTIONS in Hb. lia.
Qed.


(** C9. In a connected session, unsubscribing a topic that is not in the
    table always returns (given fuel for the exchange): with [MQTT_OK] when
    the AT+MQTTUNSUB exchange succeeds and [MQTT_ERROR] otherwise, and in
    both cases the whole handle, so the table and the counter, is as
    before. *)
Theorem C9_unsubscribe_absent_topic (fuel : nat) (w : World) (t : string) :
  initialized (mqtt w) = true -> connected (mqtt w) = true ->
  subscribed t (mqtt w) = false ->
  5002 <= Z.of_nat fuel ->
  exists ret w1 w',
    ESP8266_SendCommandF fuel (Some "OK") MQTT_DEFAULT_TIMEOUT (AT_MQTTUNSUB t) w
      = Some (ret, w1)
    /\ MQTT_Unsubscribe fuel (Some t) w
       = Some (match ret with ESP8266_OK => MQTT_OK | _ => MQTT_ERROR end, w')
    /\ subscriptions (mqtt w') = subscriptions (mqtt w)
    /\ subscriptionCount (mqtt w') = subscriptionCount (mqtt w)
    /\ mqtt w' = mqtt w.
Proof.
  intros Hinit Hconn Habsent Hfuel.
  destruct (ESP8266_SendCommandF_total fuel (Some "OK") MQTT_DEFAULT_TIMEOUT
              (AT_MQTTUNSUB t) w) as (ret & w1 & E);
    [unfold MQTT_DEFAULT_TIMEOUT; lia|done
    |apply fuel_for_wait; [unfold MQTT_DEFAULT_TIMEOUT; lia|done]|].
  pose proof E as (_ & Hm & _)%ESP8266_SendCommandF_frame.
  unfold MQTT_Unsubscribe. rewrite Hinit, Hconn. cbn [negb]. rewrite E.
  assert (Hrm : MQTT_RemoveSubscription t (mqtt w1) = mqtt w).
  { unfold MQTT_RemoveSubscription. rewrite Hm. by rewrite not_subscribed_find. }
  destruct ret; eexists _, _, _; (split; [reflexivity|]); (split; [reflexivity|]);
    rewrite ?fire_mqtt; cbn [mqtt with_mqtt]; rewrite ?Hrm, ?Hm; done.
Qed.

(** C10. On an initialized session [MQTT_Disconnect] always returns (given
    fuel for the exchange), with [MQTT_OK] when the AT+MQTTCLEAN exchange
    succeeded and [MQTT_ERROR] when it failed, and in both cases the
    connected flag is down, the state is [MQTT_STATE_DISCONNECTED], every
    slot of the table is zero, the counter is 0 and [onDisconnected], when
    registered, was called once. *)
Theorem C10_disconnect_is_unconditional (fuel : nat) (w : World) :
  initialized (mqtt w) = true -> 5002 <= Z.of_nat fuel ->
  exists ret w1 w',
    ESP8266_SendCommandF fuel (Some "OK") MQTT_DEFAULT_TIMEOUT AT_MQTTCLEAN w
      = Some (ret, w1)
    /\ MQTT_Disconnect fuel w
       = Some (match ret with ESP8266_OK => MQTT_OK | _ => MQTT_ERROR end, w')
    /\ connected (mqtt w') = false
    /\ state (mqtt w') = MQTT_STATE_DISCONNECTED
    /\ subscriptions (mqtt w') = replicate MQTT_MAX_SUBSCRIPTIONS zero_subscription
    /\ count_active (subscriptions (mqtt w')) = 0%nat
    /\ subscriptionCount (mqtt w') = 0
    /\ calls w' = (calls w ++ if onDisconnected (mqtt w) then [Call_onDisconnected]
                              else [])%list.
Proof.
  intros Hinit Hfuel.
  destruct (ESP8266_SendCommandF_total fuel (Some "OK") MQTT_DEFAULT_TIMEOUT
              AT_MQTTCLEAN w) as (ret & w1 & E);
    [unfold MQTT_DEFAULT_TIMEOUT; lia|done
    |apply fuel_for_wait; [unfold MQTT_DEFAULT_TIMEOUT; lia|done]|].
  pose proof E as (_ & Hm & Hc)%ESP8266_SendCommandF_frame.
  unfold MQTT_Disconnect. rewrite Hinit. cbn [negb]. rewrite E.
  eexists ret, w1, _. split; [done|]. split; [done|].
  rewrite fire_mqtt, fire_calls.
  cbn [mqtt with_mqtt calls connected state subscriptions subscriptionCount
       onDisconnected with_state with_connected with_subscriptions
       with_subscriptionCount].
  rewrite Hm, Hc. split_and!; done.
Qed.


Lemma C9_witness :
  initialized (mqtt session_acked) = true /\ connected (mqtt session_acked) = true
  /\ subscribed "b" (mqtt session_acked) = false /\ 5002 <= Z.of_nat plenty
  /\ exists ret w1 w',
       ESP8266_SendCommandF plenty (Some "OK") MQTT_DEFAULT_TIMEOUT (AT_MQTTUNSUB "b")
         session_acked = Some (ret, w1)
       /\ MQTT_Unsubscribe plenty (Some "b") session_acked
          = Some (match ret with ESP8266_OK => MQTT_OK | _ => MQTT_ERROR end, w')
       /\ subscriptions (mqtt w') = subscriptions (mqtt session_acked)
       /\ subscriptionCount (mqtt w') = subscriptionCount (mqtt session_acked)
       /\ mqtt w' = mqtt session_acked.
Proof.
  assert (H1 : initialized (mqtt session_acked) = true) by reflexivity.
  assert (H2 : connected (mqtt session_acked) = true) by reflexivity.
  assert (H3 : subscribed "b" (mqtt session_acked) = false) by reflexivity.
  assert (H4 : 5002 <= Z.of_nat plenty) by (unfold plenty; lia).
  split; [exact H1|]. split; [exact H2|]. split; [exact H3|]. split; [exact H4|].
  exact (C9_unsubscribe_absent_topic plenty session_acked "b" H1 H2 H3 H4).
Defined.

Lemma C10_witness :
  initialized (mqtt session_unanswered) = true /\ 5002 <= Z.of_nat plenty
  /\ exists ret w1 w',
       ESP8266_SendCommandF plenty (Some "OK") MQTT_DEFAULT_TIMEOUT AT_MQTTCLEAN
         session_unanswered = Some (ret, w1)
       /\ MQTT_Disconnect plenty session_unanswered
          = Some (match ret with ESP8266_OK => MQTT_OK | _ => MQTT_ERROR end, w')
       /\ connected (mqtt w') = false
       /\ state (mqtt w') = MQTT_STATE_DISCONNECTED
       /\ subscriptions (mqtt w') = replicate MQTT_MAX_SUBSCRIPTIONS zero_subscription
       /\ count_active (subscriptions (mqtt w')) = 0%nat
       /\ subscriptionCount (mqtt w') = 0
       /\ calls w' = (calls session_unanswered
                      ++ if onDisconnected (mqtt session_unanswered)
                         then [Call_onDisconnected] else [])%list.
Proof.
  assert (H1 : initialized (mqtt session_unanswered) = true) by reflexivity.
  assert (H2 : 5002 <= Z.of_nat plenty) by (unfold plenty; lia).
  split; [exact H1|]. split; [exact H2|].
  exact (C10_disconnect_is_unconditional plenty session_unanswered H1 H2).
Defined.

(** The exchange of the example for C10 does fail, and the example for C9
    does succeed. *)
Example C10_example_fails :
  fst <$> MQTT_Disconnect plenty session_unanswered = Some MQTT_ERROR.
Proof. vm_compute. reflexivity. Qed.

Example C9_example_succeeds :
  fst <$> MQTT_Unsubscribe plenty (Some "b") session_acked = Some MQTT_OK.
Proof. vm_compute. reflexivity. Qed.

Example C3_example_succeeds :
  (λ r, (fst r, take 2 (subscriptions (mqtt (snd r))), subscriptionCount (mqtt (snd r))))
    <$> MQTT_Subscribe plenty (Some "a") MQTT_QOS_1 session_acked
  = Some (MQTT_OK,
          [ {| topic := "a"; qos := MQTT_QOS_1; active := true |}; zero_subscription ],
          1).
Proof. vm_compute. reflexivity. Qed.

Lemma reachable_run_all fuel prog : forall w w',
  reachable w -> run_all fuel prog w = Some w' -> reachable w'.
Proof.
  induction prog as [|a prog IH]; intros w w' Hw; simpl.
  - by intros [= <-].
  - destruct (run fuel a w) as [v|] eqn:E; [|done].
    apply IH. by eapply reachable_run.
Qed.

(** ** Clean *)

(** C7. The code at the failing input: a program that connects, subscribes
    to one topic and calls [MQTT_Clean]; every exchange is answered with OK.
    [MQTT_Clean] returns [MQTT_OK] and leaves a reachable session that is
    not connected, whose state is [MQTT_STATE_NOT_INIT], and whose table
    still holds the subscription, with the counter at 1. *)
Theorem C7_clean_keeps_the_subscriptions :
  exists v w',
    run_all plenty [Api_Init; Api_Connect; Api_Subscribe (Some "a") MQTT_QOS_0]
      (boot clean_board 0 true) = Some v
    /\ connected (mqtt v) = true
    /\ MQTT_Clean plenty v = Some (MQTT_OK, w')
    /\ reachable w'
    /\ connected (mqtt w') = false
    /\ state (mqtt w') = MQTT_STATE_NOT_INIT
    /\ subscriptions (mqtt w') = subscriptions (mqtt v)
    /\ count_active (subscriptions (mqtt w')) = 1%nat
    /\ subscriptionCount (mqtt w') = 1.
Proof.
  eexists _, _.
  split; [vm_compute; reflexivity|].
  split; [vm_compute; reflexivity|].
  split; [vm_compute; reflexivity|].
  split.
  { eapply (reachable_run_all plenty clean_program);
      [apply (reachable_boot clean_board 0 true)|vm_compute; reflexivity]. }
  split_and!; vm_compute; reflexivity.
Qed.

(** ** Send *)




(** ** Classification of the response *)

Lemma ESP8266_WaitForResponse_wire fuel t d w r w' :
  ESP8266_WaitForResponse fuel t d w = Some (r, w') -> wire w' = wire w.
Proof.
  unfold ESP8266_WaitForResponse. generalize (HAL_GetTick w) as start.
  revert w. induction fuel as [|f IH]; intros w start; simpl; [done|].
  case_match; [|by intros [= <- <-]].
  case_match; [by intros [= <- <-]|].
  intros Hr%IH. rewrite Hr. apply HAL_Delay_frame.
Qed.

(** C2 (as amended). The wait starts when the transmission has returned, in
    the world [w1], and looks at the buffer at the instants 0, 10, 20, ...
    ms that are before [d].  If the token is in the buffer at one of these
    looks, the first such look ends the exchange with [ESP8266_OK], whatever
    else the buffer holds.  If no look finds the token, and [d] is at most
    2^32 - 10 so that the 32-bit tick counter reaches the deadline, the
    result is decided by the buffer at the first look that is not before
    [d]: [ESP8266_ERROR] when it contains ERROR, else [ESP8266_BUSY] when it
    contains BUSY, else [ESP8266_TIMEOUT]. *)
Theorem C2_token_first_then_error (fuel : nat) (cmd t : string) (d : Z) (w : World) :
  0 <= d -> 5002 <= Z.of_nat fuel -> d / 10 + 2 <= Z.of_nat fuel ->
  exists r w1,
    ESP8266_SendDMA fuel (Some cmd) (uint16 (strlen cmd)) (ESP8266_ClearBuffer w)
      = Some (r, w1)
    /\ (forall k, poll_instant k < d -> seen t k w1 = true ->
        exists j, (j <= k)%nat /\ seen t j w1 = true
          /\ ESP8266_SendCommand fuel (Some cmd) (Some t) d w
             = Some (ESP8266_OK, HAL_Delay (poll_instant j) w1))
    /\ ((forall k, poll_instant k < d -> seen t k w1 = false) -> d <= 2 ^ 32 - 10 ->
        let w2 := HAL_Delay (poll_instant (deadline_poll d)) w1 in
        (ESP8266_ContainsString "ERROR" w2 = true ->
         ESP8266_SendCommand fuel (Some cmd) (Some t) d w = Some (ESP8266_ERROR, w2))
        /\ (ESP8266_ContainsString "ERROR" w2 = false ->
            ESP8266_ContainsString "BUSY" w2 = true ->
            ESP8266_SendCommand fuel (Some cmd) (Some t) d w = Some (ESP8266_BUSY, w2))
        /\ (ESP8266_ContainsString "ERROR" w2 = false ->
            ESP8266_ContainsString "BUSY" w2 = false ->
            ESP8266_SendCommand fuel (Some cmd) (Some t) d w
            = Some (ESP8266_TIMEOUT, w2))).
Proof.
  intros Hd Hf1 Hf2.
  destruct (ESP8266_SendDMA_total fuel (Some cmd) (uint16 (strlen cmd))
              (ESP8266_ClearBuffer w)) as (r & w1 & E & _); [done|].
  exists r, w1. split; [done|].
  unfold ESP8266_SendCommand. rewrite E. split.
  - intros k Hk Hseen.
    destruct (first_false (λ i, negb (seen t i w1)) k) as [Hall|(j & Hj & Hf & Hlt)].
    { specialize (Hall k (le_n k)). simpl in Hall. by rewrite Hseen in Hall. }
    rewrite negb_false_iff in Hf. exists j. split; [done|]. split; [done|].
    assert (Z.of_nat j <= d / 10).
    { apply Z.div_le_lower_bound; unfold poll_instant in *; lia. }
    rewrite (wait_found t d fuel j); [done|lia|unfold poll_instant in *; lia| |done].
    intros i Hi. specialize (Hlt i Hi). by rewrite negb_true_iff in Hlt.
  - intros Hno Hd32. set (w2 := HAL_Delay (poll_instant (deadline_poll d)) w1).
    assert (Hw : ESP8266_WaitForResponse fuel t d w1 = Some (false, w2)).
    { apply wait_expired; [lia| |done].
      pose proof (deadline_poll_spec d Hd).
      pose proof (Z.div_mod d 10 ltac:(lia)).
      pose proof (Z.mod_pos_bound d 10 ltac:(lia)). lia. }
    rewrite Hw. split_and!.
    + by intros ->.
    + by intros -> ->.
    + by intros -> ->.
Qed.

Lemma C2_witness :
  0 <= 3000 /\ 5002 <= Z.of_nat plenty /\ 3000 / 10 + 2 <= Z.of_nat plenty
  /\ exists r w1,
    ESP8266_SendDMA plenty (Some ("AT" +:+ CRLF)) (uint16 (strlen ("AT" +:+ CRLF)))
      (ESP8266_ClearBuffer late_answer) = Some (r, w1)
    /\ (forall k, poll_instant k < 3000 -> seen "OK" k w1 = true ->
        exists j, (j <= k)%nat /\ seen "OK" j w1 = true
          /\ ESP8266_SendCommand plenty (Some ("AT" +:+ CRLF)) (Some "OK") 3000 late_answer
             = Some (ESP8266_OK, HAL_Delay (poll_instant j) w1))
    /\ ((forall k, poll_instant k < 3000 -> seen "OK" k w1 = false) ->
        3000 <= 2 ^ 32 - 10 ->
        let w2 := HAL_Delay (poll_instant (deadline_poll 3000)) w1 in
        (ESP8266_ContainsString "ERROR" w2 = true ->
         ESP8266_SendCommand plenty (Some ("AT" +:+ CRLF)) (Some "OK") 3000 late_answer
         = Some (ESP8266_ERROR, w2))
        /\ (ESP8266_ContainsString "ERROR" w2 = false ->
            ESP8266_ContainsString "BUSY" w2 = true ->
            ESP8266_SendCommand plenty (Some ("AT" +:+ CRLF)) (Some "OK") 3000 late_answer
            = Some (ESP8266_BUSY, w2))
        /\ (ESP8266_ContainsString "ERROR" w2 = false ->
            ESP8266_ContainsString "BUSY" w2 = false ->
            ESP8266_SendCommand plenty (Some ("AT" +:+ CRLF)) (Some "OK") 3000 late_answer
            = Some (ESP8266_TIMEOUT, w2))).
Proof.
  assert (H1 : 0 <= 3000) by lia.
  assert (H2 : 5002 <= Z.of_nat plenty) by (unfold plenty; lia).
  assert (H3 : 3000 / 10 + 2 <= Z.of_nat plenty)
    by (change (3000 / 10) with 300; unfold plenty; lia).
  split; [exact H1|]. split; [exact H2|]. split; [exact H3|].
  exact (C2_token_first_then_error plenty ("AT" +:+ CRLF) "OK" 3000 late_answer H1 H2 H3).
Defined.

(** C2, the claim as stated fails: the response OK reaches the receive
    buffer 2995 ms after the wait began, before the timeout of 3000 ms has
    elapsed, and is still there at the deadline; the last look at the buffer
    was at 2990 ms, the next instant the loop examines is 3000 ms, where it
    gives up without looking, and the result is [ESP8266_TIMEOUT]. *)
Lemma C2_counterexample :
  exists r w1 w',
    ESP8266_SendDMA plenty (Some ("AT" +:+ CRLF)) (uint16 (strlen ("AT" +:+ CRLF)))
      (ESP8266_ClearBuffer late_answer) = Some (r, w1)
    /\ 2995 < 3000
    /\ contains (rx_after 2995 w1) "OK" = true
    /\ contains (rx_after 3000 w1) "OK" = true
    /\ ESP8266_SendCommand plenty (Some ("AT" +:+ CRLF)) (Some "OK") 3000 late_answer
       = Some (ESP8266_TIMEOUT, w')
    /\ ESP8266_TIMEOUT <> ESP8266_OK.
Proof.
  eexists _, _, _. split; [vm_compute; reflexivity|].
  split; [lia|]. split; [vm_compute; reflexivity|]. split; [vm_compute; reflexivity|].
  split; [vm_compute; reflexivity|discriminate].
Qed.

(** ** Empty and null commands *)

Lemma ESP8266_SendCommand_null fuel expected d w :
  ESP8266_SendCommand fuel None expected d w = Some (ESP8266_INVALID_PARAM, w).
Proof. done. Qed.

(** An empty command is never answered with [ESP8266_INVALID_PARAM]: the
    status of the refused transmission is dropped and the exchange goes on
    to wait for the expected token.  Nothing is transmitted. *)
Lemma ESP8266_SendCommand_empty fuel expected d w r w' :
  ESP8266_SendCommand fuel (Some EmptyString) expected d w = Some (r, w') ->
  r <> ESP8266_INVALID_PARAM /\ wire w' = wire w.
Proof.
  unfold ESP8266_SendCommand.
  assert (Hdma : forall v, ESP8266_SendDMA fuel (Some EmptyString)
                             (uint16 (strlen EmptyString)) v
                           = Some (ESP8266_INVALID_PARAM, v)) by done.
  rewrite Hdma.
  destruct expected as [e|]; [|by intros [= <- <-]].
  destruct (ESP8266_WaitForResponse _ _ _ _) as [[found v]|] eqn:E; [|done].
  apply ESP8266_WaitForResponse_wire in E. intros H.
  assert (w' = v) as -> by (repeat case_match; congruence).
  split; [|done]. repeat case_match; by simplify_eq.
Qed.

(** C8. The code at the failing input, the empty command on a co-processor
    that stays silent: with an expected token the call waits the whole
    timeout and returns [ESP8266_TIMEOUT]; without one it returns
    [ESP8266_OK]; when the token shows up in the buffer it returns
    [ESP8266_OK].  In all three runs nothing is transmitted.  Only the null
    command is answered with [ESP8266_INVALID_PARAM]. *)
Theorem C8_empty_command_is_not_rejected :
  ESP8266_SendCommand plenty None (Some "OK") 3000 idle_world
  = Some (ESP8266_INVALID_PARAM, idle_world)
  /\ (exists w', ESP8266_SendCommand plenty (Some EmptyString) (Some "OK") 3000 idle_world
                 = Some (ESP8266_TIMEOUT, w')
                 /\ now w' = 3000 /\ wire w' = [])
  /\ (exists w', ESP8266_SendCommand plenty (Some EmptyString) None 3000 idle_world
                 = Some (ESP8266_OK, w') /\ wire w' = [])
  /\ (exists w', ESP8266_SendCommand plenty (Some EmptyString) (Some "OK") 3000
                   (boot (answering 5 OK_line) 0 true)
                 = Some (ESP8266_OK, w') /\ wire w' = []).
Proof.
  split; [reflexivity|].
  split; [eexists; split; [vm_compute; reflexivity|split; vm_compute; reflexivity]|].
  split; eexists; (split; [vm_compute; reflexivity|vm_compute; reflexivity]).
Qed.

(** ** Publish *)

Lemma MQTT_Publish_wait_status fuel t start : forall w r w',
  MQTT_Publish_wait fuel t start w = Some (r, w') -> r <> MQTT_NOT_CONNECTED.
Proof.
  induction fuel as [|f IH]; intros w r w'; simpl; [done|].
  intros H. repeat (case_match; simplify_eq); try done. by eapply IH.
Qed.

(** [MQTT_Publish] has no path that returns [MQTT_NOT_CONNECTED]. *)
Lemma MQTT_Publish_never_not_connected fuel t m q rt w r w' :
  MQTT_Publish fuel t m q rt w = Some (r, w') -> r <> MQTT_NOT_CONNECTED.
Proof.
  unfold MQTT_Publish. intros H.
  repeat (case_match; simplify_eq); try done. by eapply MQTT_Publish_wait_status.
Qed.

(** C1. The code at the failing input: a session that was initialized and
    never connected publishes one byte to topic t.  The AT+MQTTPUBRAW
    command and then the payload go out on the wire, and when the
    co-processor grants and confirms the publish the call returns
    [MQTT_OK] and counts the publish; on a silent co-processor the command
    is sent all the same and the call returns [MQTT_PUBLISH_FAIL]. *)
Theorem C1_publish_does_not_check_the_connection :
  connected (mqtt never_connected) = false
  /\ state (mqtt never_connected) = MQTT_STATE_NOT_INIT
  /\ wire never_connected = []
  /\ (exists w', MQTT_Publish plenty (Some "t") (Some "m") MQTT_QOS_0 0 never_connected
                 = Some (MQTT_OK, w')
                 /\ wire w' = [AT_MQTTPUBRAW "t" 1 MQTT_QOS_0 0; "m"]
                 /\ publishCount (mqtt w') = 1)
  /\ (exists w', MQTT_Publish plenty (Some "t") (Some "m") MQTT_QOS_0 0
                   (snd (MQTT_Init idle_world))
                 = Some (MQTT_PUBLISH_FAIL, w')
                 /\ wire w' = [AT_MQTTPUBRAW "t" 1 MQTT_QOS_0 0]).
Proof.
  split; [reflexivity|]. split; [reflexivity|]. split; [reflexivity|].
  split; eexists; (split; [vm_compute; reflexivity|]); repeat split; vm_compute; reflexivity.
Qed.

(** ** Incoming messages *)

(** A byte array that holds the C string [s] is [s] followed by nothing or
    by a NUL and whatever bytes come after. *)
Lemma cstr_inv (raw : string) : forall s,
  cstr raw = s -> raw = s \/ exists r, raw = s +:+ String NUL r.
Proof.
  induction raw as [|c raw IH]; intros s; simpl.
  - intros <-. by left.
  - destruct (Ascii.eqb_spec c NUL) as [->|Hc].
    + intros <-. right. by exists raw.
    + intros <-. destruct (IH (cstr raw) eq_refl) as [Hr|(r & Hr)].
      * left. exact (f_equal (String c) Hr).
      * right. exists r. exact (f_equal (String c) Hr).
Qed.

Lemma MQTT_ParseSubMessage_SUBRECV_line raw w :
  cstr raw = SUBRECV_line ->
  MQTT_ParseSubMessage (Some raw) w
  = (MQTT_OK,
     fire (onMessageReceived (mqtt w)) SUBRECV_call
       (with_mqtt (with_receiveCount (uint32 (receiveCount (mqtt w) + 1)) (mqtt w)) w)).
Proof. intros [->|(r & ->)]%cstr_inv; reflexivity. Qed.

Lemma strstr_SUBRECV_line raw :
  cstr raw = SUBRECV_line ->
  strstr raw "+MQTTDISCONNECTED:" = None /\ strstr raw "+MQTTCONNECTED:" = None
  /\ strstr raw "+MQTTSUBRECV:" = Some raw.
Proof. intros [->|(r & ->)]%cstr_inv; by split_and!. Qed.

Lemma no_event_strstr buf :
  no_event buf = true ->
  strstr buf "+MQTTDISCONNECTED:" = None /\ strstr buf "+MQTTCONNECTED:" = None
  /\ strstr buf "+MQTTSUBRECV:" = None.
Proof.
  unfold no_event, contains. intros H.
  apply andb_true_iff in H as (H & H3). apply andb_true_iff in H as (H1 & H2).
  repeat case_match; done.
Qed.

(** C4. With a message callback registered, the line
    +MQTTSUBRECV:0,"t/1",5,hello fed to the processing tick of an
    initialized session makes the tick call [onMessageReceived] exactly
    once, with topic t/1, data hello and dataLen 5, and call nothing else;
    the message counter goes up by one.  The same single call is made when
    the line is handed to [MQTT_ProcessMessage]. *)
Theorem C4_one_message_callback (w : World) :
  initialized (mqtt w) = true -> onMessageReceived (mqtt w) = true ->
  fed_to_tick SUBRECV_line w ->
  calls (MQTT_ProcessData w)
  = (calls w
     ++ [Call_onMessageReceived
           {| msg_topic := "t/1"; data := "hello"; dataLen := 5;
              msg_qos := MQTT_QOS_0; retain := 0 |}])%list
  /\ receiveCount (mqtt (MQTT_ProcessData w)) = uint32 (receiveCount (mqtt w) + 1)
  /\ (forall raw len, cstr raw = SUBRECV_line -> len <> 0 ->
      calls (MQTT_ProcessMessage (Some raw) len w)
      = (calls w
         ++ [Call_onMessageReceived
               {| msg_topic := "t/1"; data := "hello"; dataLen := 5;
                  msg_qos := MQTT_QOS_0; retain := 0 |}])%list).
Proof.
  intros Hinit Hcb Hfed. fold SUBRECV_call.
  assert (Hmsg : forall raw len, cstr raw = SUBRECV_line -> len <> 0 ->
            calls (MQTT_ProcessMessage (Some raw) len w)
            = (calls w ++ [SUBRECV_call])%list).
  { intros raw len Hraw Hlen. unfold MQTT_ProcessMessage.
    destruct (Z.eqb_spec len 0) as [?|_]; [done|].
    destruct (strstr_SUBRECV_line raw Hraw) as (_ & _ & ->).
    rewrite MQTT_ParseSubMessage_SUBRECV_line by done. cbn [snd].
    by rewrite fire_calls, Hcb. }
  unfold MQTT_ProcessData, ESP8266_GetResponseBuffer. rewrite Hinit. cbn [negb]. cbv iota.
  destruct Hfed as [(Hpend & Hrx)|(Hpend & Hbuf & Hquiet)]; rewrite Hpend; cbv iota.
  - destruct (strstr_SUBRECV_line _ Hrx) as (-> & -> & ->).
    rewrite MQTT_ParseSubMessage_SUBRECV_line by done. cbn [snd].
    rewrite fire_calls, fire_mqtt, Hcb. done.
  - destruct (no_event_strstr _ Hquiet) as (H1 & H2 & H3).
    cbn [mqtt with_mqtt pending with_pending msgBuffer].
    rewrite MQTT_ParseSubMessage_SUBRECV_line by done. cbn [snd].
    cbn [mqtt with_mqtt onMessageReceived with_receiveCount with_pending].
    rewrite Hcb. unfold fire. cbn [esp8266 with_mqtt invoke].
    rewrite H1, H2, H3. done.
Qed.

Lemma C4_witness :
  initialized (mqtt line_received) = true
  /\ onMessageReceived (mqtt line_received) = true
  /\ fed_to_tick SUBRECV_line line_received
  /\ calls (MQTT_ProcessData line_received)
     = (calls line_received
        ++ [Call_onMessageReceived
              {| msg_topic := "t/1"; data := "hello"; dataLen := 5;
                 msg_qos := MQTT_QOS_0; retain := 0 |}])%list
  /\ receiveCount (mqtt (MQTT_ProcessData line_received))
     = uint32 (receiveCount (mqtt line_received) + 1)
  /\ (forall raw len, cstr raw = SUBRECV_line -> len <> 0 ->
      calls (MQTT_ProcessMessage (Some raw) len line_received)
      = (calls line_received
         ++ [Call_onMessageReceived
               {| msg_topic := "t/1"; data := "hello"; dataLen := 5;
                  msg_qos := MQTT_QOS_0; retain := 0 |}])%list).
Proof.
  assert (H1 : initialized (mqtt line_received) = true) by reflexivity.
  assert (H2 : onMessageReceived (mqtt line_received) = true) by reflexivity.
  assert (H3 : fed_to_tick SUBRECV_line line_received) by (left; split; reflexivity).
  split; [exact H1|]. split; [exact H2|]. split; [exact H3|].
  exact (C4_one_message_callback line_received H1 H2 H3).
Defined.

(** The line followed by CR LF, as the co-processor sends it, gives the
    same single call on the next tick. *)
Example C4_line_with_its_terminator :
  calls (MQTT_ProcessData line_received_crlf)
  = [Call_onMessageReceived
       {| msg_topic := "t/1"; data := "hello"; dataLen := 5;
          msg_qos := MQTT_QOS_0; retain := 0 |}].
Proof. vm_compute. reflexivity. Qed.

(** ** Query of the connection *)

Lemma strstr_at (needle : string) (before : string) : forall tail,
  cstr before = before ->
  occurs_before needle (before +:+ tail) (String.length before) = false ->
  String.prefix (cstr needle) tail = true ->
  strstr (before +:+ tail) needle = Some tail.
Proof.
  induction before as [|c b IH]; intros tail Hnul Hocc Hpre.
  - simpl. destruct tail; simpl in *; by rewrite Hpre.
  - simpl in *. apply orb_false_iff in Hocc as (Hp & Hocc). rewrite Hp.
    destruct (Ascii.eqb c NUL); [done|].
    apply IH; [congruence|done..].
Qed.

(** C6. Whatever the local state, when the AT+MQTTCONN? exchange succeeds
    and the first +MQTTCONN: report in the receive buffer is for link 0 with
    the state digit [n], [MQTT_QueryConnection] returns [MQTT_OK] with
    [state] set to [n] and [connected] set to [n >= 4]; for the report
    +MQTTCONN:0,4,... the state is [MQTT_STATE_CONNECTED] and the flag is
    set. *)
Theorem C6_query_resynchronizes (fuel : nat) (w w1 : World) (before rest : string)
    (n : Z) :
  0 <= n <= 9 ->
  ESP8266_SendCommand fuel (Some AT_MQTTCONN_query) (Some "OK") MQTT_DEFAULT_TIMEOUT w
    = Some (ESP8266_OK, w1) ->
  rxBuffer (esp8266 w1) = before +:+ ("+MQTTCONN:0," +:+ itoa n +:+ "," +:+ rest) ->
  cstr before = before ->
  occurs_before "+MQTTCONN:" (rxBuffer (esp8266 w1)) (String.length before) = false ->
  exists w',
    MQTT_QueryConnection fuel w = Some (MQTT_OK, w')
    /\ state (mqtt w') = n
    /\ connected (mqtt w') = (4 <=? n)
    /\ (n = 4 -> state (mqtt w') = MQTT_STATE_CONNECTED /\ connected (mqtt w') = true).
Proof.
  intros Hn Hex Hbuf Hnul Hocc.
  unfold MQTT_QueryConnection, ESP8266_GetResponseBuffer. rewrite Hex, Hbuf.
  rewrite Hbuf in Hocc.
  assert (Hpre : String.prefix (cstr "+MQTTCONN:")
                   ("+MQTTCONN:0," +:+ itoa n +:+ "," +:+ rest) = true) by done.
  rewrite (strstr_at "+MQTTCONN:" before _ Hnul Hocc Hpre).
  assert (Hk : exists k, n = Z.of_nat k /\ (k < 10)%nat) by (exists (Z.to_nat n); lia).
  destruct Hk as (k & -> & Hk). clear Hn Hbuf Hocc.
  do 10 (destruct k as [|k];
         [eexists; split; [reflexivity|]; split_and!; (reflexivity || lia || done)|]).
  lia.
Qed.

Lemma C6_witness :
  0 <= 4 <= 9
  /\ ESP8266_SendCommand plenty (Some AT_MQTTCONN_query) (Some "OK") MQTT_DEFAULT_TIMEOUT
       reports_connected
     = Some (ESP8266_OK, query_answered)
  /\ rxBuffer (esp8266 query_answered)
     = CRLF +:+ ("+MQTTCONN:0," +:+ itoa 4 +:+ ","
                 +:+ ptr_add MQTTCONN_response 14 +:+ String NUL EmptyString)
  /\ cstr CRLF = CRLF
  /\ occurs_before "+MQTTCONN:" (rxBuffer (esp8266 query_answered))
       (String.length CRLF) = false
  /\ exists w',
       MQTT_QueryConnection plenty reports_connected = Some (MQTT_OK, w')
       /\ state (mqtt w') = 4
       /\ connected (mqtt w') = (4 <=? 4)
       /\ (4 = 4 -> state (mqtt w') = MQTT_STATE_CONNECTED /\ connected (mqtt w') = true).
Proof.
  assert (H1 : 0 <= 4 <= 9) by lia.
  assert (H2 : ESP8266_SendCommand plenty (Some AT_MQTTCONN_query) (Some "OK")
                 MQTT_DEFAULT_TIMEOUT reports_connected
               = Some (ESP8266_OK, query_answered))
    by (vm_compute; reflexivity).
  assert (H3 : rxBuffer (esp8266 query_answered)
               = CRLF +:+ ("+MQTTCONN:0," +:+ itoa 4 +:+ ","
                           +:+ ptr_add MQTTCONN_response 14 +:+ String NUL EmptyString))
    by (vm_compute; reflexivity).
  assert (H4 : cstr CRLF = CRLF) by reflexivity.
  assert (H5 : occurs_before "+MQTTCONN:"
                 (rxBuffer (esp8266 query_answered))
                 (String.length CRLF) = false)
    by (vm_compute; reflexivity).
  split; [exact H1|]. split; [exact H2|]. split; [exact H3|]. split; [exact H4|].
  split; [exact H5|].
  exact (C6_query_resynchronizes plenty reports_connected _ CRLF _ 4 H1 H2 H3 H4 H5).
Defined.

(** In the example the session was not connected before the query. *)
Example C6_example_before_and_after :
  (connected (mqtt reports_connected), state (mqtt reports_connected))
  = (false, MQTT_STATE_DISCONNECTED)
  /\ (λ r, (fst r, connected (mqtt (snd r)), state (mqtt (snd r))))
       <$> MQTT_QueryConnection plenty reports_connected
     = Some (MQTT_OK, true, MQTT_STATE_CONNECTED).
Proof. split; vm_compute; reflexivity. Qed.

(** ** Further examples *)

(** With the eight slots taken, subscribing is refused before any exchange,
    also for a topic that is already in the table. *)
Example full_table_refuses :
  MQTT_Subscribe plenty (Some "a") MQTT_QOS_2 full_session
  = Some (MQTT_BUFFER_FULL, full_session).
Proof. reflexivity. Qed.

(** [MQTT_Reconnect] goes through [MQTT_Clean]: the session comes back
    connected, in the state "connected, no subscription", with the eight
    entries still in the table, and the application cannot subscribe
    again. *)
Example reconnect_keeps_a_full_table :
  exists v,
    MQTT_Reconnect plenty full_session = Some (MQTT_OK, v)
    /\ connected (mqtt v) = true /\ state (mqtt v) = MQTT_STATE_CONN_NO_SUB
    /\ subscriptionCount (mqtt v) = 8
    /\ fst <$> MQTT_Subscribe plenty (Some "a") MQTT_QOS_0 v = Some MQTT_BUFFER_FULL.
Proof.
  eexists. split; [vm_compute; reflexivity|]. split_and!; vm_compute; reflexivity.
Qed.

(** [MQTT_PublishData], unlike [MQTT_Publish], refuses to publish on a
    session that is not connected, and sends nothing. *)
Example publish_data_checks_the_connection :
  MQTT_PublishData plenty (Some "t") (Some "m") 1 MQTT_QOS_0 0 never_connected
  = Some (MQTT_NOT_CONNECTED, never_connected).
Proof. reflexivity. Qed.

(** * Further properties of the code *)

(** ** Strings *)

Lemma app_cons (x : ascii) (a b : string) : String x a +:+ b = String x (a +:+ b).
Proof. reflexivity. Qed.

Lemma app_empty (b : string) : EmptyString +:+ b = b.
Proof. reflexivity. Qed.

Lemma prefix_cons (x y : ascii) (s p : string) :
  String.prefix (String x s) (String y p)
  = if ascii_dec x y then String.prefix s p else false.
Proof. reflexivity. Qed.

Ltac app_norm := rewrite ?app_cons, ?app_empty.

Lemma app_String_assoc (a b c : string) : (a +:+ b) +:+ c = a +:+ (b +:+ c).
Proof. induction a as [|x a IH]; app_norm; [done|]. by rewrite IH. Qed.

Lemma prefix_app_same (a q : string) : String.prefix a (a +:+ q) = true.
Proof.
  induction a as [|x a IH]; app_norm; [by destruct q|].
  rewrite prefix_cons. destruct (ascii_dec x x); [exact IH|done].
Qed.

Lemma prefix_app_inv (a m : string) : forall p,
  String.prefix (a +:+ m) p = true -> exists q, p = a +:+ q /\ String.prefix m q = true.
Proof.
  induction a as [|x a IH]; intros p; app_norm.
  - intros H. by exists p.
  - destruct p as [|y p]; [done|]. rewrite prefix_cons.
    destruct (ascii_dec x y) as [->|]; [|done].
    intros (q & -> & Hq)%IH. exists q. split; [reflexivity|done].
Qed.

Lemma prefix_app_l (a m : string) : forall p,
  String.prefix (a +:+ m) p = true -> String.prefix a p = true.
Proof.
  induction a as [|x a IH]; intros p; app_norm; [by destruct p|].
  destruct p as [|y p]; [done|]. rewrite !prefix_cons.
  destruct (ascii_dec x y); [apply IH|done].
Qed.

Lemma strstr_eq (h n : string) :
  strstr h n
  = if String.prefix (cstr n) h then Some h
    else match h with
         | EmptyString => None
         | String c rest => if Ascii.eqb c NUL then None else strstr rest n
         end.
Proof. by destruct h. Qed.

(** What [strstr] returns is a tail of the haystack that starts with the
    needle and is not behind a NUL. *)
Lemma strstr_Some_inv (n : string) : forall h p,
  strstr h n = Some p ->
  exists b, h = b +:+ p /\ cstr b = b /\ String.prefix (cstr n) p = true.
Proof.
  induction h as [|c h IH]; intros p; rewrite strstr_eq.
  - destruct (String.prefix (cstr n) EmptyString) eqn:E; [|done].
    intros [= <-]. by exists EmptyString.
  - destruct (String.prefix (cstr n) (String c h)) eqn:E.
    + intros [= <-]. by exists EmptyString.
    + destruct (Ascii.eqb_spec c NUL) as [->|Hc]; [done|].
      intros (b & -> & Hb & Hp)%IH. exists (String c b). app_norm. simpl.
      destruct (Ascii.eqb_spec c NUL); [done|]. by rewrite Hb.
Qed.

(** An occurrence of the needle that is not behind a NUL is found, or an
    earlier one is. *)
Lemma strstr_found (n : string) (b : string) : forall p,
  cstr b = b -> String.prefix (cstr n) p = true -> is_Some (strstr (b +:+ p) n).
Proof.
  induction b as [|c b IH]; intros p Hb Hp; app_norm; rewrite strstr_eq.
  - rewrite Hp. by eexists.
  - simpl in Hb. destruct (String.prefix (cstr n) (String c (b +:+ p))); [by eexists|].
    destruct (Ascii.eqb c NUL); [done|]. apply IH; [congruence|done].
Qed.

Lemma strstr_prefix (n q : string) : strstr (cstr n +:+ q) n = Some (cstr n +:+ q).
Proof.
  rewrite strstr_eq. by rewrite prefix_app_same.
Qed.

Lemma ptr_add_0 (p : string) : ptr_add p 0 = p.
Proof. by destruct p. Qed.

Lemma ptr_add_app (a b : string) : ptr_add (a +:+ b) (String.length a) = b.
Proof. induction a as [|x a IH]; app_norm; simpl; [by destruct b|done]. Qed.

Lemma free_of_cstr c a : free_of c a = true -> cstr a = a.
Proof.
  induction a as [|x a IH]; simpl; [done|].
  intros H. apply andb_true_iff in H as (H & Ha). apply andb_true_iff in H as (_ & Hx).
  apply negb_true_iff in Hx. rewrite Hx. by rewrite IH.
Qed.

Lemma strchr_offset_app (c : ascii) (a rest : string) :
  free_of c a = true ->
  strchr_offset (a +:+ String c rest) c = Some (String.length a).
Proof.
  induction a as [|x a IH]; app_norm; simpl.
  - intros _. by rewrite Ascii.eqb_refl.
  - intros H. apply andb_true_iff in H as (H & Ha). apply andb_true_iff in H as (Hc & Hx).
    apply negb_true_iff in Hc, Hx. rewrite Hc, Hx, IH by done. done.
Qed.

Lemma strchr_app (c : ascii) (a rest : string) :
  free_of c a = true -> strchr (a +:+ String c rest) c = Some (String c rest).
Proof.
  intros H. unfold strchr. rewrite strchr_offset_app by done. simpl.
  by rewrite ptr_add_app.
Qed.

Lemma strncpy_app (c : ascii) (a rest : string) :
  free_of c a = true -> strncpy (a +:+ rest) (String.length a) = a.
Proof.
  induction a as [|x a IH]; app_norm; simpl; [by destruct rest|].
  intros H. apply andb_true_iff in H as (H & Ha). apply andb_true_iff in H as (_ & Hx).
  apply negb_true_iff in Hx. rewrite Hx. by rewrite IH.
Qed.

Lemma bytes_app (a rest : string) : bytes (a +:+ rest) (String.length a) = a.
Proof.
  induction a as [|x a IH]; app_norm; simpl; [done|]. by rewrite ptr_add_0, IH.
Qed.

Lemma length_bytes (p : string) (n : nat) : String.length (bytes p n) = n.
Proof. revert p. induction n as [|n IH]; intros p; simpl; [done|]. by rewrite IH. Qed.

Lemma length_strncpy (s : string) : forall n, (String.length (strncpy s n) <= n)%nat.
Proof.
  induction s as [|c s IH]; intros [|n]; simpl; try lia.
  destruct (Ascii.eqb c NUL); simpl; [lia|]. specialize (IH n). lia.
Qed.

(** ** Decimal numbers: [atoi] reads back what ["%d"] printed *)

Lemma atoi_digits_cons (acc d : Z) (c : ascii) (rest : string) :
  digit c = Some d -> atoi_digits acc (String c rest) = atoi_digits (10 * acc + d) rest.
Proof. intros H. simpl. by rewrite H. Qed.

Lemma atoi_digits_acc (l : Decimal.uint) : forall (p : positive) (rest : string),
  atoi_digits (Z.pos p) (NilEmpty.string_of_uint l +:+ rest)
  = atoi_digits (Z.pos (Pos.of_uint_acc l p)) rest.
Proof.
  induction l; intros p rest; simpl NilEmpty.string_of_uint; app_norm; [done|..];
    erewrite atoi_digits_cons by (vm_compute; reflexivity); simpl Pos.of_uint_acc;
    match goal with
    | |- atoi_digits ?k _ = atoi_digits (Z.pos (Pos.of_uint_acc _ ?q)) _ =>
        replace k with (Z.pos q) by lia
    end;
    apply IHl.
Qed.

Lemma atoi_digits_uint (u : Decimal.uint) : forall rest,
  atoi_digits 0 (NilEmpty.string_of_uint u +:+ rest)
  = atoi_digits (Z.of_N (Pos.of_uint u)) rest.
Proof.
  induction u; intros rest; simpl NilEmpty.string_of_uint; app_norm; [done|..];
    erewrite atoi_digits_cons by (vm_compute; reflexivity); simpl Pos.of_uint;
    [exact (IHu rest)|..];
    match goal with
    | |- atoi_digits ?k _ = atoi_digits (Z.of_N (N.pos (Pos.of_uint_acc _ ?q))) _ =>
        change k with (Z.pos q)
    end;
    apply atoi_digits_acc.
Qed.

Lemma digit_neq (a c : ascii) (d : Z) :
  digit a = Some d -> digit c = None -> Ascii.eqb a c = false.
Proof. intros Ha Hc. destruct (Ascii.eqb_spec a c) as [->|]; congruence. Qed.

Lemma free_of_digits (c : ascii) (u : Decimal.uint) :
  digit c = None -> free_of c (NilEmpty.string_of_uint u) = true.
Proof.
  intros Hc. induction u; simpl NilEmpty.string_of_uint; [done|..];
    cbn [free_of]; rewrite IHu;
    erewrite (digit_neq _ c), (digit_neq _ NUL) by (exact Hc || reflexivity);
    reflexivity.
Qed.

(** The decimal rendering of a natural number, as ["%d"] prints it. *)
Lemma itoa_uint (n : Z) :
  0 <= n ->
  exists u, itoa n = NilEmpty.string_of_uint u /\ Z.of_N (Pos.of_uint u) = n
            /\ u <> Decimal.Nil.
Proof.
  intros Hn. unfold itoa. destruct n as [|p|p]; [| |lia].
  - by exists (Decimal.D0 Decimal.Nil).
  - exists (Pos.to_uint p). simpl.
    assert (Hnil : Pos.to_uint p <> Decimal.Nil).
    { intros E. pose proof (DecimalPos.Unsigned.of_to p) as H. rewrite E in H. done. }
    split_and!; [|by rewrite DecimalPos.Unsigned.of_to|done].
    by destruct (Pos.to_uint p).
Qed.

Lemma atoi_itoa (n : Z) (c : ascii) (rest : string) :
  0 <= n -> digit c = None -> atoi (itoa n +:+ String c rest) = n.
Proof.
  intros Hn Hc. destruct (itoa_uint n Hn) as (u & -> & Hu & Hnil).
  assert (atoi (NilEmpty.string_of_uint u +:+ String c rest)
          = atoi_digits 0 (NilEmpty.string_of_uint u +:+ String c rest)) as ->.
  { by destruct u. }
  rewrite atoi_digits_uint, Hu. simpl. by rewrite Hc.
Qed.

Lemma free_of_itoa (n : Z) (c : ascii) :
  0 <= n -> digit c = None -> free_of c (itoa n) = true.
Proof.
  intros Hn Hc. destruct (itoa_uint n Hn) as (u & -> & _ & _).
  by apply free_of_digits.
Qed.

(** ** Incoming messages: what the parser makes of a well-formed line *)

Lemma MQTTSUBRECV_shape (link t p tail : string) :
  MQTTSUBRECV link t p +:+ tail
  = "+MQTTSUBRECV:"
    +:+ (link +:+ String ","
          (String DQUOTE
             (t +:+ String DQUOTE
                (String "," (itoa (Z.of_nat (String.length p))
                             +:+ String "," (p +:+ tail)))))).
Proof.
  unfold MQTTSUBRECV, DQ. rewrite !app_String_assoc. reflexivity.
Qed.

Lemma strchr_head (c : ascii) (s : string) : strchr (String c s) c = Some (String c s).
Proof. unfold strchr. simpl. by rewrite Ascii.eqb_refl. Qed.

Lemma ptr_add_1 (c : ascii) (s : string) : ptr_add (String c s) 1 = s.
Proof. simpl. apply ptr_add_0. Qed.

Lemma MQTT_ParseSubMessage_line (link t p tail : string) (w : World) :
  free_of "," link = true -> free_of DQUOTE t = true ->
  (String.length t < MQTT_TOPIC_MAX_LEN)%nat ->
  (String.length p < MQTT_MESSAGE_MAX_LEN)%nat ->
  MQTT_ParseSubMessage (Some (MQTTSUBRECV link t p +:+ tail)) w
  = (MQTT_OK,
     fire (onMessageReceived (mqtt w))
       (Call_onMessageReceived
          {| msg_topic := t; data := p; dataLen := Z.of_nat (String.length p);
             msg_qos := MQTT_QOS_0; retain := 0 |})
       (with_mqtt (with_receiveCount (uint32 (receiveCount (mqtt w) + 1)) (mqtt w)) w)).
Proof.
  intros Hlink Ht Hlen Hp. rewrite MQTTSUBRECV_shape. unfold MQTT_ParseSubMessage.
  change "+MQTTSUBRECV:" with (cstr "+MQTTSUBRECV:") at 1.
  rewrite strstr_prefix.
  change 13%nat with (String.length (cstr "+MQTTSUBRECV:")).
  rewrite ptr_add_app, (strchr_app "," link) by done.
  rewrite ptr_add_1. cbn [deref]. rewrite Ascii.eqb_refl, ptr_add_1.
  rewrite (strchr_offset_app DQUOTE t) by done.
  rewrite ptr_add_app, ptr_add_1, strchr_head, ptr_add_1.
  assert (Hn : 0 <= Z.of_nat (String.length p) < 1024)
    by (unfold MQTT_MESSAGE_MAX_LEN in Hp; lia).
  rewrite atoi_itoa by (done || lia).
  rewrite (strchr_app "," (itoa _)) by (apply free_of_itoa; [lia|done]).
  rewrite ptr_add_1.
  assert (uint16 (Z.of_nat (String.length p)) = Z.of_nat (String.length p)) as ->
    by (unfold uint16; apply Z.mod_small; lia).
  destruct (Z.geb_spec (Z.of_nat (String.length p)) (Z.of_nat MQTT_MESSAGE_MAX_LEN))
    as [Hge|_]; [unfold MQTT_MESSAGE_MAX_LEN in Hge; lia|].
  rewrite Nat2Z.id, bytes_app.
  destruct (Nat.leb_spec MQTT_TOPIC_MAX_LEN (String.length t)) as [Hge|_]; [lia|].
  rewrite (strncpy_app DQUOTE) by done. reflexivity.
Qed.
(** The parser either rejects its input and changes nothing, or extracts a
    message that fits the arrays and delivers it; which of the two, and
    which message, depends on the input only. *)
Lemma MQTT_ParseSubMessage_outcome (d : option string) :
  (forall w, MQTT_ParseSubMessage d w = (MQTT_ERROR, w))
  \/ exists msg, in_bounds msg
       /\ forall w, MQTT_ParseSubMessage d w = (MQTT_OK, deliver msg w).
Proof.
  unfold MQTT_ParseSubMessage, deliver.
  destruct d as [d|]; [|by left].
  destruct (strstr d _) as [ptr|]; [|by left].
  destruct (strchr _ _) as [ptr1|]; [|by left].
  match goal with |- context [let '(a, b) := ?X in _] =>
    assert (Htopic : (String.length (fst X) <= MQTT_TOPIC_MAX_LEN - 1)%nat);
    [|destruct X as [topic' ptr2]] end.
  { destruct (Ascii.eqb _ _); [|simpl; lia].
    destruct (strchr_offset _ _) as [k|]; [|simpl; lia].
    cbn [fst].
    match goal with |- context [strncpy ?s ?n] => pose proof (length_strncpy s n) end.
    destruct (Nat.leb_spec MQTT_TOPIC_MAX_LEN k); unfold MQTT_TOPIC_MAX_LEN in *; lia. }
  cbn [fst] in Htopic.
  destruct (strchr _ _) as [ptr3|]; [|by left].
  destruct (strchr _ _) as [ptr4|]; [|by left].
  right. eexists. split; [|reflexivity].
  unfold in_bounds. cbn [msg_topic dataLen data]. split; [done|].
  assert (Hu : 0 <= uint16 (atoi (ptr_add ptr3 1)) < 2 ^ 16)
    by (unfold uint16; apply Z.mod_pos_bound; lia).
  split; [done|]. rewrite length_bytes.
  destruct (Z.geb_spec (uint16 (atoi (ptr_add ptr3 1))) (Z.of_nat MQTT_MESSAGE_MAX_LEN));
    unfold MQTT_MESSAGE_MAX_LEN in *; lia.
Qed.

(** X1. A well-formed +MQTTSUBRECV line is read back as it was written:
    for every link field without a comma, every topic of fewer than 128
    characters without a double quote, and every payload of fewer than 1024
    bytes (commas, quotes and zero bytes included), whatever follows the
    payload in the buffer, the parser accepts the line, counts one message
    and hands the callback, when one is registered, exactly that topic,
    that payload and its length. *)
Theorem X1_message_line_round_trip (link t p tail : string) (len : Z) (w : World) :
  free_of "," link = true -> free_of DQUOTE t = true ->
  (String.length t < MQTT_TOPIC_MAX_LEN)%nat ->
  (String.length p < MQTT_MESSAGE_MAX_LEN)%nat -> len <> 0 ->
  fst (MQTT_ParseSubMessage (Some (MQTTSUBRECV link t p +:+ tail)) w) = MQTT_OK
  /\ calls (MQTT_ProcessMessage (Some (MQTTSUBRECV link t p +:+ tail)) len w)
     = (calls w
        ++ if onMessageReceived (mqtt w)
           then [Call_onMessageReceived
                   {| msg_topic := t; data := p;
                      dataLen := Z.of_nat (String.length p);
                      msg_qos := MQTT_QOS_0; retain := 0 |}]
           else [])%list
  /\ receiveCount (mqtt (MQTT_ProcessMessage (Some (MQTTSUBRECV link t p +:+ tail)) len w))
     = uint32 (receiveCount (mqtt w) + 1).
Proof.
  intros Hlink Ht Hlen Hp Hnz.
  pose proof (MQTT_ParseSubMessage_line link t p tail w Hlink Ht Hlen Hp) as Hparse.
  split; [by rewrite Hparse|].
  unfold MQTT_ProcessMessage. destruct (Z.eqb_spec len 0) as [?|_]; [done|].
  assert (Hfound : strstr (MQTTSUBRECV link t p +:+ tail) "+MQTTSUBRECV:"
                   = Some (MQTTSUBRECV link t p +:+ tail)).
  { rewrite MQTTSUBRECV_shape.
    change "+MQTTSUBRECV:" with (cstr "+MQTTSUBRECV:") at 1. apply strstr_prefix. }
  rewrite Hfound, Hparse. cbn [snd]. by rewrite fire_calls, fire_mqtt.
Qed.

Lemma X1_witness :
  free_of "," "0" = true /\ free_of DQUOTE "stm32/control" = true
  /\ (String.length "stm32/control" < MQTT_TOPIC_MAX_LEN)%nat
  /\ (String.length "led_on" < MQTT_MESSAGE_MAX_LEN)%nat /\ 8 <> 0
  /\ fst (MQTT_ParseSubMessage (Some (control_line +:+ CRLF)) session_unanswered)
     = MQTT_OK
  /\ calls (MQTT_ProcessMessage (Some (control_line +:+ CRLF)) 8 session_unanswered)
     = (calls session_unanswered
        ++ if onMessageReceived (mqtt session_unanswered)
           then [Call_onMessageReceived
                   {| msg_topic := "stm32/control"; data := "led_on";
                      dataLen := Z.of_nat (String.length "led_on");
                      msg_qos := MQTT_QOS_0; retain := 0 |}]
           else [])%list
  /\ receiveCount
       (mqtt (MQTT_ProcessMessage (Some (control_line +:+ CRLF)) 8 session_unanswered))
     = uint32 (receiveCount (mqtt session_unanswered) + 1).
Proof.
  assert (H1 : free_of "," "0" = true) by reflexivity.
  assert (H2 : free_of DQUOTE "stm32/control" = true) by reflexivity.
  assert (H3 : (String.length "stm32/control" < MQTT_TOPIC_MAX_LEN)%nat)
    by (vm_compute; lia).
  assert (H4 : (String.length "led_on" < MQTT_MESSAGE_MAX_LEN)%nat)
    by (unfold MQTT_MESSAGE_MAX_LEN; simpl; lia).
  assert (H5 : 8 <> 0) by lia.
  split; [exact H1|]. split; [exact H2|]. split; [exact H3|]. split; [exact H4|].
  split; [exact H5|].
  exact (X1_message_line_round_trip "0" "stm32/control" "led_on" CRLF 8
           session_unanswered H1 H2 H3 H4 H5).
Defined.

(** X2. Whatever bytes the parser is given, it has two outcomes.  It
    returns [MQTT_ERROR] and leaves the whole world as it was: no counter
    moves and no callback is called.  Or it returns [MQTT_OK], counts one
    message and calls [onMessageReceived], when registered, once, with a
    message that fits the arrays of [MQTT_Message_t]: at most 127
    characters of topic and at most 1023 bytes of data, also when the line
    announces more. *)
Theorem X2_parser_outcomes (d : option string) (w : World) :
  (MQTT_ParseSubMessage d w = (MQTT_ERROR, w))
  \/ exists msg w',
       MQTT_ParseSubMessage d w = (MQTT_OK, w')
       /\ calls w' = (calls w ++ if onMessageReceived (mqtt w)
                                 then [Call_onMessageReceived msg] else [])%list
       /\ receiveCount (mqtt w') = uint32 (receiveCount (mqtt w) + 1)
       /\ (String.length (msg_topic msg) <= 127)%nat
       /\ (String.length (data msg) <= 1023)%nat
       /\ Z.of_nat (String.length (data msg)) = Z.min (dataLen msg) 1023.
Proof.
  destruct (MQTT_ParseSubMessage_outcome d) as [Herr|(msg & (Ht & Hl & Hd) & Hok)].
  - left. apply Herr.
  - right. exists msg, (deliver msg w). split; [apply Hok|].
    unfold deliver. rewrite fire_calls, fire_mqtt. split; [done|]. split; [done|].
    unfold MQTT_TOPIC_MAX_LEN, MQTT_MESSAGE_MAX_LEN in *.
    split; [lia|]. split; lia.
Qed.

(** ** The processing tick *)

Lemma fire_esp8266 b c w : esp8266 (fire b c w) = esp8266 w.
Proof. by destruct b. Qed.

Lemma deliver_eq msg w :
  deliver msg w
  = fire (onMessageReceived (mqtt w)) (Call_onMessageReceived msg)
      (with_mqtt (with_receiveCount (uint32 (receiveCount (mqtt w) + 1)) (mqtt w)) w).
Proof. reflexivity. Qed.

(** Computes the tick in a world whose flags and whose markers in the
    receive buffer are known. *)
Ltac tick_compute :=
  unfold MQTT_ProcessData, ESP8266_GetResponseBuffer;
  repeat (rewrite ?deliver_eq, ?fire_mqtt, ?fire_esp8266, ?fire_calls;
          cbn [mqtt esp8266 calls with_mqtt invoke initialized pending
               onConnected onDisconnected onMessageReceived
               with_state with_connected with_receiveCount with_pending
               msgPending msgBuffer negb snd];
          repeat match goal with
                 | H : _ = _ |- _ => rewrite H
                 | H : forall v, MQTT_ParseSubMessage _ v = _ |- _ => rewrite H
                 end).

Lemma MQTT_ProcessData_same_for_tick (w : World) :
  msgPending (pending (mqtt w)) = false -> same_for_tick w (MQTT_ProcessData w).
Proof.
  intros Hpend. unfold same_for_tick.
  destruct (initialized (mqtt w)) eqn:Hinit;
    [|unfold MQTT_ProcessData; rewrite Hinit; cbn [negb]; by rewrite Hinit].
  destruct (MQTT_ParseSubMessage_outcome (Some (rxBuffer (esp8266 w))))
    as [Hparse|(msg & _ & Hparse)];
  destruct (strstr (rxBuffer (esp8266 w)) "+MQTTDISCONNECTED:") eqn:E1;
  destruct (strstr (rxBuffer (esp8266 w)) "+MQTTCONNECTED:") eqn:E2;
  destruct (strstr (rxBuffer (esp8266 w)) "+MQTTSUBRECV:") eqn:E3;
  tick_compute; split_and!; reflexivity.
Qed.

(** Two such worlds get the same calls from the tick. *)
Lemma MQTT_ProcessData_calls (w w' : World) :
  same_for_tick w w' -> msgPending (pending (mqtt w)) = false ->
  exists l, calls (MQTT_ProcessData w) = (calls w ++ l)%list
            /\ calls (MQTT_ProcessData w') = (calls w' ++ l)%list.
Proof.
  intros (He & Hi & Hp & Hc & Hd & Hm) Hpend. rewrite Hpend in Hp.
  destruct (initialized (mqtt w)) eqn:Hinit.
  2:{ exists []. unfold MQTT_ProcessData. rewrite Hi, Hinit. cbn [negb].
      by rewrite !app_nil_r. }
  destruct (MQTT_ParseSubMessage_outcome (Some (rxBuffer (esp8266 w))))
    as [Hparse|(msg & _ & Hparse)];
  destruct (strstr (rxBuffer (esp8266 w)) "+MQTTDISCONNECTED:") eqn:E1;
  destruct (strstr (rxBuffer (esp8266 w)) "+MQTTCONNECTED:") eqn:E2;
  destruct (strstr (rxBuffer (esp8266 w)) "+MQTTSUBRECV:") eqn:E3;
  eexists;
  (split; [tick_compute; rewrite <- ?app_assoc;
           first [reflexivity|symmetry; apply app_nil_r]|]);
  tick_compute; rewrite <- ?app_assoc, ?app_nil_r; reflexivity.
Qed.

(** X3. The processing tick does not consume what it processes: it leaves
    the receive buffer and the flag [rxComplete] as they are, so as long as
    no interrupt rewrites the buffer, the next tick finds the same markers
    and the same +MQTTSUBRECV line and makes the same calls again.  With no
    message pending, two ticks in a row make the calls of one tick
    twice. *)
Theorem X3_tick_does_not_consume (w : World) :
  msgPending (pending (mqtt w)) = false ->
  exists l,
    calls (MQTT_ProcessData w) = (calls w ++ l)%list
    /\ calls (MQTT_ProcessData (MQTT_ProcessData w)) = (calls w ++ l ++ l)%list
    /\ esp8266 (MQTT_ProcessData w) = esp8266 w.
Proof.
  intros Hpend.
  pose proof (MQTT_ProcessData_same_for_tick w Hpend) as Hsame.
  destruct (MQTT_ProcessData_calls w _ Hsame Hpend) as (l & H1 & H2).
  exists l. split; [done|]. split; [by rewrite H2, H1, app_assoc|apply Hsame].
Qed.

Lemma X3_witness :
  msgPending (pending (mqtt line_received)) = false
  /\ exists l,
       calls (MQTT_ProcessData line_received) = (calls line_received ++ l)%list
       /\ calls (MQTT_ProcessData (MQTT_ProcessData line_received))
          = (calls line_received ++ l ++ l)%list
       /\ esp8266 (MQTT_ProcessData line_received) = esp8266 line_received.
Proof.
  assert (H1 : msgPending (pending (mqtt line_received)) = false) by reflexivity.
  split; [exact H1|]. exact (X3_tick_does_not_consume line_received H1).
Defined.

(** The line of C4 is delivered on every tick until the buffer changes. *)
Example tick_delivers_the_line_twice :
  calls (MQTT_ProcessData (MQTT_ProcessData line_received))
  = [SUBRECV_call; SUBRECV_call].
Proof. vm_compute. reflexivity. Qed.

(** X4. How the tick reads the connection events.  On an initialized
    session, a receive buffer that contains +MQTTCONNECTED: leaves the
    session connected, in state [MQTT_STATE_CONNECTED], also when the
    buffer contains +MQTTDISCONNECTED: as well, before or after it: the
    disconnect marker is examined first and the connect marker last.  A
    buffer with only +MQTTDISCONNECTED: leaves it disconnected, and a
    buffer with neither leaves flag and state alone.  In no case does the
    tick touch the subscription table: unlike [MQTT_Disconnect], a
    disconnect event keeps the subscriptions. *)
Theorem X4_tick_connection_markers (w : World) :
  initialized (mqtt w) = true ->
  (contains (rxBuffer (esp8266 w)) "+MQTTCONNECTED:" = true ->
   connected (mqtt (MQTT_ProcessData w)) = true
   /\ state (mqtt (MQTT_ProcessData w)) = MQTT_STATE_CONNECTED)
  /\ (contains (rxBuffer (esp8266 w)) "+MQTTCONNECTED:" = false ->
      contains (rxBuffer (esp8266 w)) "+MQTTDISCONNECTED:" = true ->
      connected (mqtt (MQTT_ProcessData w)) = false
      /\ state (mqtt (MQTT_ProcessData w)) = MQTT_STATE_DISCONNECTED)
  /\ (contains (rxBuffer (esp8266 w)) "+MQTTCONNECTED:" = false ->
      contains (rxBuffer (esp8266 w)) "+MQTTDISCONNECTED:" = false ->
      connected (mqtt (MQTT_ProcessData w)) = connected (mqtt w)
      /\ state (mqtt (MQTT_ProcessData w)) = state (mqtt w))
  /\ subscriptions (mqtt (MQTT_ProcessData w)) = subscriptions (mqtt w)
  /\ subscriptionCount (mqtt (MQTT_ProcessData w)) = subscriptionCount (mqtt w).
Proof.
  intros Hinit. unfold contains.
  split_and!; [| | |apply MQTT_ProcessData_table..].
  all: destruct (msgPending (pending (mqtt w))) eqn:Hpend;
    destruct (MQTT_ParseSubMessage_outcome (Some (msgBuffer (pending (mqtt w)))))
      as [Hpre|(msg0 & _ & Hpre)];
    destruct (MQTT_ParseSubMessage_outcome (Some (rxBuffer (esp8266 w))))
      as [Hparse|(msg & _ & Hparse)];
    destruct (strstr (rxBuffer (esp8266 w)) "+MQTTDISCONNECTED:") eqn:E1;
    destruct (strstr (rxBuffer (esp8266 w)) "+MQTTCONNECTED:") eqn:E2;
    try discriminate; intros; try discriminate;
    destruct (strstr (rxBuffer (esp8266 w)) "+MQTTSUBRECV:") eqn:E3;
    tick_compute; cbn [connected state with_state with_connected with_receiveCount
                       with_pending];
    split; reflexivity.
Qed.

Lemma X4_witness :
  initialized (mqtt both_events) = true
  /\ (contains (rxBuffer (esp8266 both_events)) "+MQTTCONNECTED:" = true ->
      connected (mqtt (MQTT_ProcessData both_events)) = true
      /\ state (mqtt (MQTT_ProcessData both_events)) = MQTT_STATE_CONNECTED)
  /\ (contains (rxBuffer (esp8266 both_events)) "+MQTTCONNECTED:" = false ->
      contains (rxBuffer (esp8266 both_events)) "+MQTTDISCONNECTED:" = true ->
      connected (mqtt (MQTT_ProcessData both_events)) = false
      /\ state (mqtt (MQTT_ProcessData both_events)) = MQTT_STATE_DISCONNECTED)
  /\ (contains (rxBuffer (esp8266 both_events)) "+MQTTCONNECTED:" = false ->
      contains (rxBuffer (esp8266 both_events)) "+MQTTDISCONNECTED:" = false ->
      connected (mqtt (MQTT_ProcessData both_events)) = connected (mqtt both_events)
      /\ state (mqtt (MQTT_ProcessData both_events)) = state (mqtt both_events))
  /\ subscriptions (mqtt (MQTT_ProcessData both_events))
     = subscriptions (mqtt both_events)
  /\ subscriptionCount (mqtt (MQTT_ProcessData both_events))
     = subscriptionCount (mqtt both_events).
Proof.
  assert (H1 : initialized (mqtt both_events) = true) by reflexivity.
  split; [exact H1|]. exact (X4_tick_connection_markers both_events H1).
Defined.

(** In the example the disconnect event is the later of the two, both
    callbacks are called, and the session ends up connected. *)
Example tick_sees_the_connect_event_last :
  contains (rxBuffer (esp8266 both_events)) "+MQTTCONNECTED:" = true
  /\ contains (rxBuffer (esp8266 both_events)) "+MQTTDISCONNECTED:" = true
  /\ calls (MQTT_ProcessData both_events) = [Call_onDisconnected; Call_onConnected]
  /\ connected (mqtt (MQTT_ProcessData both_events)) = true.
Proof. split_and!; vm_compute; reflexivity. Qed.

(** ** The subscription table: insert, look up, remove *)

Lemma cstr_cons (c : ascii) (s : string) :
  cstr (String c s) = if Ascii.eqb c NUL then EmptyString else String c (cstr s).
Proof. reflexivity. Qed.

Lemma strncpy_cons (c : ascii) (s : string) (n : nat) :
  strncpy (String c s) (S n)
  = if Ascii.eqb c NUL then EmptyString else String c (strncpy s n).
Proof. reflexivity. Qed.

Lemma cstr_idem (s : string) : cstr (cstr s) = cstr s.
Proof.
  induction s as [|c s IH]; [done|]. rewrite cstr_cons.
  destruct (Ascii.eqb c NUL) eqn:E; [done|]. by rewrite cstr_cons, E, IH.
Qed.

Lemma strncpy_cstr (s : string) : forall n,
  (String.length (cstr s) <= n)%nat -> strncpy s n = cstr s.
Proof.
  induction s as [|c s IH]; intros n; [by destruct n|]. rewrite cstr_cons.
  destruct n as [|n]; [by destruct (Ascii.eqb c NUL); [|simpl; lia]|].
  rewrite strncpy_cons.
  destruct (Ascii.eqb c NUL); [done|]. simpl. intros Hn. rewrite IH by lia. done.
Qed.

Lemma cstr_strncpy (s : string) : forall n, cstr (strncpy s n) = strncpy s n.
Proof.
  induction s as [|c s IH]; intros [|n]; try done. rewrite strncpy_cons.
  destruct (Ascii.eqb c NUL) eqn:E; [done|]. by rewrite cstr_cons, E, IH.
Qed.

Lemma holds_topic_active t s : holds_topic t s = true -> active s = true.
Proof. unfold holds_topic. by intros (? & _)%andb_true_iff. Qed.

Lemma holds_topic_cstr t s : holds_topic t s = true -> cstr (topic s) = cstr t.
Proof.
  unfold holds_topic, strcmp0. intros (_ & H)%andb_true_iff. by apply String.eqb_eq.
Qed.

Lemma holds_topic_intro t s :
  active s = true -> cstr (topic s) = cstr t -> holds_topic t s = true.
Proof.
  unfold holds_topic, strcmp0. intros -> ->. by rewrite String.eqb_refl.
Qed.

(** A table with fewer than [MQTT_MAX_SUBSCRIPTIONS] entries has a free
    slot. *)
Lemma free_slot (l : list MQTT_Subscription_t) :
  (count_active l < length l)%nat ->
  exists i s, list_find (λ s, active s = false) l = Some (i, s).
Proof.
  intros Hlt.
  assert (Hex : exists s, s ∈ l /\ active s = false).
  { induction l as [|a l IH]; [simpl in Hlt; lia|].
    rewrite count_active_cons in Hlt. destruct (active a) eqn:Ea.
    - destruct IH as (s & Hs & Hf); [simpl in Hlt; lia|].
      exists s. split; [by right|done].
    - exists a. split; [by left|done]. }
  destruct Hex as (s & Hs & Hf).
  destruct (list_find_elem_of (λ s, active s = false) l s Hs Hf) as [[i s'] E].
  by exists i, s'.
Qed.

(** The two ways in which [MQTT_AddSubscription] changes a table that has
    room. *)
Lemma MQTT_AddSubscription_cases t q m :
  table_ok m -> subscriptionCount m < Z.of_nat MQTT_MAX_SUBSCRIPTIONS ->
  (exists i s,
      list_find (λ s, holds_topic t s = true) (subscriptions m) = Some (i, s)
      /\ MQTT_AddSubscription t q m
         = with_subscriptions
             (<[i := {| topic := topic s; qos := q; active := active s |}]>
                (subscriptions m)) m)
  \/ (list_find (λ s, holds_topic t s = true) (subscriptions m) = None
      /\ exists i s,
           list_find (λ s, active s = false) (subscriptions m) = Some (i, s)
           /\ MQTT_AddSubscription t q m
              = with_subscriptionCount (subscriptionCount m + 1)
                  (with_subscriptions
                     (<[i := {| topic := strncpy t (MQTT_TOPIC_MAX_LEN - 1);
                                qos := q; active := true |}]> (subscriptions m)) m)).
Proof.
  intros (Hlen & Hcnt) Hroom. unfold MQTT_AddSubscription.
  destruct (list_find (λ s, holds_topic t s = true) _) as [[i s]|] eqn:E1.
  - left. by exists i, s.
  - right. split; [done|].
    destruct (free_slot (subscriptions m)) as (i & s & E2); [lia|].
    exists i, s. rewrite E2. split; [done|].
    pose proof (count_active_le_length (subscriptions m)).
    unfold uint8. rewrite Z.mod_small; [done|]. unfold MQTT_MAX_SUBSCRIPTIONS in *. lia.
Qed.

Lemma existsb_insert_mono {A} (f : A -> bool) (l : list A) (i : nat) (x y : A) :
  l !! i = Some y -> (f y = true -> f x = true) ->
  existsb f l = true -> existsb f (<[i:=x]> l) = true.
Proof.
  revert i. induction l as [|a l IH]; intros [|i]; simpl; try done.
  - intros [= ->] Hxy. rewrite !orb_true_iff. intros [?|?]; auto.
  - intros Hi Hxy. rewrite !orb_true_iff. intros [?|?]; eauto.
Qed.

Lemma existsb_insert_same {A} (f : A -> bool) (l : list A) (i : nat) (x y : A) :
  l !! i = Some y -> f x = f y -> existsb f (<[i:=x]> l) = existsb f l.
Proof.
  revert i. induction l as [|a l IH]; intros [|i]; simpl; try done.
  - intros [= ->] ->. done.
  - intros Hi Hxy. by rewrite (IH i).
Qed.

Lemma existsb_insert_here {A} (f : A -> bool) (l : list A) (i : nat) (x y : A) :
  l !! i = Some y -> f x = true -> existsb f (<[i:=x]> l) = true.
Proof.
  revert i. induction l as [|a l IH]; intros [|i]; simpl; try done.
  - intros _ ->. done.
  - intros Hi Hx. rewrite (IH i) by done. apply orb_true_r.
Qed.

(** The exchange and the callback of [MQTT_Subscribe] leave the handle
    alone: a successful call stores the subscription and sets the state. *)
Lemma MQTT_Subscribe_OK fuel t q w w' :
  MQTT_Subscribe fuel (Some t) q w = Some (MQTT_OK, w') ->
  subscriptionCount (mqtt w) < Z.of_nat MQTT_MAX_SUBSCRIPTIONS
  /\ mqtt w' = with_state MQTT_STATE_CONN_WITH_SUB (MQTT_AddSubscription t q (mqtt w)).
Proof.
  unfold MQTT_Subscribe.
  destruct (initialized (mqtt w)); [|done].
  destruct (connected (mqtt w)); [|done]. cbn [negb].
  destruct (Z.geb_spec (subscriptionCount (mqtt w)) (Z.of_nat MQTT_MAX_SUBSCRIPTIONS));
    [done|].
  destruct (ESP8266_SendCommandF _ _ _ _ _) as [[ret w1]|] eqn:E; [|done].
  apply ESP8266_SendCommandF_frame in E as (_ & Hm & _).
  destruct ret; try done. intros [= <-]. rewrite fire_mqtt. cbn [mqtt with_mqtt].
  by rewrite Hm.
Qed.

Lemma MQTT_Unsubscribe_OK fuel t w w' :
  MQTT_Unsubscribe fuel (Some t) w = Some (MQTT_OK, w') ->
  mqtt w' = MQTT_RemoveSubscription t (mqtt w).
Proof.
  unfold MQTT_Unsubscribe.
  destruct (initialized (mqtt w)); [|done].
  destruct (connected (mqtt w)); [|done]. cbn [negb].
  destruct (ESP8266_SendCommandF _ _ _ _ _) as [[ret w1]|] eqn:E; [|done].
  apply ESP8266_SendCommandF_frame in E as (_ & Hm & _).
  destruct ret; try done. intros [= <-]. rewrite fire_mqtt. cbn [mqtt with_mqtt].
  by rewrite Hm.
Qed.

Lemma holds_new_slot t q :
  fits t ->
  holds_topic t {| topic := strncpy t (MQTT_TOPIC_MAX_LEN - 1); qos := q;
                   active := true |} = true.
Proof.
  intros Hfit. apply holds_topic_intro; [done|]. cbn [topic].
  unfold fits, MQTT_TOPIC_MAX_LEN in *.
  rewrite strncpy_cstr by lia. apply cstr_idem.
Qed.

(** X5. Insert, then look up.  After a successful [MQTT_Subscribe] to a
    topic that fits a slot (at most 127 characters), in a session whose
    table is well formed: [MQTT_GetSubscriptions] lists an entry with this
    topic and this QoS; every topic that was subscribed still is; the
    counter went up by one if the topic is new and stayed if it was already
    there; and the state is [MQTT_STATE_CONN_WITH_SUB]. *)
Theorem X5_subscribe_then_listed (fuel : nat) (t : string) (q : MQTT_QoS_t)
    (w w' : World) :
  table_ok (mqtt w) -> fits t ->
  MQTT_Subscribe fuel (Some t) q w = Some (MQTT_OK, w') ->
  (exists s, s ∈ (MQTT_GetSubscriptions w').1.2
             /\ cstr (topic s) = cstr t /\ qos s = q)
  /\ subscribed t (mqtt w') = true
  /\ (forall t', subscribed t' (mqtt w) = true -> subscribed t' (mqtt w') = true)
  /\ subscriptionCount (mqtt w')
     = subscriptionCount (mqtt w) + (if subscribed t (mqtt w) then 0 else 1)
  /\ state (mqtt w') = MQTT_STATE_CONN_WITH_SUB.
Proof.
  intros Hok Hfit (Hroom & Hm)%MQTT_Subscribe_OK.
  unfold MQTT_GetSubscriptions, subscribed. cbn [fst snd]. rewrite Hm.
  destruct (MQTT_AddSubscription_cases t q (mqtt w) Hok Hroom)
    as [(i & s & Hfind & ->)|(Hnone & i & s & Hfind & ->)];
    cbn [subscriptions subscriptionCount state with_state with_subscriptions
         with_subscriptionCount].
  - pose proof Hfind as (Hi & Hs & _)%list_find_Some.
    pose proof (holds_topic_active _ _ Hs) as Ha.
    assert (Hpresent : subscribed t (mqtt w) = true).
    { apply existsb_exists. exists s. split; [|done].
      apply list_elem_of_In. by eapply list_elem_of_lookup_2. }
    split_and!.
    + exists {| topic := topic s; qos := q; active := active s |}. split_and!.
      * apply list_elem_of_filter. split; [done|].
        eapply list_elem_of_lookup_2. apply list_lookup_insert_eq.
        by eapply lookup_lt_Some.
      * by apply holds_topic_cstr.
      * done.
    + eapply existsb_insert_here; [done|].
      apply holds_topic_intro; [done|by apply holds_topic_cstr].
    + intros t' Ht'. by erewrite existsb_insert_same.
    + unfold subscribed in Hpresent. rewrite Hpresent. lia.
    + done.
  - pose proof Hfind as (Hi & Hs & _)%list_find_Some.
    assert (Habsent : subscribed t (mqtt w) = false).
    { destruct (subscribed t (mqtt w)) eqn:E; [|done].
      apply subscribed_find in E as (j & s' & E). congruence. }
    split_and!.
    + eexists. split_and!; [|apply holds_topic_cstr, (holds_new_slot t q Hfit)|done].
      apply list_elem_of_filter. split; [done|].
      eapply list_elem_of_lookup_2. apply list_lookup_insert_eq.
      by eapply lookup_lt_Some.
    + eapply existsb_insert_here; [done|]. by apply holds_new_slot.
    + intros t' Ht'. eapply existsb_insert_mono; [done| |done].
      intros Hh%holds_topic_active. congruence.
    + unfold subscribed in Habsent. by rewrite Habsent.
    + done.
Qed.

Lemma X5_witness :
  table_ok (mqtt session_acked) /\ fits "b"
  /\ MQTT_Subscribe plenty (Some "b") MQTT_QOS_1 session_acked
     = Some (MQTT_OK, b_subscribed)
  /\ (exists s, s ∈ (MQTT_GetSubscriptions b_subscribed).1.2
                /\ cstr (topic s) = cstr "b" /\ qos s = MQTT_QOS_1)
  /\ subscribed "b" (mqtt b_subscribed) = true
  /\ (forall t', subscribed t' (mqtt session_acked) = true ->
                 subscribed t' (mqtt b_subscribed) = true)
  /\ subscriptionCount (mqtt b_subscribed)
     = subscriptionCount (mqtt session_acked)
       + (if subscribed "b" (mqtt session_acked) then 0 else 1)
  /\ state (mqtt b_subscribed) = MQTT_STATE_CONN_WITH_SUB.
Proof.
  assert (H1 : table_ok (mqtt session_acked)) by (split; reflexivity).
  assert (H2 : fits "b") by (unfold fits, MQTT_TOPIC_MAX_LEN; simpl; lia).
  assert (H3 : MQTT_Subscribe plenty (Some "b") MQTT_QOS_1 session_acked
               = Some (MQTT_OK, b_subscribed)) by (vm_compute; reflexivity).
  split; [exact H1|]. split; [exact H2|]. split; [exact H3|].
  exact (X5_subscribe_then_listed plenty "b" MQTT_QOS_1 session_acked b_subscribed
           H1 H2 H3).
Defined.

Lemma list_find_insert_new {A} (P : A -> Prop) `{!forall x, Decision (P x)}
    (l : list A) (i : nat) (x y : A) :
  list_find P l = None -> l !! i = Some y -> P x ->
  list_find P (<[i:=x]> l) = Some (i, x).
Proof.
  intros Hnone Hi Hx. apply list_find_Some. split_and!.
  - apply list_lookup_insert_eq. by eapply lookup_lt_Some.
  - done.
  - intros j z Hj Hlt. rewrite list_lookup_insert_ne in Hj by lia.
    apply list_find_None in Hnone. rewrite Forall_forall in Hnone.
    apply Hnone. by eapply list_elem_of_lookup_2.
Qed.

Lemma elem_of_insert_inv {A} (l : list A) (i : nat) (x y : A) :
  y ∈ <[i:=x]> l -> y = x \/ y ∈ l.
Proof.
  revert i. induction l as [|a l IH]; intros [|i]; simpl.
  - by right.
  - by right.
  - intros [->|?]%elem_of_cons; [by left|right; by right].
  - intros [->|H]%elem_of_cons; [right; by left|].
    destruct (IH i H) as [?|?]; [by left|right; by right].
Qed.

(** X6. Insert, then remove.  In a session whose table is well formed and
    whose free slots are zero, a successful [MQTT_Subscribe] to a new topic
    that fits a slot, followed by a successful [MQTT_Unsubscribe] of the
    same topic, gives back the table as it was, slot by slot, and the same
    counter.  The state does not come back: it stays
    [MQTT_STATE_CONN_WITH_SUB], also when the table is empty again. *)
Theorem X6_subscribe_unsubscribe_round_trip (fuel : nat) (t : string) (q : MQTT_QoS_t)
    (w w1 w2 : World) :
  table_ok (mqtt w) -> cleared_slots (mqtt w) -> fits t ->
  subscribed t (mqtt w) = false ->
  MQTT_Subscribe fuel (Some t) q w = Some (MQTT_OK, w1) ->
  MQTT_Unsubscribe fuel (Some t) w1 = Some (MQTT_OK, w2) ->
  subscriptions (mqtt w2) = subscriptions (mqtt w)
  /\ subscriptionCount (mqtt w2) = subscriptionCount (mqtt w)
  /\ state (mqtt w2) = MQTT_STATE_CONN_WITH_SUB.
Proof.
  intros Hok Hclr Hfit Habsent (Hroom & Hm1)%MQTT_Subscribe_OK Hm2%MQTT_Unsubscribe_OK.
  rewrite Hm2, Hm1.
  destruct (MQTT_AddSubscription_cases t q (mqtt w) Hok Hroom)
    as [(i & s & Hfind & _)|(Hnone & i & s & Hfind & ->)].
  { apply not_subscribed_find in Habsent. congruence. }
  pose proof Hfind as (Hi & Hs & _)%list_find_Some.
  unfold MQTT_RemoveSubscription.
  cbn [subscriptions subscriptionCount with_state with_subscriptions
       with_subscriptionCount].
  rewrite (list_find_insert_new _ _ i _ s Hnone Hi) by (by apply holds_new_slot).
  cbn [subscriptions subscriptionCount state with_state with_subscriptions
       with_subscriptionCount].
  rewrite list_insert_insert_eq.
  assert (s = zero_subscription) as ->.
  { apply Hclr; [|done]. by eapply list_elem_of_lookup_2. }
  rewrite list_insert_id by done.
  destruct (table_ok_bound _ Hok) as (_ & Hc).
  split_and!; [done| |done].
  unfold uint8. rewrite Z.mod_small; unfold MQTT_MAX_SUBSCRIPTIONS in *; lia.
Qed.

(** X7. [MQTT_Unsubscribe] removes one entry and nothing else.  When the
    topic is in a well-formed table and the call succeeds, the first slot
    that holds the topic is zeroed, the counter and the number of active
    slots go down by one, every other topic stays subscribed or not as it
    was, and the state is left alone, also when the last subscription
    goes. *)
Theorem X7_unsubscribe_removes_one (fuel : nat) (t : string) (w w' : World) :
  table_ok (mqtt w) -> subscribed t (mqtt w) = true ->
  MQTT_Unsubscribe fuel (Some t) w = Some (MQTT_OK, w') ->
  (exists i s,
      list_find (λ s, holds_topic t s = true) (subscriptions (mqtt w)) = Some (i, s)
      /\ subscriptions (mqtt w') = <[i := zero_subscription]> (subscriptions (mqtt w)))
  /\ subscriptionCount (mqtt w') = subscriptionCount (mqtt w) - 1
  /\ (count_active (subscriptions (mqtt w')) + 1
      = count_active (subscriptions (mqtt w)))%nat
  /\ (forall t', cstr t' <> cstr t ->
        subscribed t' (mqtt w') = subscribed t' (mqtt w))
  /\ state (mqtt w') = state (mqtt w).
Proof.
  intros Hok Hpresent ->%MQTT_Unsubscribe_OK.
  destruct (subscribed_find _ _ Hpresent) as (i & s & Hfind).
  pose proof Hfind as (Hi & Hs & _)%list_find_Some.
  pose proof (holds_topic_active _ _ Hs) as Ha.
  pose proof (holds_topic_cstr _ _ Hs) as Hts.
  unfold MQTT_RemoveSubscription, subscribed. rewrite Hfind.
  cbn [subscriptions subscriptionCount state with_subscriptions with_subscriptionCount].
  pose proof (count_active_insert _ i zero_subscription s Hi) as Hc.
  cbn [active zero_subscription] in Hc. rewrite Ha in Hc.
  destruct Hok as (Hlen & Hcnt).
  pose proof (count_active_le_length (subscriptions (mqtt w))).
  split_and!.
  - by exists i, s.
  - unfold uint8. rewrite Z.mod_small; unfold MQTT_MAX_SUBSCRIPTIONS in *; lia.
  - lia.
  - intros t' Hne. apply (existsb_insert_same _ _ i _ s Hi).
    unfold holds_topic at 1. cbn [active zero_subscription andb].
    symmetry. apply not_true_is_false. intros Hh%holds_topic_cstr. congruence.
  - done.
Qed.

(** Splits the membership in a list that is given element by element. *)
Ltac elem_cases H :=
  repeat (apply elem_of_cons in H as [->|H]); [..|by apply elem_of_nil in H].

Lemma X6_witness :
  table_ok (mqtt two_exchanges) /\ cleared_slots (mqtt two_exchanges) /\ fits "b"
  /\ subscribed "b" (mqtt two_exchanges) = false
  /\ MQTT_Subscribe plenty (Some "b") MQTT_QOS_2 two_exchanges
     = Some (MQTT_OK, two_exchanges_1)
  /\ MQTT_Unsubscribe plenty (Some "b") two_exchanges_1
     = Some (MQTT_OK, two_exchanges_2)
  /\ subscriptions (mqtt two_exchanges_2) = subscriptions (mqtt two_exchanges)
  /\ subscriptionCount (mqtt two_exchanges_2) = subscriptionCount (mqtt two_exchanges)
  /\ state (mqtt two_exchanges_2) = MQTT_STATE_CONN_WITH_SUB.
Proof.
  assert (H1 : table_ok (mqtt two_exchanges)) by (split; reflexivity).
  assert (H2 : cleared_slots (mqtt two_exchanges)).
  { intros s Hs. vm_compute in Hs. elem_cases Hs; done. }
  assert (H3 : fits "b") by (unfold fits, MQTT_TOPIC_MAX_LEN; simpl; lia).
  assert (H4 : subscribed "b" (mqtt two_exchanges) = false) by reflexivity.
  assert (H5 : MQTT_Subscribe plenty (Some "b") MQTT_QOS_2 two_exchanges
               = Some (MQTT_OK, two_exchanges_1)) by (vm_compute; reflexivity).
  assert (H6 : MQTT_Unsubscribe plenty (Some "b") two_exchanges_1
               = Some (MQTT_OK, two_exchanges_2)) by (vm_compute; reflexivity).
  split; [exact H1|]. split; [exact H2|]. split; [exact H3|]. split; [exact H4|].
  split; [exact H5|]. split; [exact H6|].
  exact (X6_subscribe_unsubscribe_round_trip plenty "b" MQTT_QOS_2 two_exchanges
           two_exchanges_1 two_exchanges_2 H1 H2 H3 H4 H5 H6).
Defined.

Lemma X7_witness :
  table_ok (mqtt two_exchanges_1) /\ subscribed "b" (mqtt two_exchanges_1) = true
  /\ MQTT_Unsubscribe plenty (Some "b") two_exchanges_1
     = Some (MQTT_OK, two_exchanges_2)
  /\ (exists i s,
        list_find (λ s, holds_topic "b" s = true) (subscriptions (mqtt two_exchanges_1))
        = Some (i, s)
        /\ subscriptions (mqtt two_exchanges_2)
           = <[i := zero_subscription]> (subscriptions (mqtt two_exchanges_1)))
  /\ subscriptionCount (mqtt two_exchanges_2)
     = subscriptionCount (mqtt two_exchanges_1) - 1
  /\ (count_active (subscriptions (mqtt two_exchanges_2)) + 1
      = count_active (subscriptions (mqtt two_exchanges_1)))%nat
  /\ (forall t', cstr t' <> cstr "b" ->
        subscribed t' (mqtt two_exchanges_2) = subscribed t' (mqtt two_exchanges_1))
  /\ state (mqtt two_exchanges_2) = state (mqtt two_exchanges_1).
Proof.
  assert (H1 : table_ok (mqtt two_exchanges_1)) by (split; vm_compute; reflexivity).
  assert (H2 : subscribed "b" (mqtt two_exchanges_1) = true) by (vm_compute; reflexivity).
  assert (H3 : MQTT_Unsubscribe plenty (Some "b") two_exchanges_1
               = Some (MQTT_OK, two_exchanges_2)) by (vm_compute; reflexivity).
  split; [exact H1|]. split; [exact H2|]. split; [exact H3|].
  exact (X7_unsubscribe_removes_one plenty "b" two_exchanges_1 two_exchanges_2
           H1 H2 H3).
Defined.

(** ** The slots of the table in every reachable state *)

Lemma slots_zero_table :
  forall s, s ∈ replicate MQTT_MAX_SUBSCRIPTIONS zero_subscription ->
            s = zero_subscription.
Proof. intros s Hs. by apply elem_of_replicate in Hs as (-> & _). Qed.

Lemma MQTT_AddSubscription_slots t q m :
  cleared_slots m /\ topics_fit m ->
  cleared_slots (MQTT_AddSubscription t q m) /\ topics_fit (MQTT_AddSubscription t q m).
Proof.
  intros (Hclr & Hfit). unfold MQTT_AddSubscription, cleared_slots, topics_fit.
  destruct (list_find (λ s, holds_topic t s = true) _) as [[i s]|] eqn:E1.
  - apply list_find_Some in E1 as (Hi & Hs & _).
    pose proof (holds_topic_active _ _ Hs) as Ha.
    assert (Hin : s ∈ subscriptions m) by by eapply list_elem_of_lookup_2.
    cbn [subscriptions with_subscriptions]. split.
    + intros s' [->|Hs']%elem_of_insert_inv; [cbn [active]; congruence|by apply Hclr].
    + intros s' [->|Hs']%elem_of_insert_inv; [exact (Hfit s Hin)|by apply Hfit].
  - destruct (list_find (λ s, active s = false) _) as [[i s]|] eqn:E2; [|done].
    cbn [subscriptions with_subscriptions with_subscriptionCount]. split.
    + intros s' [->|Hs']%elem_of_insert_inv; [done|by apply Hclr].
    + intros s' [->|Hs']%elem_of_insert_inv; [|by apply Hfit].
      cbn [topic]. split; [apply cstr_strncpy|].
      pose proof (length_strncpy t (MQTT_TOPIC_MAX_LEN - 1)).
      unfold MQTT_TOPIC_MAX_LEN in *. lia.
Qed.

Lemma MQTT_RemoveSubscription_slots t m :
  cleared_slots m /\ topics_fit m ->
  cleared_slots (MQTT_RemoveSubscription t m)
  /\ topics_fit (MQTT_RemoveSubscription t m).
Proof.
  intros (Hclr & Hfit). unfold MQTT_RemoveSubscription, cleared_slots, topics_fit.
  destruct (list_find _ _) as [[i s]|]; [|done].
  cbn [subscriptions with_subscriptions with_subscriptionCount]. split.
  - intros s' [->|Hs']%elem_of_insert_inv; [done|by apply Hclr].
  - intros s' [->|Hs']%elem_of_insert_inv; [|by apply Hfit].
    split; [done|]. unfold MQTT_TOPIC_MAX_LEN. simpl. lia.
Qed.

Lemma slots_zero m :
  subscriptions m = replicate MQTT_MAX_SUBSCRIPTIONS zero_subscription ->
  cleared_slots m /\ topics_fit m.
Proof.
  intros E. unfold cleared_slots, topics_fit. rewrite E. split.
  - intros s Hs _. by apply slots_zero_table.
  - intros s ->%slots_zero_table. split; [done|]. unfold MQTT_TOPIC_MAX_LEN. simpl. lia.
Qed.

Lemma slots_same w w' :
  same_table w w' -> cleared_slots (mqtt w) /\ topics_fit (mqtt w) ->
  cleared_slots (mqtt w') /\ topics_fit (mqtt w').
Proof. unfold cleared_slots, topics_fit. intros (-> & _). done. Qed.

Lemma MQTT_Subscribe_slots fuel t q w r w' :
  MQTT_Subscribe fuel t q w = Some (r, w') ->
  cleared_slots (mqtt w) /\ topics_fit (mqtt w) ->
  cleared_slots (mqtt w') /\ topics_fit (mqtt w').
Proof.
  unfold MQTT_Subscribe. intros H Hinv.
  repeat (case_match; simplify_eq); try done; exchange_frames;
    rewrite ?fire_mqtt; cbn [mqtt with_mqtt];
    match goal with Hm : mqtt _ = mqtt w |- _ => rewrite Hm end; try done.
  exact (MQTT_AddSubscription_slots _ _ (mqtt w) Hinv).
Qed.

Lemma MQTT_Unsubscribe_slots fuel t w r w' :
  MQTT_Unsubscribe fuel t w = Some (r, w') ->
  cleared_slots (mqtt w) /\ topics_fit (mqtt w) ->
  cleared_slots (mqtt w') /\ topics_fit (mqtt w').
Proof.
  unfold MQTT_Unsubscribe. intros H Hinv.
  repeat (case_match; simplify_eq); try done; exchange_frames;
    rewrite ?fire_mqtt; cbn [mqtt with_mqtt];
    match goal with Hm : mqtt _ = mqtt w |- _ => rewrite Hm end; try done.
  exact (MQTT_RemoveSubscription_slots _ (mqtt w) Hinv).
Qed.

Lemma MQTT_Disconnect_slots fuel w r w' :
  MQTT_Disconnect fuel w = Some (r, w') ->
  cleared_slots (mqtt w) /\ topics_fit (mqtt w) ->
  cleared_slots (mqtt w') /\ topics_fit (mqtt w').
Proof.
  unfold MQTT_Disconnect. intros H Hinv.
  repeat (case_match; simplify_eq); try done.
  apply slots_zero. by rewrite fire_mqtt.
Qed.

Lemma reachable_slots w :
  reachable w -> cleared_slots (mqtt w) /\ topics_fit (mqtt w).
Proof.
  induction 1 as [b t0 up|fuel a w w' _ IH Hrun]; [by apply slots_zero|].
  destruct a; cbn [run] in Hrun;
    first [ apply fmap_Some in Hrun as ([r v] & E & ->); cbn [snd]
          | injection Hrun as <- ].
  - unfold MQTT_Init. case_match; [done|by apply slots_zero].
  - unfold MQTT_DeInit in E. repeat (case_match; simplify_eq); by apply slots_zero.
  - eapply slots_same; [by eapply MQTT_SetUserConfigSimple_table|done].
  - unfold MQTT_SetBroker. by case_match.
  - eapply slots_same; [by eapply MQTT_Connect_table|done].
  - by eapply MQTT_Disconnect_slots.
  - eapply slots_same; [by eapply MQTT_Reconnect_table|done].
  - eapply slots_same; [by eapply MQTT_Clean_table|done].
  - by eapply MQTT_Subscribe_slots.
  - by eapply MQTT_Unsubscribe_slots.
  - eapply slots_same; [by eapply MQTT_Publish_table|done].
  - eapply slots_same; [by eapply MQTT_PublishData_table|done].
  - eapply slots_same; [by eapply MQTT_PublishRaw_table|done].
  - eapply slots_same; [by eapply MQTT_QueryConnection_table|done].
  - eapply slots_same; [apply MQTT_ProcessData_table|done].
  - eapply slots_same; [apply MQTT_ProcessMessage_table|done].
  - done.
  - eapply slots_same; [|done]. apply same_session_table, HAL_Delay_frame.
Qed.

(** X8. In every state that the application can reach from reset through
    the calls of the library, whatever the co-processor answers: every slot
    of the table that is not active is all zero, and every stored topic is
    a string of at most 127 characters, so it fits its array with the
    terminator. *)
Theorem X8_slots_invariant (w : World) :
  reachable w ->
  (forall s, s ∈ subscriptions (mqtt w) -> active s = false -> s = zero_subscription)
  /\ (forall s, s ∈ subscriptions (mqtt w) ->
        cstr (topic s) = topic s /\ (String.length (topic s) <= 127)%nat).
Proof.
  intros (Hclr & Hfit)%reachable_slots. split; [exact Hclr|].
  intros s Hs. destruct (Hfit s Hs) as (? & ?). unfold MQTT_TOPIC_MAX_LEN in *.
  split; [done|lia].
Qed.

Lemma X8_witness :
  reachable a_subscribed
  /\ (forall s, s ∈ subscriptions (mqtt a_subscribed) -> active s = false ->
                s = zero_subscription)
  /\ (forall s, s ∈ subscriptions (mqtt a_subscribed) ->
        cstr (topic s) = topic s /\ (String.length (topic s) <= 127)%nat).
Proof.
  assert (H1 : reachable a_subscribed).
  { eapply (reachable_run_all plenty
              [Api_Init; Api_Connect; Api_Subscribe (Some "a") MQTT_QOS_0]);
      [apply (reachable_boot clean_board 0 true)|vm_compute; reflexivity]. }
  split; [exact H1|]. exact (X8_slots_invariant a_subscribed H1).
Defined.

(** ** Topics that do not fit a slot *)

Lemma strncpy_long (s : string) : forall n,
  (n <= String.length (cstr s))%nat -> String.length (strncpy s n) = n.
Proof.
  induction s as [|c s IH]; intros [|n]; try done; [simpl; lia|].
  rewrite cstr_cons, strncpy_cons.
  destruct (Ascii.eqb c NUL); simpl; [lia|]. intros Hn. rewrite IH by lia. done.
Qed.

Lemma long_not_subscribed t m : topics_fit m -> ~ fits t -> subscribed t m = false.
Proof.
  intros Hfit Hlong. apply not_true_is_false. intros (s & Hin & Hs)%existsb_exists.
  apply list_elem_of_In in Hin. destruct (Hfit s Hin) as (Hc & Hl).
  apply holds_topic_cstr in Hs. apply Hlong. unfold fits. by rewrite <- Hs, Hc.
Qed.

(** X9. A topic that does not fit a slot (128 characters or more) is
    stored cut to its first 127 characters.  After a successful
    [MQTT_Subscribe] to such a topic the table has one more entry, whose
    topic is the cut one, and the table does not hold the topic the
    application subscribed to: looking it up fails, so a second subscribe
    to the same topic takes a second slot, and an unsubscribe finds nothing
    to remove. *)
Theorem X9_long_topic_is_cut (fuel : nat) (t : string) (q : MQTT_QoS_t)
    (w w' : World) :
  table_ok (mqtt w) -> cleared_slots (mqtt w) -> topics_fit (mqtt w) -> ~ fits t ->
  MQTT_Subscribe fuel (Some t) q w = Some (MQTT_OK, w') ->
  subscribed t (mqtt w) = false
  /\ subscribed t (mqtt w') = false
  /\ subscriptionCount (mqtt w') = subscriptionCount (mqtt w) + 1
  /\ (exists s, s ∈ (MQTT_GetSubscriptions w').1.2
                /\ topic s = strncpy t 127 /\ String.length (topic s) = 127%nat
                /\ qos s = q).
Proof.
  intros Hok Hclr Hfit Hlong (Hroom & Hm)%MQTT_Subscribe_OK.
  pose proof (long_not_subscribed t _ Hfit Hlong) as Habsent.
  destruct (MQTT_AddSubscription_slots t q (mqtt w) (conj Hclr Hfit)) as (_ & Hfit').
  split; [done|]. split.
  { apply long_not_subscribed; [|done]. by rewrite Hm. }
  unfold MQTT_GetSubscriptions. cbn [fst snd]. rewrite Hm.
  destruct (MQTT_AddSubscription_cases t q (mqtt w) Hok Hroom)
    as [(i & s & Hfind & _)|(Hnone & i & s & Hfind & ->)].
  { apply not_subscribed_find in Habsent. congruence. }
  apply list_find_Some in Hfind as (Hi & Hs & _).
  cbn [subscriptions subscriptionCount with_state with_subscriptions
       with_subscriptionCount].
  split; [done|].
  exists {| topic := strncpy t (MQTT_TOPIC_MAX_LEN - 1); qos := q; active := true |}.
  split_and!; [|reflexivity| |reflexivity].
  - apply list_elem_of_filter. split; [done|].
    eapply list_elem_of_lookup_2. apply list_lookup_insert_eq.
    by eapply lookup_lt_Some.
  - cbn [topic]. apply strncpy_long. unfold fits, MQTT_TOPIC_MAX_LEN in Hlong. lia.
Qed.

Lemma X9_witness :
  table_ok (mqtt session_acked) /\ cleared_slots (mqtt session_acked)
  /\ topics_fit (mqtt session_acked) /\ ~ fits long_topic
  /\ MQTT_Subscribe plenty (Some long_topic) MQTT_QOS_0 session_acked
     = Some (MQTT_OK, long_subscribed)
  /\ subscribed long_topic (mqtt session_acked) = false
  /\ subscribed long_topic (mqtt long_subscribed) = false
  /\ subscriptionCount (mqtt long_subscribed)
     = subscriptionCount (mqtt session_acked) + 1
  /\ (exists s, s ∈ (MQTT_GetSubscriptions long_subscribed).1.2
                /\ topic s = strncpy long_topic 127
                /\ String.length (topic s) = 127%nat /\ qos s = MQTT_QOS_0).
Proof.
  assert (H1 : table_ok (mqtt session_acked)) by (split; reflexivity).
  assert (H2 : cleared_slots (mqtt session_acked)).
  { intros s Hs. vm_compute in Hs. elem_cases Hs; done. }
  assert (H3 : topics_fit (mqtt session_acked)).
  { intros s Hs. vm_compute in Hs. elem_cases Hs; split; vm_compute; (reflexivity || lia). }
  assert (H4 : ~ fits long_topic) by (vm_compute; lia).
  assert (H5 : MQTT_Subscribe plenty (Some long_topic) MQTT_QOS_0 session_acked
               = Some (MQTT_OK, long_subscribed)) by (vm_compute; reflexivity).
  split; [exact H1|]. split; [exact H2|]. split; [exact H3|]. split; [exact H4|].
  split; [exact H5|].
  exact (X9_long_topic_is_cut plenty long_topic MQTT_QOS_0 session_acked
           long_subscribed H1 H2 H3 H4 H5).
Defined.

(** ** Bulk operations *)

Lemma MQTT_AddSubscription_subscribed t q m :
  table_ok m -> subscriptionCount m < Z.of_nat MQTT_MAX_SUBSCRIPTIONS ->
  (fits t -> subscribed t (MQTT_AddSubscription t q m) = true)
  /\ (forall t', subscribed t' m = true ->
                 subscribed t' (MQTT_AddSubscription t q m) = true).
Proof.
  intros Hok Hroom. unfold subscribed.
  destruct (MQTT_AddSubscription_cases t q m Hok Hroom)
    as [(i & s & Hfind & ->)|(Hnone & i & s & Hfind & ->)];
    cbn [subscriptions with_subscriptions with_subscriptionCount];
    apply list_find_Some in Hfind as (Hi & Hs & _).
  - pose proof (holds_topic_active _ _ Hs) as Ha. split.
    + intros _. eapply existsb_insert_here; [done|].
      apply holds_topic_intro; [done|by apply holds_topic_cstr].
    + intros t' Ht'. by erewrite existsb_insert_same.
  - split.
    + intros Hfit. eapply existsb_insert_here; [done|]. by apply holds_new_slot.
    + intros t' Ht'. eapply existsb_insert_mono; [done| |done].
      intros Hh%holds_topic_active. congruence.
Qed.

(** One iteration of the loop of [MQTT_UnsubscribeAll] on an active slot
    below which every slot is free: the slot itself is the one removed, and
    the callback reads its topic after it was zeroed. *)
Lemma MQTT_Unsubscribe_at_slot fuel i s w w' :
  table_ok (mqtt w) -> subscriptions (mqtt w) !! i = Some s -> active s = true ->
  (forall j s', (j < i)%nat -> subscriptions (mqtt w) !! j = Some s' ->
                active s' = false) ->
  MQTT_Unsubscribe_at fuel (Ptr_slot_topic i) w = Some (MQTT_OK, w') ->
  table_ok (mqtt w')
  /\ mqtt w' = with_subscriptionCount (subscriptionCount (mqtt w) - 1)
              (with_subscriptions (<[i := zero_subscription]> (subscriptions (mqtt w)))
                 (mqtt w))
  /\ calls w' = (calls w ++ if onUnsubscribed (mqtt w)
                            then [Call_onUnsubscribed EmptyString] else [])%list.
Proof.
  intros Hok Hi Ha Hbelow. unfold MQTT_Unsubscribe_at.
  destruct (initialized (mqtt w)); [|done].
  destruct (connected (mqtt w)); [|done]. cbn [negb].
  destruct (ESP8266_SendCommandF _ _ _ _ _) as [[ret w1]|] eqn:E; [|done].
  apply ESP8266_SendCommandF_frame in E as (_ & Hm & Hc).
  destruct ret; try done. intros [= <-]. rewrite fire_mqtt, fire_calls.
  cbn [mqtt with_mqtt calls read_ptr]. rewrite Hm, Hc, Hi.
  assert (Hfind : list_find (λ s0, holds_topic (topic s) s0 = true)
                    (subscriptions (mqtt w)) = Some (i, s)).
  { apply list_find_Some. split_and!; [done|by apply holds_topic_intro|].
    intros j s' Hj Hlt Hh%holds_topic_active. by rewrite (Hbelow j s' Hlt Hj) in Hh. }
  split; [by apply MQTT_RemoveSubscription_table_ok|].
  unfold MQTT_RemoveSubscription. rewrite Hfind.
  cbn [subscriptions with_subscriptions with_subscriptionCount onUnsubscribed].
  rewrite list_lookup_insert_eq by (by eapply lookup_lt_Some).
  destruct Hok as (Hlen & Hcnt).
  pose proof (count_active_insert _ i zero_subscription s Hi) as Hca.
  cbn [active zero_subscription] in Hca. rewrite Ha in Hca.
  pose proof (count_active_le_length (subscriptions (mqtt w))).
  split; [|done]. f_equal.
  unfold uint8. apply Z.mod_small. unfold MQTT_MAX_SUBSCRIPTIONS in *. lia.
Qed.

Lemma count_active_all_free l :
  (forall j s, l !! j = Some s -> active s = false) -> count_active l = 0%nat.
Proof.
  induction l as [|a l IH]; intros H; [done|].
  rewrite count_active_cons, (H 0%nat a eq_refl), IH; [done|].
  intros j s Hj. exact (H (S j) s Hj).
Qed.

Lemma MQTT_UnsubscribeAll_loop_OK fuel n : forall i w w',
  table_ok (mqtt w) ->
  (i + n = length (subscriptions (mqtt w)))%nat ->
  (forall j s', (j < i)%nat -> subscriptions (mqtt w) !! j = Some s' ->
                active s' = false) ->
  MQTT_UnsubscribeAll_loop fuel i n w = Some (MQTT_OK, w') ->
  table_ok (mqtt w')
  /\ (forall j s', subscriptions (mqtt w') !! j = Some s' -> active s' = false)
  /\ calls w'
     = (calls w
        ++ replicate (if onUnsubscribed (mqtt w)
                      then count_active (drop i (subscriptions (mqtt w))) else 0%nat)
             (Call_onUnsubscribed EmptyString))%list.
Proof.
  induction n as [|n IH]; intros i w w' Hok Hlen Hbelow; cbn [MQTT_UnsubscribeAll_loop].
  - intros [= <-]. split; [done|]. split.
    + intros j s' Hj. apply (Hbelow j s'); [|done].
      apply lookup_lt_Some in Hj. lia.
    + rewrite drop_ge by lia. destruct (onUnsubscribed (mqtt w)); simpl;
        by rewrite app_nil_r.
  - destruct (subscriptions (mqtt w) !! i) as [s|] eqn:Hi;
      [|apply lookup_ge_None in Hi; lia].
    rewrite (drop_S _ s i Hi), count_active_cons.
    destruct (active s) eqn:Ha.
    + destruct (MQTT_Unsubscribe_at _ _ _) as [[ret w1]|] eqn:E; [|done].
      destruct ret; try done.
      destruct (MQTT_Unsubscribe_at_slot _ _ _ _ _ Hok Hi Ha Hbelow E)
        as (Hok1 & Hm & Hc).
      unfold MQTT_Delay.
      destruct (HAL_Delay_frame 100 w1) as ((_ & Hm' & Hc') & _).
      intros Hloop. apply IH in Hloop.
      * destruct Hloop as (Hok' & Hfree & Hcalls). split; [done|]. split; [done|].
        rewrite Hcalls, Hc', Hc, Hm', Hm.
        cbn [subscriptions with_subscriptions with_subscriptionCount onUnsubscribed].
        rewrite drop_insert_lt by lia.
        destruct (onUnsubscribed (mqtt w)); [|by rewrite !app_nil_r].
        by rewrite <- app_assoc.
      * by rewrite Hm'.
      * rewrite Hm', Hm. cbn [subscriptions with_subscriptions with_subscriptionCount].
        rewrite length_insert. lia.
      * rewrite Hm', Hm. cbn [subscriptions with_subscriptions with_subscriptionCount].
        intros j s' Hj Hjs. destruct (decide (j = i)) as [->|Hne].
        -- rewrite list_lookup_insert_eq in Hjs by (by eapply lookup_lt_Some).
           by injection Hjs as <-.
        -- rewrite list_lookup_insert_ne in Hjs by done.
           apply (Hbelow j s'); [lia|done].
    + intros Hloop. apply IH in Hloop; [done|done|lia|].
      intros j s' Hj Hjs. destruct (decide (j = i)) as [->|]; [congruence|].
      apply (Hbelow j s'); [lia|done].
Qed.

(** X10. [MQTT_UnsubscribeAll] on a well-formed table.  When it returns
    [MQTT_OK], every slot is free and the counter is 0.  The call hands
    [MQTT_Unsubscribe] the topic array of the slot itself, and that slot is
    zeroed before the callback runs: [onUnsubscribed], when registered, is
    called once for each subscription that was in the table, every time
    with the empty string instead of the topic that was removed. *)
Theorem X10_unsubscribe_all (fuel : nat) (w w' : World) :
  table_ok (mqtt w) ->
  MQTT_UnsubscribeAll fuel w = Some (MQTT_OK, w') ->
  count_active (subscriptions (mqtt w')) = 0%nat
  /\ subscriptionCount (mqtt w') = 0
  /\ snd (MQTT_GetSubscriptions w') = 0
  /\ calls w'
     = (calls w
        ++ replicate (if onUnsubscribed (mqtt w)
                      then count_active (subscriptions (mqtt w)) else 0%nat)
             (Call_onUnsubscribed EmptyString))%list.
Proof.
  intros Hok Hall. unfold MQTT_UnsubscribeAll in Hall.
  apply MQTT_UnsubscribeAll_loop_OK in Hall as (Hok' & Hfree & Hcalls);
    [|done|by destruct Hok as (-> & _)|intros j s' Hj; lia].
  pose proof (count_active_all_free _ Hfree) as Hzero.
  split; [done|]. split; [destruct Hok' as (_ & ->); by rewrite Hzero|].
  split; [by rewrite MQTT_GetSubscriptions_count, Hzero|].
  by rewrite Hcalls.
Qed.

Lemma X10_witness :
  table_ok (mqtt three_topics)
  /\ MQTT_UnsubscribeAll plenty three_topics = Some (MQTT_OK, three_topics_removed)
  /\ count_active (subscriptions (mqtt three_topics_removed)) = 0%nat
  /\ subscriptionCount (mqtt three_topics_removed) = 0
  /\ snd (MQTT_GetSubscriptions three_topics_removed) = 0
  /\ calls three_topics_removed
     = (calls three_topics
        ++ replicate (if onUnsubscribed (mqtt three_topics)
                      then count_active (subscriptions (mqtt three_topics))
                      else 0%nat)
             (Call_onUnsubscribed EmptyString))%list.
Proof.
  assert (H1 : table_ok (mqtt three_topics)) by (split; reflexivity).
  assert (H2 : MQTT_UnsubscribeAll plenty three_topics
               = Some (MQTT_OK, three_topics_removed)) by (vm_compute; reflexivity).
  split; [exact H1|]. split; [exact H2|].
  exact (X10_unsubscribe_all plenty three_topics three_topics_removed H1 H2).
Defined.

(** In the example the three removals are reported with the empty string,
    while the three commands on the wire name the topics. *)
Example unsubscribe_all_reports_empty_topics :
  calls three_topics_removed
  = [Call_onUnsubscribed EmptyString; Call_onUnsubscribed EmptyString;
     Call_onUnsubscribed EmptyString]
  /\ wire three_topics_removed
     = [AT_MQTTUNSUB "a"; AT_MQTTUNSUB "b"; AT_MQTTUNSUB "c"].
Proof. split; vm_compute; reflexivity. Qed.

(** Called by the application with its own string, [MQTT_Unsubscribe]
    reads the same topic at every use. *)
Lemma MQTT_Unsubscribe_at_string fuel t w :
  MQTT_Unsubscribe_at fuel (Ptr_string t) w = MQTT_Unsubscribe fuel (Some t) w.
Proof. reflexivity. Qed.


Lemma MQTT_Subscribe_null fuel q w r w' :
  MQTT_Subscribe fuel None q w = Some (r, w') -> r <> MQTT_OK.
Proof. unfold MQTT_Subscribe. intros H. by repeat (case_match; simplify_eq). Qed.

Lemma MQTT_SubscribeMultiple_loop_OK fuel topics qos' n : forall i w w',
  table_ok (mqtt w) ->
  MQTT_SubscribeMultiple_loop fuel topics qos' i n w = Some (MQTT_OK, w') ->
  table_ok (mqtt w')
  /\ (forall t', subscribed t' (mqtt w) = true -> subscribed t' (mqtt w') = true)
  /\ (forall j, (i <= j < i + n)%nat ->
        exists t, topics !! j = Some (Some t)
                  /\ (fits t -> subscribed t (mqtt w') = true)).
Proof.
  induction n as [|n IH]; intros i w w' Hok; cbn [MQTT_SubscribeMultiple_loop].
  - intros [= <-]. split; [done|]. split; [done|]. intros j Hj. lia.
  - destruct (topics !! i) as [t0|] eqn:Ht; [|done].
    destruct (qos' !! i) as [q|] eqn:Hq; [|done].
    destruct (MQTT_Subscribe fuel t0 q w) as [[ret w1]|] eqn:E; [|done].
    destruct ret; try done.
    destruct t0 as [t|]; [|by apply MQTT_Subscribe_null in E].
    pose proof (MQTT_Subscribe_table_ok _ _ _ _ _ _ E Hok) as Hok1.
    apply MQTT_Subscribe_OK in E as (Hroom & Hm).
    destruct (MQTT_AddSubscription_subscribed t q (mqtt w) Hok Hroom) as (Hnew & Hold).
    unfold MQTT_Delay. destruct (HAL_Delay_frame 100 w1) as ((_ & Hm' & _) & _).
    intros Hloop. apply IH in Hloop; [|by rewrite Hm'].
    destruct Hloop as (Hok' & Hkeep & Hrest). rewrite Hm', Hm in Hkeep.
    split; [done|]. split; [intros t' Ht'; by apply Hkeep, Hold|].
    intros j Hj. destruct (decide (j = i)) as [->|Hne]; [|apply Hrest; lia].
    exists t. split; [done|]. intros Hfit. by apply Hkeep, Hnew.
Qed.

(** X11. [MQTT_SubscribeMultiple] on a well-formed table.  When it returns
    [MQTT_OK], the count was not 0, each of the first [count] entries of
    the topic array is a non-null topic that is subscribed afterwards (if
    it fits a slot), every topic that was subscribed before still is, and
    the table holds at most 8 entries. *)
Theorem X11_subscribe_multiple (fuel : nat) (topics : list (option string))
    (qos' : list MQTT_QoS_t) (count : Z) (w w' : World) :
  table_ok (mqtt w) ->
  MQTT_SubscribeMultiple fuel (Some topics) (Some qos') count w = Some (MQTT_OK, w') ->
  count <> 0
  /\ (forall j, (j < Z.to_nat count)%nat ->
        exists t, topics !! j = Some (Some t)
                  /\ (fits t -> subscribed t (mqtt w') = true))
  /\ (forall t', subscribed t' (mqtt w) = true -> subscribed t' (mqtt w') = true)
  /\ subscriptionCount (mqtt w') <= 8.
Proof.
  intros Hok. unfold MQTT_SubscribeMultiple.
  destruct (Z.eqb_spec count 0) as [?|Hnz]; [done|].
  intros (Hok' & Hkeep & Hall)%MQTT_SubscribeMultiple_loop_OK; [|done].
  split; [done|]. split; [intros j Hj; apply Hall; lia|]. split; [done|].
  destruct (table_ok_bound _ Hok') as (_ & Hb). unfold MQTT_MAX_SUBSCRIPTIONS in Hb. lia.
Qed.

Lemma X11_witness :
  table_ok (mqtt no_topics)
  /\ MQTT_SubscribeMultiple plenty (Some example_topics) (Some example_qos) 3 no_topics
     = Some (MQTT_OK, example_subscribed)
  /\ 3 <> 0
  /\ (forall j, (j < Z.to_nat 3)%nat ->
        exists t, example_topics !! j = Some (Some t)
                  /\ (fits t -> subscribed t (mqtt example_subscribed) = true))
  /\ (forall t', subscribed t' (mqtt no_topics) = true ->
                 subscribed t' (mqtt example_subscribed) = true)
  /\ subscriptionCount (mqtt example_subscribed) <= 8.
Proof.
  assert (H1 : table_ok (mqtt no_topics)) by (split; reflexivity).
  assert (H2 : MQTT_SubscribeMultiple plenty (Some example_topics) (Some example_qos) 3
                 no_topics = Some (MQTT_OK, example_subscribed))
    by (vm_compute; reflexivity).
  split; [exact H1|]. split; [exact H2|].
  exact (X11_subscribe_multiple plenty example_topics example_qos 3 no_topics
           example_subscribed H1 H2).
Defined.

Example subscribe_multiple_fills_three_slots :
  take 4 (subscriptions (mqtt example_subscribed))
  = [ {| topic := "stm32/control"; qos := MQTT_QOS_1; active := true |};
      {| topic := "stm32/config"; qos := MQTT_QOS_0; active := true |};
      {| topic := "stm32/ota"; qos := MQTT_QOS_2; active := true |};
      zero_subscription ]
  /\ subscriptionCount (mqtt example_subscribed) = 3.
Proof. split; vm_compute; reflexivity. Qed.

(** ** Configuration *)

Lemma MQTT_OK_or_not (r : MQTT_Status_t) : r = MQTT_OK \/ r <> MQTT_OK.
Proof. destruct r; (by left) || (by right). Qed.

Lemma MQTT_SetConnConfig_OK fuel c w w' :
  MQTT_SetConnConfig fuel (Some c) w = Some (MQTT_OK, w') ->
  mqtt w' = with_state MQTT_STATE_CONN_SET (with_connConfig c (mqtt w)).
Proof.
  unfold MQTT_SetConnConfig. destruct (initialized (mqtt w)); [|done]. cbn [negb].
  destruct (ESP8266_SendCommandF _ _ _ _ _) as [[ret w1]|] eqn:E; [|done].
  apply ESP8266_SendCommandF_frame in E as (_ & Hm & _).
  destruct ret; try done. intros [= <-]. cbn [mqtt with_mqtt]. by rewrite Hm.
Qed.

Lemma MQTT_SetConnConfig_not_OK fuel c w r w' :
  MQTT_SetConnConfig fuel c w = Some (r, w') -> r <> MQTT_OK -> mqtt w' = mqtt w.
Proof.
  unfold MQTT_SetConnConfig. intros H Hr.
  repeat (case_match; simplify_eq); try done; by exchange_frames.
Qed.

(** X12. [MQTT_SetKeepAlive].  Whatever the call returns, the interval
    stored in the handle is the requested one capped at 7200 s.  On a
    session that has no user configuration yet (state below
    [MQTT_STATE_USER_SET]) nothing is sent and the call returns [MQTT_OK].
    Otherwise the connection configuration is sent again, and when that
    succeeds the state becomes [MQTT_STATE_CONN_SET], also on a session
    that is connected: the connected flag stays as it was while the state
    falls back from "connected" to "configured". *)
Theorem X12_keep_alive (fuel : nat) (k : Z) (w : World) (r : MQTT_Status_t) (w' : World) :
  MQTT_SetKeepAlive fuel k w = Some (r, w') ->
  keepAlive (connConfig (mqtt w')) = Z.min k 7200
  /\ (state (mqtt w) < MQTT_STATE_USER_SET ->
      r = MQTT_OK /\ wire w' = wire w /\ state (mqtt w') = state (mqtt w))
  /\ (MQTT_STATE_USER_SET <= state (mqtt w) -> r = MQTT_OK ->
      state (mqtt w') = MQTT_STATE_CONN_SET
      /\ connected (mqtt w') = connected (mqtt w)
      /\ subscriptions (mqtt w') = subscriptions (mqtt w)).
Proof.
  unfold MQTT_SetKeepAlive. cbn [mqtt with_mqtt state with_connConfig connConfig].
  assert (Hmin : (if k >? 7200 then 7200 else k) = Z.min k 7200)
    by (destruct (Z.gtb_spec k 7200); lia).
  rewrite Hmin.
  destruct (Z.geb_spec (state (mqtt w)) MQTT_STATE_USER_SET) as [Hge|Hlt].
  - intros Hset. split; [|split; [lia|]].
    + destruct (MQTT_OK_or_not r) as [->|Hr].
      * apply MQTT_SetConnConfig_OK in Hset. by rewrite Hset.
      * apply MQTT_SetConnConfig_not_OK in Hset; [|done]. by rewrite Hset.
    + intros _ ->. apply MQTT_SetConnConfig_OK in Hset. by rewrite Hset.
  - intros [= <- <-]. split; [done|]. split; [done|]. lia.
Qed.

Lemma X12_witness :
  MQTT_SetKeepAlive plenty 9000 two_exchanges = Some (MQTT_OK, keep_alive_set)
  /\ keepAlive (connConfig (mqtt keep_alive_set)) = Z.min 9000 7200
  /\ (state (mqtt two_exchanges) < MQTT_STATE_USER_SET ->
      MQTT_OK = MQTT_OK /\ wire keep_alive_set = wire two_exchanges
      /\ state (mqtt keep_alive_set) = state (mqtt two_exchanges))
  /\ (MQTT_STATE_USER_SET <= state (mqtt two_exchanges) -> MQTT_OK = MQTT_OK ->
      state (mqtt keep_alive_set) = MQTT_STATE_CONN_SET
      /\ connected (mqtt keep_alive_set) = connected (mqtt two_exchanges)
      /\ subscriptions (mqtt keep_alive_set) = subscriptions (mqtt two_exchanges)).
Proof.
  assert (H1 : MQTT_SetKeepAlive plenty 9000 two_exchanges
               = Some (MQTT_OK, keep_alive_set)) by (vm_compute; reflexivity).
  split; [exact H1|].
  exact (X12_keep_alive plenty 9000 two_exchanges MQTT_OK keep_alive_set H1).
Defined.

(** In the example the session is connected with one subscription before
    and after the call; only the state changes. *)
Example keep_alive_resets_the_state :
  (connected (mqtt two_exchanges), state (mqtt two_exchanges))
  = (true, MQTT_STATE_CONN_WITH_SUB)
  /\ (connected (mqtt keep_alive_set), state (mqtt keep_alive_set),
      keepAlive (connConfig (mqtt keep_alive_set)))
     = (true, MQTT_STATE_CONN_SET, 7200)
  /\ wire keep_alive_set
     = ["AT+MQTTCONNCFG=0,7200,0," +:+ DQ +:+ DQ +:+ "," +:+ DQ +:+ DQ +:+ ",0,0"
        +:+ CRLF].
Proof. split_and!; vm_compute; reflexivity. Qed.

Lemma MQTT_SetUserConfigSimple_OK fuel c u p w w' :
  MQTT_SetUserConfigSimple fuel c u p w = Some (MQTT_OK, w') ->
  exists cid, c = Some cid
    /\ clientId (userConfig (mqtt w')) = strncpy cid (MQTT_CLIENT_ID_MAX_LEN - 1)
    /\ brokerConfig (mqtt w') = brokerConfig (mqtt w)
    /\ onConnected (mqtt w') = onConnected (mqtt w).
Proof.
  unfold MQTT_SetUserConfigSimple. destruct (initialized (mqtt w)); [|done]. cbn [negb].
  destruct c as [cid|]; [|done].
  destruct (ESP8266_SendCommandF _ _ _ _ _) as [[ret w1]|] eqn:E; [|done].
  apply ESP8266_SendCommandF_frame in E as (_ & Hm & _).
  destruct ret; try done. intros [= <-]. exists cid. cbn. by rewrite Hm.
Qed.

Lemma MQTT_Connect_result fuel w r w' :
  MQTT_Connect fuel w = Some (r, w') ->
  (r = MQTT_OK /\ connected (mqtt w') = true
   /\ state (mqtt w') = MQTT_STATE_CONN_NO_SUB)
  \/ (r = MQTT_CONNECT_FAIL /\ connected (mqtt w') = false
      /\ state (mqtt w') = MQTT_STATE_DISCONNECTED).
Proof.
  unfold MQTT_Connect.
  destruct (ESP8266_SendCommandF _ _ _ _ _) as [[ret w1]|] eqn:E; [|done].
  destruct ret; intros [= <- <-]; rewrite fire_mqtt; [left|right..]; done.
Qed.

Lemma MQTT_Connect_config fuel w r w' :
  MQTT_Connect fuel w = Some (r, w') ->
  brokerConfig (mqtt w') = brokerConfig (mqtt w)
  /\ userConfig (mqtt w') = userConfig (mqtt w).
Proof.
  unfold MQTT_Connect.
  destruct (ESP8266_SendCommandF _ _ _ _ _) as [[ret w1]|] eqn:E; [|done].
  apply ESP8266_SendCommandF_frame in E as (_ & Hm & _).
  destruct ret; intros [= <- <-]; rewrite fire_mqtt; cbn; by rewrite Hm.
Qed.

(** X13. [MQTT_ConnectToBroker] is the sequence user configuration,
    broker, connect, and stops at the first step that fails.  The call
    returns [MQTT_OK] only if the client id and the host are non-null and
    both exchanges succeeded; the session is then connected, in state
    [MQTT_STATE_CONN_NO_SUB], with the client id (cut to 63 characters),
    the host (cut to 127 characters) and the port stored and automatic
    reconnection enabled.  When it returns [MQTT_CONNECT_FAIL] the session
    is left not connected, in state [MQTT_STATE_DISCONNECTED].  In every
    case the subscription table is as before the call. *)
Theorem X13_connect_to_broker (fuel : nat) (host' : option string) (port' : Z)
    (clientId' username' password' : option string) (w : World)
    (r : MQTT_Status_t) (w' : World) :
  MQTT_ConnectToBroker fuel host' port' clientId' username' password' w
  = Some (r, w') ->
  (r = MQTT_OK ->
   connected (mqtt w') = true /\ state (mqtt w') = MQTT_STATE_CONN_NO_SUB
   /\ exists h cid,
        host' = Some h /\ clientId' = Some cid
        /\ brokerConfig (mqtt w')
           = {| host := strncpy h 127; port := port'; reconnect := 1 |}
        /\ clientId (userConfig (mqtt w')) = strncpy cid 63)
  /\ (r = MQTT_CONNECT_FAIL ->
      connected (mqtt w') = false /\ state (mqtt w') = MQTT_STATE_DISCONNECTED)
  /\ subscriptions (mqtt w') = subscriptions (mqtt w)
  /\ subscriptionCount (mqtt w') = subscriptionCount (mqtt w).
Proof.
  unfold MQTT_ConnectToBroker.
  destruct (MQTT_SetUserConfigSimple _ _ _ _ _) as [[r1 w1]|] eqn:E1; [|done].
  pose proof (MQTT_SetUserConfigSimple_table _ _ _ _ _ _ _ E1) as (Hs1 & Hc1).
  destruct (MQTT_OK_or_not r1) as [->|Hr1].
  2:{ intros Hr. assert (r = r1 /\ w' = w1) as (-> & ->)
        by (destruct r1; by simplify_eq).
      split; [done|]. split; [|done].
      intros ->. unfold MQTT_SetUserConfigSimple in E1.
      by repeat (case_match; simplify_eq). }
  apply MQTT_SetUserConfigSimple_OK in E1 as (cid & -> & Hcid & _ & _).
  unfold MQTT_SetBroker. destruct host' as [h|].
  2:{ intros [= <- <-]. done. }
  intros Hconn. pose proof (MQTT_Connect_table _ _ _ _ Hconn) as (Hs2 & Hc2).
  pose proof (MQTT_Connect_config _ _ _ _ Hconn) as (Hb & Hu).
  cbn [mqtt with_mqtt subscriptions subscriptionCount with_brokerConfig brokerConfig
       userConfig] in Hs2, Hc2, Hb, Hu.
  destruct (MQTT_Connect_result _ _ _ _ Hconn) as [(-> & Hco & Hst)|(-> & Hco & Hst)].
  - split; [|split; [done|split; congruence]].
    intros _. split; [done|]. split; [done|]. exists h, cid.
    split; [done|]. split; [done|]. split; [by rewrite Hb|by rewrite Hu].
  - split; [done|]. split; [done|]. split; congruence.
Qed.

Lemma X13_witness :
  MQTT_ConnectToBroker plenty (Some "broker.emqx.io") 1883 (Some "STM32F407_Client")
    (Some "stm32") None initialized_session = Some (MQTT_OK, broker_connected)
  /\ (MQTT_OK = MQTT_OK ->
      connected (mqtt broker_connected) = true
      /\ state (mqtt broker_connected) = MQTT_STATE_CONN_NO_SUB
      /\ exists h cid,
           Some "broker.emqx.io" = Some h /\ Some "STM32F407_Client" = Some cid
           /\ brokerConfig (mqtt broker_connected)
              = {| host := strncpy h 127; port := 1883; reconnect := 1 |}
           /\ clientId (userConfig (mqtt broker_connected)) = strncpy cid 63)
  /\ (MQTT_OK = MQTT_CONNECT_FAIL ->
      connected (mqtt broker_connected) = false
      /\ state (mqtt broker_connected) = MQTT_STATE_DISCONNECTED)
  /\ subscriptions (mqtt broker_connected) = subscriptions (mqtt initialized_session)
  /\ subscriptionCount (mqtt broker_connected)
     = subscriptionCount (mqtt initialized_session).
Proof.
  assert (H1 : MQTT_ConnectToBroker plenty (Some "broker.emqx.io") 1883
                 (Some "STM32F407_Client") (Some "stm32") None initialized_session
               = Some (MQTT_OK, broker_connected)) by (vm_compute; reflexivity).
  split; [exact H1|].
  exact (X13_connect_to_broker plenty (Some "broker.emqx.io") 1883
           (Some "STM32F407_Client") (Some "stm32") None initialized_session
           MQTT_OK broker_connected H1).
Defined.

(** ** Publishing *)

Lemma MQTT_Publish_wait_effect fuel t start : forall w r w',
  MQTT_Publish_wait fuel t start w = Some (r, w') ->
  (r = MQTT_OK
   /\ publishCount (mqtt w') = uint32 (publishCount (mqtt w) + 1)
   /\ calls w' = (calls w ++ if onPublishComplete (mqtt w)
                             then [Call_onPublishComplete (cstr t)] else [])%list)
  \/ (r <> MQTT_OK /\ mqtt w' = mqtt w /\ calls w' = calls w).
Proof.
  induction fuel as [|f IH]; intros w r w'; cbn [MQTT_Publish_wait]; [done|].
  destruct (_ <? _); [|intros [= <- <-]; by right].
  destruct (_ || _); [intros [= <- <-]; left; by rewrite fire_mqtt, fire_calls|].
  destruct (_ || _); [intros [= <- <-]; by right|].
  destruct (HAL_Delay_frame 10 w) as ((_ & Hm & Hc) & _).
  intros H. apply IH in H. by rewrite Hm, Hc in H.
Qed.

(** X14. The publish counter counts exactly the publishes that were
    reported as done.  When [MQTT_Publish] or [MQTT_PublishRaw] returns
    [MQTT_OK], [publishCount] went up by one (modulo 2^32) and
    [onPublishComplete], when registered, was called once with the topic;
    with any other result the handle is as it was and no callback was
    called. *)
Theorem X14_publish_is_counted (fuel : nat) (t d : option string) (len : Z)
    (q : MQTT_QoS_t) (rt : Z) (w : World) (r : MQTT_Status_t) (w' : World) :
  MQTT_Publish fuel t d q rt w = Some (r, w')
  \/ MQTT_PublishRaw fuel t d len q rt w = Some (r, w') ->
  (r = MQTT_OK ->
   publishCount (mqtt w') = uint32 (publishCount (mqtt w) + 1)
   /\ exists t0, t = Some t0
        /\ calls w' = (calls w ++ if onPublishComplete (mqtt w)
                                  then [Call_onPublishComplete (cstr t0)]
                                  else [])%list)
  /\ (r <> MQTT_OK -> mqtt w' = mqtt w /\ calls w' = calls w).
Proof.
  intros [H|H].
  - unfold MQTT_Publish in H.
    destruct t as [t0|]; [|by simplify_eq].
    destruct d as [m|]; [|by simplify_eq].
    destruct (ESP8266_SendCommandF _ _ _ _ _) as [[r1 w1]|] eqn:E1; [|done].
    apply ESP8266_SendCommandF_frame in E1 as (_ & Hm1 & Hc1).
    destruct r1; simplify_eq; try (split; [done|intros _; by split]).
    destruct (ESP8266_SendDMA _ _ _ _) as [[r2 w2]|] eqn:E2; [|done].
    apply ESP8266_SendDMA_frame in E2 as (_ & Hm2 & Hc2).
    cbn [mqtt calls ESP8266_ClearBuffer with_esp8266] in Hm2, Hc2.
    destruct r2; simplify_eq; try (split; [done|intros _; split; congruence]).
    apply MQTT_Publish_wait_effect in H as [(-> & Hp & Hc)|(Hr & Hm & Hc)].
    + split; [|done]. intros _. rewrite Hp, Hc, Hm2, Hc2, Hm1, Hc1.
      split; [done|]. by exists t0.
    + split; [done|]. intros _. split; congruence.
  - unfold MQTT_PublishRaw in H.
    destruct t as [t0|]; [|by simplify_eq].
    destruct d as [m|]; [|by simplify_eq].
    destruct (len =? 0); [by simplify_eq|].
    destruct (ESP8266_SendCommandF _ _ _ _ _) as [[r1 w1]|] eqn:E1; [|done].
    apply ESP8266_SendCommandF_frame in E1 as (_ & Hm1 & Hc1).
    destruct r1; simplify_eq; try (split; [done|intros _; by split]).
    destruct (ESP8266_SendDMA _ _ _ _) as [[r2 w2]|] eqn:E2; [|done].
    apply ESP8266_SendDMA_frame in E2 as (_ & Hm2 & Hc2).
    cbn [mqtt calls ESP8266_ClearBuffer with_esp8266] in Hm2, Hc2.
    destruct r2; simplify_eq; try (split; [done|intros _; split; congruence]).
    destruct (ESP8266_WaitForResponse _ _ _ _) as [[found w3]|] eqn:E3; [|done].
    apply ESP8266_WaitForResponse_frame in E3 as (_ & Hm3 & Hc3).
    destruct found; simplify_eq.
    + split; [|done]. intros _. rewrite fire_mqtt, fire_calls.
      cbn [mqtt with_mqtt calls publishCount with_publishCount onPublishComplete].
      rewrite Hm3, Hc3, Hm2, Hc2, Hm1, Hc1. split; [done|]. by exists t0.
    + split; [done|]. intros _. split; congruence.
Qed.

Lemma X14_witness :
  (MQTT_Publish plenty (Some "t") (Some "m") MQTT_QOS_0 0 never_connected
   = Some (MQTT_OK, published)
   \/ MQTT_PublishRaw plenty (Some "t") (Some "m") 1 MQTT_QOS_0 0 never_connected
      = Some (MQTT_OK, published))
  /\ (MQTT_OK = MQTT_OK ->
      publishCount (mqtt published) = uint32 (publishCount (mqtt never_connected) + 1)
      /\ exists t0, Some "t" = Some t0
           /\ calls published
              = (calls never_connected
                 ++ if onPublishComplete (mqtt never_connected)
                    then [Call_onPublishComplete (cstr t0)] else [])%list)
  /\ (MQTT_OK <> MQTT_OK ->
      mqtt published = mqtt never_connected /\ calls published = calls never_connected).
Proof.
  assert (H1 : MQTT_Publish plenty (Some "t") (Some "m") MQTT_QOS_0 0 never_connected
               = Some (MQTT_OK, published)
               \/ MQTT_PublishRaw plenty (Some "t") (Some "m") 1 MQTT_QOS_0 0
                    never_connected = Some (MQTT_OK, published))
    by (left; vm_compute; reflexivity).
  split; [exact H1|].
  exact (X14_publish_is_counted plenty (Some "t") (Some "m") 1 MQTT_QOS_0 0
           never_connected MQTT_OK published H1).
Defined.

Lemma bytes_cstr (m : string) : bytes m (String.length (cstr m)) = cstr m.
Proof.
  induction m as [|c m IH]; [done|]. rewrite cstr_cons.
  destruct (Ascii.eqb c NUL); [done|]. simpl. by rewrite ptr_add_0, IH.
Qed.

Lemma length_cstr_le (m : string) : (String.length (cstr m) <= String.length m)%nat.
Proof.
  induction m as [|c m IH]; [done|]. rewrite cstr_cons.
  destruct (Ascii.eqb c NUL); simpl; lia.
Qed.

(** The transport looks at its data only through the bytes it sends. *)
Lemma ESP8266_SendDMA_bytes fuel d1 d2 len w :
  bytes d1 (Z.to_nat len) = bytes d2 (Z.to_nat len) ->
  ESP8266_SendDMA fuel (Some d1) len w = ESP8266_SendDMA fuel (Some d2) len w.
Proof.
  intros Hb. unfold ESP8266_SendDMA. destruct (len =? 0); [done|].
  destruct (ESP8266_SendDMA_wait_idle _ _ _) as [[[st|] w1]|]; [done| |done].
  unfold HAL_UART_Transmit_DMA. by rewrite Hb.
Qed.

(** [MQTT_Publish] sends its message as a C string: what follows the
    first zero byte of the array does not matter. *)
Lemma MQTT_Publish_cstr fuel t m q rt w :
  Z.of_nat (String.length m) < 2 ^ 16 ->
  MQTT_Publish fuel t (Some m) q rt w = MQTT_Publish fuel t (Some (cstr m)) q rt w.
Proof.
  intros Hlen. unfold MQTT_Publish, strlen. rewrite cstr_idem.
  destruct t as [t0|]; [|done].
  destruct (ESP8266_SendCommandF _ _ _ _ _) as [[r1 w1]|]; [|done].
  destruct r1; try done.
  pose proof (length_cstr_le m).
  assert (Hu : uint16 (Z.of_nat (String.length (cstr m)))
               = Z.of_nat (String.length (cstr m)))
    by (unfold uint16; apply Z.mod_small; lia).
  rewrite (ESP8266_SendDMA_bytes _ m (cstr m)); [done|].
  rewrite Hu, Nat2Z.id, bytes_cstr. pose proof (bytes_cstr (cstr m)) as H'.
  by rewrite cstr_idem in H'.
Qed.

(** X15. [MQTT_PublishData] is not binary safe below 1024 bytes.  On a
    connected session, data of 1 to 1023 bytes is copied, terminated and
    handed to [MQTT_Publish] as a string, so what is announced in the
    command and sent as payload is the part of the data before its first
    zero byte, never more than [len] bytes; the call behaves exactly as the
    publish of that string. *)
Theorem X15_publish_data_stops_at_zero (fuel : nat) (t d : string) (len : Z)
    (q : MQTT_QoS_t) (rt : Z) (w : World) :
  initialized (mqtt w) = true -> connected (mqtt w) = true ->
  0 < len < Z.of_nat MQTT_MESSAGE_MAX_LEN ->
  MQTT_PublishData fuel (Some t) (Some d) len q rt w
  = MQTT_Publish fuel (Some t) (Some (cstr (bytes d (Z.to_nat len)))) q rt w
  /\ strlen (cstr (bytes d (Z.to_nat len))) <= len.
Proof.
  intros Hinit Hconn Hlen. unfold MQTT_PublishData. rewrite Hinit, Hconn. cbn [negb].
  destruct (Z.eqb_spec len 0) as [?|_]; [lia|].
  destruct (Z.ltb_spec len (Z.of_nat MQTT_MESSAGE_MAX_LEN)) as [_|?]; [|lia].
  pose proof (length_bytes d (Z.to_nat len)) as Hb.
  unfold MQTT_MESSAGE_MAX_LEN in Hlen. split.
  - apply MQTT_Publish_cstr. lia.
  - unfold strlen. rewrite cstr_idem.
    pose proof (length_cstr_le (bytes d (Z.to_nat len))). lia.
Qed.

Lemma X15_witness :
  initialized (mqtt publishing_session) = true
  /\ connected (mqtt publishing_session) = true
  /\ 0 < 5 < Z.of_nat MQTT_MESSAGE_MAX_LEN
  /\ MQTT_PublishData plenty (Some "t") (Some binary_data) 5 MQTT_QOS_0 0
       publishing_session
     = MQTT_Publish plenty (Some "t") (Some (cstr (bytes binary_data (Z.to_nat 5))))
         MQTT_QOS_0 0 publishing_session
  /\ strlen (cstr (bytes binary_data (Z.to_nat 5))) <= 5.
Proof.
  assert (H1 : initialized (mqtt publishing_session) = true) by reflexivity.
  assert (H2 : connected (mqtt publishing_session) = true) by reflexivity.
  assert (H3 : 0 < 5 < Z.of_nat MQTT_MESSAGE_MAX_LEN)
    by (unfold MQTT_MESSAGE_MAX_LEN; lia).
  split; [exact H1|]. split; [exact H2|]. split; [exact H3|].
  exact (X15_publish_data_stops_at_zero plenty "t" binary_data 5 MQTT_QOS_0 0
           publishing_session H1 H2 H3).
Defined.

(** In the example five bytes are given, two are announced and sent, and
    the call reports success. *)
Example publish_data_cuts_binary_data :
  MQTT_PublishData plenty (Some "t") (Some binary_data) 5 MQTT_QOS_0 0
    publishing_session = Some (MQTT_OK, binary_published)
  /\ wire binary_published = [AT_MQTTPUBRAW "t" 2 MQTT_QOS_0 0; "ab"].
Proof. split; vm_compute; reflexivity. Qed.
(** ** How long a command blocks, and what it transmits *)

Lemma elapsed_since (n0 : Z) (w : World) :
  0 <= now w - n0 < 2 ^ 32 -> uint32 (HAL_GetTick w - uint32 n0) = now w - n0.
Proof.
  intros H. unfold HAL_GetTick, uint32. rewrite <- Zminus_mod. by apply Z.mod_small.
Qed.

Lemma HAL_Delay_now (ms : Z) (w : World) :
  0 <= ms -> now (HAL_Delay ms w) = now w + ms /\ wire (HAL_Delay ms w) = wire w.
Proof.
  intros H. rewrite HAL_Delay_to_after.
  destruct (after_frame (Z.to_nat ms) w) as (_ & -> & ->). split; [lia|done].
Qed.

Ltac returned_here :=
  intros [= <- <-]; cbn [now wire with_esp8266]; split_and!; (lia || done).

Ltac after_delay IH H :=
  apply IH in H; [|lia..];
  match goal with Hn : now (HAL_Delay _ _) = _, Hw : wire (HAL_Delay _ _) = _ |- _ =>
    rewrite Hn, Hw in H end;
  destruct H as (? & ? & ?); split_and!; (lia || done).

Lemma wait_idle_now (fuel : nat) (n0 : Z) : forall w r w',
  0 <= now w - n0 <= 1001 ->
  ESP8266_SendDMA_wait_idle fuel (uint32 n0) w = Some (r, w') ->
  now w <= now w' /\ now w' - n0 <= 1001 /\ wire w' = wire w.
Proof.
  induction fuel as [|f IH]; intros w r w' Hn; cbn [ESP8266_SendDMA_wait_idle]; [done|].
  destruct (txBusy (esp8266 w)); [|returned_here].
  rewrite elapsed_since by lia.
  destruct (Z.gtb_spec (now w - n0) 1000) as [?|?]; [returned_here|].
  unfold ESP8266_Delay. destruct (HAL_Delay_now 1 w) as (Hn1 & Hw1); [lia|].
  intros Hr. after_delay IH Hr.
Qed.

Lemma wait_done_now (fuel : nat) (n0 : Z) : forall w r w',
  0 <= now w - n0 <= 5001 ->
  ESP8266_SendDMA_wait_done fuel (uint32 n0) w = Some (r, w') ->
  now w <= now w' /\ now w' - n0 <= 5001 /\ wire w' = wire w.
Proof.
  induction fuel as [|f IH]; intros w r w' Hn; cbn [ESP8266_SendDMA_wait_done]; [done|].
  destruct (txBusy (esp8266 w)); [|returned_here].
  rewrite elapsed_since by lia.
  destruct (Z.gtb_spec (now w - n0) 5000) as [?|?]; [returned_here|].
  unfold ESP8266_Delay. destruct (HAL_Delay_now 1 w) as (Hn1 & Hw1); [lia|].
  intros Hr. after_delay IH Hr.
Qed.

Lemma wait_response_now (fuel : nat) (t : string) (d n0 : Z) : forall w r w',
  0 <= d <= 2 ^ 32 - 10 -> 0 <= now w - n0 <= d + 9 ->
  ESP8266_WaitForResponse_loop fuel t d (uint32 n0) w = Some (r, w') ->
  now w <= now w' /\ now w' - n0 <= d + 9 /\ wire w' = wire w.
Proof.
  induction fuel as [|f IH]; intros w r w' Hd Hn;
    cbn [ESP8266_WaitForResponse_loop]; [done|].
  rewrite elapsed_since by lia.
  destruct (Z.ltb_spec (now w - n0) d) as [?|?]; [|returned_here].
  destruct (ESP8266_ContainsString t w); [returned_here|].
  unfold ESP8266_Delay. destruct (HAL_Delay_now 10 w) as (Hn1 & Hw1); [lia|].
  intros Hr. after_delay IH Hr.
Qed.

(** A transmission takes at most 1001 ms to get the slot and at most
    5001 ms to complete, and puts its bytes on the wire at most once. *)
Lemma ESP8266_SendDMA_now (fuel : nat) (data' : option string) (len : Z)
    (w : World) (r : ESP8266_Status_t) (w' : World) :
  ESP8266_SendDMA fuel data' len w = Some (r, w') ->
  now w <= now w' <= now w + 6002
  /\ (wire w' = wire w
      \/ exists d, data' = Some d /\ wire w' = (wire w ++ [bytes d (Z.to_nat len)])%list).
Proof.
  unfold ESP8266_SendDMA. destruct data' as [d|]; [|intros [= <- <-]; split; [lia|by left]].
  destruct (len =? 0); [intros [= <- <-]; split; [lia|by left]|].
  unfold HAL_GetTick at 1.
  destruct (ESP8266_SendDMA_wait_idle _ _ _) as [[[st|] w1]|] eqn:E1; [| |done].
  { apply wait_idle_now in E1; [|lia]. intros [= <- <-]. split; [lia|left; apply E1]. }
  apply wait_idle_now in E1; [|lia]. destruct E1 as (Hn1 & Hn1' & Hw1).
  unfold HAL_UART_Transmit_DMA. cbn [board now with_esp8266].
  destruct (uart_tx_dma (board w1) (now w1)).
  2-4: intros [= <- <-]; cbn [now wire with_esp8266]; split; [lia|by left].
  unfold HAL_GetTick. cbn [now transmit].
  destruct (ESP8266_SendDMA_wait_done _ _ _) as [[r2 w4]|] eqn:E2; [|done].
  apply wait_done_now in E2; [|cbn [now transmit with_esp8266]; lia].
  cbn [now wire transmit with_esp8266] in E2. destruct E2 as (Hn2 & Hn2' & Hw2).
  intros H. assert (w' = w4) as -> by (destruct r2; congruence).
  split; [lia|]. right. exists d. split; [done|]. by rewrite Hw2, Hw1.
Qed.

Lemma bytes_strlen (cmd : string) :
  strlen cmd < 2 ^ 16 -> bytes cmd (Z.to_nat (uint16 (strlen cmd))) = cstr cmd.
Proof.
  intros H. unfold uint16. rewrite Z.mod_small by (unfold strlen in *; lia).
  unfold strlen. by rewrite Nat2Z.id, bytes_cstr.
Qed.

(** X16. [ESP8266_SendCommand] returns, and blocks its caller for at most
    6002 ms of transmission plus the timeout rounded up to the next look at
    the buffer, that is at most [timeout + 9] ms more.  It leaves the
    session alone and puts at most one transmission on the wire, the
    command text; it puts none when the transmit slot was not obtained or
    the DMA refused to start, and the wait for the response takes place all
    the same. *)
Theorem X16_command_returns_in_time (fuel : nat) (cmd : string)
    (expected : option string) (d : Z) (w : World) :
  0 <= d <= 2 ^ 32 - 10 -> 5002 <= Z.of_nat fuel -> d / 10 + 2 <= Z.of_nat fuel ->
  strlen cmd < 2 ^ 16 ->
  exists r w',
    ESP8266_SendCommand fuel (Some cmd) expected d w = Some (r, w')
    /\ now w <= now w' <= now w + 6002 + (d + 9)
    /\ (wire w' = wire w \/ wire w' = (wire w ++ [cstr cmd])%list)
    /\ same_session w w'.
Proof.
  intros Hd Hf1 Hf2 Hlen.
  destruct (ESP8266_SendCommand_total fuel (Some cmd) expected d w) as (r & w' & E);
    [done..|].
  exists r, w'. split; [done|].
  split; [|split; [|by eapply ESP8266_SendCommand_frame]];
    revert E; unfold ESP8266_SendCommand;
    destruct (ESP8266_SendDMA _ _ _ _) as [[r1 w1]|] eqn:E1; try done;
    apply ESP8266_SendDMA_now in E1; cbn [now wire ESP8266_ClearBuffer with_esp8266] in E1;
    destruct E1 as (Hn1 & Hw1);
    (destruct expected as [e|]; [|intros [= <- <-]]).
  - unfold ESP8266_WaitForResponse, HAL_GetTick.
    destruct (ESP8266_WaitForResponse_loop _ _ _ _ _) as [[found w2]|] eqn:E2; [|done].
    apply wait_response_now in E2; [|done|lia]. intros H.
    assert (w' = w2) as -> by (repeat case_match; congruence). lia.
  - lia.
  - destruct (ESP8266_WaitForResponse _ _ _ _) as [[found w2]|] eqn:E2; [|done].
    apply ESP8266_WaitForResponse_wire in E2. intros H.
    assert (w' = w2) as -> by (repeat case_match; congruence). rewrite E2.
    destruct Hw1 as [->|(c & [= <-] & ->)]; [by left|right]. by rewrite bytes_strlen.
  - destruct Hw1 as [->|(c & [= <-] & ->)]; [by left|right]. by rewrite bytes_strlen.
Qed.

Lemma X16_witness :
  0 <= 3000 <= 2 ^ 32 - 10 /\ 5002 <= Z.of_nat plenty
  /\ 3000 / 10 + 2 <= Z.of_nat plenty /\ strlen ("AT" +:+ CRLF) < 2 ^ 16
  /\ exists r w',
       ESP8266_SendCommand plenty (Some ("AT" +:+ CRLF)) (Some "OK") 3000 late_answer
       = Some (r, w')
       /\ now late_answer <= now w' <= now late_answer + 6002 + (3000 + 9)
       /\ (wire w' = wire late_answer
           \/ wire w' = (wire late_answer ++ [cstr ("AT" +:+ CRLF)])%list)
       /\ same_session late_answer w'.
Proof.
  assert (H1 : 0 <= 3000 <= 2 ^ 32 - 10) by lia.
  assert (H2 : 5002 <= Z.of_nat plenty) by (unfold plenty; lia).
  assert (H3 : 3000 / 10 + 2 <= Z.of_nat plenty) by (vm_compute; discriminate).
  assert (H4 : strlen ("AT" +:+ CRLF) < 2 ^ 16) by (vm_compute; reflexivity).
  split; [exact H1|]. split; [exact H2|]. split; [exact H3|]. split; [exact H4|].
  exact (X16_command_returns_in_time plenty ("AT" +:+ CRLF) (Some "OK") 3000
           late_answer H1 H2 H3 H4).
Defined.

(** ** The receive event *)

Lemma cstr_app_nul (a b : string) : cstr (a +:+ String NUL b) = cstr a.
Proof.
  induction a as [|x a IH]; app_norm; [done|]. rewrite !cstr_cons.
  destruct (Ascii.eqb x NUL); [done|]. by rewrite IH.
Qed.

Lemma prefix_empty (p : string) : String.prefix EmptyString p = true.
Proof. by destruct p. Qed.

(** A needle without zero byte does not match across a zero byte. *)
Lemma prefix_nul_cut (b : string) : forall n a,
  cstr n = n -> String.prefix n (a +:+ String NUL b) = String.prefix n a.
Proof.
  induction n as [|c n IH]; intros a Hn; [by rewrite !prefix_empty|].
  rewrite cstr_cons in Hn. destruct (Ascii.eqb_spec c NUL) as [|Hc]; [done|].
  injection Hn as Hn.
  destruct a as [|x a]; app_norm.
  - rewrite prefix_cons. by destruct (ascii_dec c NUL).
  - rewrite !prefix_cons. destruct (ascii_dec c x); [by apply IH|done].
Qed.

Lemma contains_nul_cut (t b : string) : forall a,
  contains (a +:+ String NUL b) t = contains a t.
Proof.
  unfold contains. induction a as [|x a IH]; app_norm.
  - rewrite !strstr_eq, (prefix_nul_cut b _ EmptyString) by apply cstr_idem.
    app_norm. destruct (String.prefix _ _); [done|]. by rewrite Ascii.eqb_refl.
  - rewrite (strstr_eq (String x _)), (strstr_eq (String x a)).
    rewrite <- app_cons, prefix_nul_cut by apply cstr_idem.
    destruct (String.prefix _ _); [done|].
    destruct (Ascii.eqb x NUL); [done|]. exact IH.
Qed.

(** X17. A non-empty receive event replaces the response buffer: after it
    the buffer reads as the received bytes, whatever it held before, so a
    search for a token answers as a search in this one piece.  What an
    earlier event delivered is no longer found, and a token that arrives
    split over two events is never found. *)
Theorem X17_receive_event_replaces_the_buffer (received : string) (w : World) :
  received <> EmptyString ->
  let w' := HAL_UARTEx_RxEventCallback received w in
  cstr (rxBuffer (esp8266 w')) = cstr received
  /\ (forall t, ESP8266_ContainsString t w' = contains received t)
  /\ rxLength (esp8266 w') = Z.of_nat (String.length received)
  /\ rxComplete (esp8266 w') = true
  /\ txBusy (esp8266 w') = txBusy (esp8266 w)
  /\ same_session w w'.
Proof.
  intros Hne w'. subst w'. unfold HAL_UARTEx_RxEventCallback.
  destruct (Z.ltb_spec 0 (Z.of_nat (String.length received))) as [_|Hz].
  2:{ destruct received; [done|simpl in Hz; lia]. }
  unfold ESP8266_ContainsString. cbn [esp8266 with_esp8266 rxBuffer with_rx rxLength
    rxComplete txBusy]. unfold receive_into.
  split; [apply cstr_app_nul|]. split; [|done].
  intros t. apply contains_nul_cut.
Qed.

Lemma X17_witness :
  "K" <> EmptyString
  /\ let w' := HAL_UARTEx_RxEventCallback "K" first_piece in
     cstr (rxBuffer (esp8266 w')) = cstr "K"
     /\ (forall t, ESP8266_ContainsString t w' = contains "K" t)
     /\ rxLength (esp8266 w') = Z.of_nat (String.length "K")
     /\ rxComplete (esp8266 w') = true
     /\ txBusy (esp8266 w') = txBusy (esp8266 first_piece)
     /\ same_session first_piece w'.
Proof.
  assert (H1 : "K" <> EmptyString) by discriminate.
  split; [exact H1|].
  exact (X17_receive_event_replaces_the_buffer "K" first_piece H1).
Defined.

(** The two letters of OK, delivered by two events, are not found. *)
Example split_answer_is_not_found :
  ESP8266_ContainsString "O" first_piece = true
  /\ ESP8266_ContainsString "OK" (HAL_UARTEx_RxEventCallback "K" first_piece) = false
  /\ ESP8266_ContainsString "O" (HAL_UARTEx_RxEventCallback "K" first_piece) = false.
Proof. split_and!; vm_compute; reflexivity. Qed.
(** ** Opening a connection *)

Lemma cstr_app_free (a b : string) :
  cstr a = a -> cstr b = b -> cstr (a +:+ b) = a +:+ b.
Proof.
  intros Ha Hb. induction a as [|x a IH]; app_norm; [done|].
  rewrite cstr_cons in *. destruct (Ascii.eqb x NUL); [done|].
  injection Ha as Ha. by rewrite IH.
Qed.

(** Where a token is found, each of its endings is found. *)
Lemma contains_app_r (x y buf : string) :
  cstr x = x -> cstr y = y -> contains buf (x +:+ y) = true -> contains buf y = true.
Proof.
  unfold contains. intros Hx Hy.
  destruct (strstr buf (x +:+ y)) as [p|] eqn:E; [intros _|done].
  apply strstr_Some_inv in E as (b & -> & Hb & Hp).
  rewrite cstr_app_free in Hp by done.
  apply prefix_app_inv in Hp as (q & -> & Hq).
  rewrite <- app_String_assoc.
  destruct (strstr_found y (b +:+ x) q) as [? ->]; [by apply cstr_app_free|by rewrite Hy|done].
Qed.

Lemma contains_app_l (y z buf : string) :
  cstr y = y -> cstr z = z -> contains buf (y +:+ z) = true -> contains buf y = true.
Proof.
  unfold contains. intros Hy Hz.
  destruct (strstr buf (y +:+ z)) as [p|] eqn:E; [intros _|done].
  apply strstr_Some_inv in E as (b & -> & Hb & Hp).
  rewrite cstr_app_free in Hp by done. apply prefix_app_l in Hp.
  destruct (strstr_found y b p) as [? ->]; [done|by rewrite Hy|done].
Qed.

(** X18. [ESP8266_Connect] with a host.  The result is [ESP8266_OK],
    [ESP8266_ALREADY_CONNECTED] or [ESP8266_CONNECT_FAIL], and the link
    number 0 is stored exactly when it is [ESP8266_OK] and a place for it
    was given.  Whenever the response buffer contains CONNECT at the end of
    the exchange the result is [ESP8266_OK], whatever the exchange itself
    returned; this includes the answer ALREADY CONNECTED, so that
    [ESP8266_ALREADY_CONNECTED] is returned only for a response that
    contains ALREADY and does not contain CONNECT. *)
Theorem X18_connect_reads_CONNECT_as_success (fuel : nat) (type : ESP8266_ConnType_t)
    (h : string) (port' : Z) (linkId : bool) (w : World)
    (r : ESP8266_Status_t) (l : option Z) (w' : World) :
  ESP8266_Connect fuel type (Some h) port' linkId w = Some ((r, l), w') ->
  (r = ESP8266_OK \/ r = ESP8266_ALREADY_CONNECTED \/ r = ESP8266_CONNECT_FAIL)
  /\ (ESP8266_ContainsString "CONNECT" w' = true -> r = ESP8266_OK)
  /\ (ESP8266_ContainsString "ALREADY CONNECTED" w' = true -> r = ESP8266_OK)
  /\ (r = ESP8266_ALREADY_CONNECTED ->
      ESP8266_ContainsString "ALREADY" w' = true
      /\ ESP8266_ContainsString "CONNECT" w' = false)
  /\ l = (if is_OK r && linkId then Some 0 else None)
  /\ same_session w w'.
Proof.
  unfold ESP8266_Connect.
  destruct (ESP8266_SendCommandF _ _ _ _ _) as [[ret w1]|] eqn:E; [|done].
  apply ESP8266_SendCommandF_frame in E.
  assert (Hsub : ESP8266_ContainsString "ALREADY CONNECTED" w1 = true ->
                 ESP8266_ContainsString "CONNECT" w1 = true).
  { intros H.
    apply (contains_app_l "CONNECT" "ED" (rxBuffer (esp8266 w1)) eq_refl eq_refl).
    exact (contains_app_r "ALREADY " "CONNECTED" (rxBuffer (esp8266 w1))
             eq_refl eq_refl H). }
  destruct (ESP8266_ContainsString "CONNECT" w1) eqn:Hc.
  - rewrite orb_true_r. intros [= <- <- <-]. split_and!; try done; tauto.
  - rewrite orb_false_r. destruct (is_OK ret) eqn:Hok.
    + intros [= <- <- <-]. rewrite Hc. split_and!; try done; tauto.
    + destruct (ESP8266_ContainsString "ALREADY" w1) eqn:Ha;
        intros [= <- <- <-]; rewrite ?Hc, ?Ha; split_and!; try done; try tauto;
        intros H; apply Hsub in H; done.
Qed.

Lemma X18_witness :
  ESP8266_Connect plenty ESP8266_TCP (Some "broker.emqx.io") 1883 true link_is_open
  = Some ((ESP8266_OK, Some 0), connect_answered)
  /\ (ESP8266_OK = ESP8266_OK \/ ESP8266_OK = ESP8266_ALREADY_CONNECTED
      \/ ESP8266_OK = ESP8266_CONNECT_FAIL)
  /\ (ESP8266_ContainsString "CONNECT" connect_answered = true ->
      ESP8266_OK = ESP8266_OK)
  /\ (ESP8266_ContainsString "ALREADY CONNECTED" connect_answered = true ->
      ESP8266_OK = ESP8266_OK)
  /\ (ESP8266_OK = ESP8266_ALREADY_CONNECTED ->
      ESP8266_ContainsString "ALREADY" connect_answered = true
      /\ ESP8266_ContainsString "CONNECT" connect_answered = false)
  /\ Some 0 = (if is_OK ESP8266_OK && true then Some 0 else None)
  /\ same_session link_is_open connect_answered.
Proof.
  assert (H1 : ESP8266_Connect plenty ESP8266_TCP (Some "broker.emqx.io") 1883 true
                 link_is_open = Some ((ESP8266_OK, Some 0), connect_answered))
    by (vm_compute; reflexivity).
  split; [exact H1|].
  exact (X18_connect_reads_CONNECT_as_success plenty ESP8266_TCP "broker.emqx.io"
           1883 true link_is_open ESP8266_OK (Some 0) connect_answered H1).
Defined.

(** The exchange of the example runs into its timeout of 15 s with ERROR in
    the buffer, and the call reports success. *)
Example already_connected_is_reported_as_success :
  ESP8266_SendCommandF plenty (Some "OK") ESP8266_CONNECT_TIMEOUT
    (AT_CIPSTART ESP8266_TCP "broker.emqx.io" 1883) link_is_open
  = Some (ESP8266_ERROR, connect_answered)
  /\ now connect_answered = 15001.
Proof. split; vm_compute; reflexivity. Qed.
(** ** Received network data *)

(** A search for a token skips what cannot start it. *)
Lemma strstr_skip (c : ascii) (n t : string) (p : string) : forall pre,
  cstr t = String c n -> free_of c pre = true -> strstr (pre +:+ p) t = strstr p t.
Proof.
  intros pre Ht. induction pre as [|x pre IH]; app_norm; [done|].
  cbn [free_of]. intros H. apply andb_true_iff in H as (H & Hpre).
  apply andb_true_iff in H as (Hx & Hnul).
  apply negb_true_iff in Hx, Hnul.
  rewrite strstr_eq, Ht, prefix_cons.
  destruct (ascii_dec c x) as [->|_]; [by rewrite Ascii.eqb_refl in Hx|].
  rewrite Hnul. by apply IH.
Qed.

Lemma IPD_shape (multi : bool) (id : Z) (payload tail : string) :
  IPD multi id payload +:+ tail
  = "+IPD,"
    +:+ ((if multi then itoa id +:+ "," else EmptyString)
         +:+ (itoa (Z.of_nat (String.length payload)) +:+ String ":" (payload +:+ tail))).
Proof.
  unfold IPD. rewrite !app_String_assoc. reflexivity.
Qed.

Lemma ESP8266_ParseIPD_frame (s : Station) (pre payload rest : string) (id : Z) :
  let multi := negb (multiConnMode (link s) =? 0) in
  free_of "+" pre = true -> 0 <= id < 2 ^ 8 ->
  Z.of_nat (String.length payload) < Z.of_nat ESP8266_RX_BUF_SIZE - 1 ->
  rxBuffer (esp8266 (world s)) = pre +:+ IPD multi id payload +:+ rest ->
  ESP8266_ParseIPD s
  = Some {| rx_linkId := if multi then id else 0;
            rx_length := Z.of_nat (String.length payload);
            rx_data := payload |}.
Proof.
  intros multi Hpre Hid Hlen Hbuf. unfold ESP8266_ParseIPD. rewrite Hbuf, IPD_shape.
  rewrite (strstr_skip "+" "IPD," "+IPD,") by done.
  change "+IPD," with (cstr "+IPD,") at 1. rewrite strstr_prefix.
  change 5%nat with (String.length (cstr "+IPD,")). rewrite ptr_add_app.
  fold multi. unfold ESP8266_RX_BUF_SIZE in *.
  set (n := Z.of_nat (String.length payload)) in *.
  assert (Hn : uint16 n = n) by (unfold uint16; apply Z.mod_small; lia).
  assert (Hi : uint8 id = id) by (unfold uint8; apply Z.mod_small; lia).
  assert (Hcommon : forall lid,
    match strchr (itoa n +:+ String ":" (payload +:+ rest)) ":" with
    | Some ptr =>
        Some {| rx_linkId := lid;
                rx_length := uint16 (atoi (itoa n +:+ String ":" (payload +:+ rest)));
                rx_data :=
                  bytes (ptr_add ptr 1)
                    (Z.to_nat
                       (if uint16 (atoi (itoa n +:+ String ":" (payload +:+ rest)))
                           <? Z.of_nat 2048 - 1
                        then uint16 (atoi (itoa n +:+ String ":" (payload +:+ rest)))
                        else Z.of_nat 2048 - 1)) |}
    | None => None
    end = Some {| rx_linkId := lid; rx_length := n; rx_data := payload |}).
  { intros lid. rewrite atoi_itoa by (done || lia).
    rewrite (strchr_app ":" (itoa n)) by (apply free_of_itoa; [lia|done]).
    rewrite ptr_add_1, Hn.
    destruct (Z.ltb_spec n (Z.of_nat 2048 - 1)) as [_|?]; [|lia].
    subst n. by rewrite Nat2Z.id, bytes_app. }
  destruct multi.
  - rewrite app_String_assoc. app_norm.
    rewrite (strchr_app "," (itoa id)) by (apply free_of_itoa; [lia|done]).
    rewrite atoi_itoa by (done || lia). cbn [fmap option_fmap option_map].
    rewrite ptr_add_1, Hi. apply Hcommon.
  - app_norm. apply Hcommon.
Qed.

Lemma ESP8266_ParseIPD_ext (s1 s2 : Station) :
  world s1 = world s2 -> multiConnMode (link s1) = multiConnMode (link s2) ->
  ESP8266_ParseIPD s1 = ESP8266_ParseIPD s2.
Proof. unfold ESP8266_ParseIPD. by intros -> ->. Qed.

(** The part of [ESP8266_ProcessData] that handles the WIFI lines changes
    [wifiConnected] and makes at most one call. *)
Lemma wifi_part (s : Station) :
  let s1 :=
    if contains_rx "WIFI DISCONNECT" s then
      let s := with_link (with_wifiConnected false (link s)) s in
      fire_link (onWifiDisconnected (link s)) Call_onWifiDisconnected s
    else if contains_rx "WIFI CONNECTED" s then
      let s := with_link (with_wifiConnected true (link s)) s in
      fire_link (onWifiConnected (link s)) Call_onWifiConnected s
    else s in
  world s1 = world s
  /\ multiConnMode (link s1) = multiConnMode (link s)
  /\ onDataReceived (link s1) = onDataReceived (link s)
  /\ onWifiConnected (link s1) = onWifiConnected (link s)
  /\ onWifiDisconnected (link s1) = onWifiDisconnected (link s)
  /\ wifiConnected (link s1)
     = (if contains_rx "WIFI DISCONNECT" s then false
        else if contains_rx "WIFI CONNECTED" s then true
        else wifiConnected (link s))
  /\ exists l, link_calls s1 = (link_calls s ++ l)%list
       /\ l = (if contains_rx "WIFI DISCONNECT" s
               then if onWifiDisconnected (link s) then [Call_onWifiDisconnected] else []
               else if contains_rx "WIFI CONNECTED" s
               then if onWifiConnected (link s) then [Call_onWifiConnected] else []
               else []).
Proof.
  intros s1. subst s1. unfold fire_link, with_link, with_wifiConnected. cbv zeta.
  cbn [link world link_calls onWifiDisconnected onWifiConnected wifiConnected
       multiConnMode onDataReceived].
  destruct (contains_rx "WIFI DISCONNECT" s); [|destruct (contains_rx "WIFI CONNECTED" s)].
  - destruct (onWifiDisconnected (link s)); split_and!; try done;
      eexists; (split; [|reflexivity]); simpl; by rewrite ?app_nil_r.
  - destruct (onWifiConnected (link s)); split_and!; try done;
      eexists; (split; [|reflexivity]); simpl; by rewrite ?app_nil_r.
  - split_and!; try done. exists []. by rewrite app_nil_r.
Qed.

(** X19. Network data round trip.  When the response buffer holds a line
    +IPD,<len>:<data>, or +IPD,<link>,<len>:<data> in multiple connection
    mode, after text without a plus sign, with a link number below 256 and
    fewer than 2047 bytes of data, [ESP8266_ParseIPD] returns exactly the
    link number (0 in single connection mode), the length and the data
    bytes, zero bytes included.  A tick of [ESP8266_ProcessData] with a
    receive event pending then hands this record to [onDataReceived], after
    at most one call for a WIFI line. *)
Theorem X19_network_data_round_trip (s : Station) (pre payload rest : string) (id : Z) :
  let multi := negb (multiConnMode (link s) =? 0) in
  let frame := {| rx_linkId := if multi then id else 0;
                  rx_length := Z.of_nat (String.length payload);
                  rx_data := payload |} in
  free_of "+" pre = true -> 0 <= id < 2 ^ 8 ->
  Z.of_nat (String.length payload) < Z.of_nat ESP8266_RX_BUF_SIZE - 1 ->
  rxBuffer (esp8266 (world s)) = pre +:+ IPD multi id payload +:+ rest ->
  ESP8266_ParseIPD s = Some frame
  /\ (rxComplete (esp8266 (world s)) = true -> onDataReceived (link s) = true ->
      exists l,
        link_calls (ESP8266_ProcessData s)
        = (link_calls s ++ l ++ [Call_onDataReceived frame])%list
        /\ (l = [] \/ l = [Call_onWifiDisconnected] \/ l = [Call_onWifiConnected])).
Proof.
  intros multi frame Hpre Hid Hlen Hbuf.
  pose proof (ESP8266_ParseIPD_frame s pre payload rest id Hpre Hid Hlen Hbuf) as Hp.
  split; [exact Hp|]. intros Hrx Hcb. unfold ESP8266_ProcessData. rewrite Hrx. cbn [negb].
  destruct (wifi_part s) as (Hw & Hm & Hd & _ & _ & _ & l & Hl & Hl').
  cbv zeta in *.
  match goal with |- context [contains_rx "+IPD," ?x] => set (s1 := x) in * end.
  rewrite (ESP8266_ParseIPD_ext s1 s Hw Hm), Hp.
  assert (Hfound : contains_rx "+IPD," s1 = true).
  { unfold contains_rx, ESP8266_ContainsString. rewrite Hw.
    unfold ESP8266_ParseIPD in Hp. by destruct (strstr _ _). }
  rewrite Hfound, Hd, Hcb. unfold fire_link. cbn [link_calls].
  exists l. split; [by rewrite Hl, <- app_assoc|].
  rewrite Hl'. repeat case_match; tauto.
Qed.

Lemma X19_witness :
  let multi := negb (multiConnMode (link data_arrived) =? 0) in
  let frame := {| rx_linkId := if multi then 3 else 0;
                  rx_length := Z.of_nat (String.length binary_data);
                  rx_data := binary_data |} in
  free_of "+" CRLF = true /\ 0 <= 3 < 2 ^ 8
  /\ Z.of_nat (String.length binary_data) < Z.of_nat ESP8266_RX_BUF_SIZE - 1
  /\ rxBuffer (esp8266 (world data_arrived))
     = CRLF +:+ IPD multi 3 binary_data +:+ (CRLF +:+ String NUL EmptyString)
  /\ ESP8266_ParseIPD data_arrived = Some frame
  /\ (rxComplete (esp8266 (world data_arrived)) = true ->
      onDataReceived (link data_arrived) = true ->
      exists l,
        link_calls (ESP8266_ProcessData data_arrived)
        = (link_calls data_arrived ++ l ++ [Call_onDataReceived frame])%list
        /\ (l = [] \/ l = [Call_onWifiDisconnected] \/ l = [Call_onWifiConnected])).
Proof.
  intros multi frame.
  assert (H1 : free_of "+" CRLF = true) by reflexivity.
  assert (H2 : 0 <= 3 < 2 ^ 8) by lia.
  assert (H3 : Z.of_nat (String.length binary_data) < Z.of_nat ESP8266_RX_BUF_SIZE - 1)
    by (vm_compute; reflexivity).
  assert (H4 : rxBuffer (esp8266 (world data_arrived))
               = CRLF +:+ IPD multi 3 binary_data +:+ (CRLF +:+ String NUL EmptyString))
    by (vm_compute; reflexivity).
  split; [exact H1|]. split; [exact H2|]. split; [exact H3|]. split; [exact H4|].
  exact (X19_network_data_round_trip data_arrived CRLF binary_data
           (CRLF +:+ String NUL EmptyString) 3 H1 H2 H3 H4).
Defined.

Lemma ESP8266_ProcessData_effect (s : Station) :
  let s' := ESP8266_ProcessData s in
  world s' = world s
  /\ multiConnMode (link s') = multiConnMode (link s)
  /\ onDataReceived (link s') = onDataReceived (link s)
  /\ onWifiConnected (link s') = onWifiConnected (link s)
  /\ onWifiDisconnected (link s') = onWifiDisconnected (link s)
  /\ link_calls s'
     = (link_calls s
        ++ if rxComplete (esp8266 (world s)) then
             (if contains_rx "WIFI DISCONNECT" s
              then if onWifiDisconnected (link s) then [Call_onWifiDisconnected] else []
              else if contains_rx "WIFI CONNECTED" s
              then if onWifiConnected (link s) then [Call_onWifiConnected] else []
              else [])
             ++ (if contains_rx "+IPD," s then
                   match ESP8266_ParseIPD s with
                   | Some d => if onDataReceived (link s)
                               then [Call_onDataReceived d] else []
                   | None => []
                   end
                 else [])
           else [])%list.
Proof.
  intros s'. subst s'. unfold ESP8266_ProcessData.
  destruct (rxComplete (esp8266 (world s))); cbn [negb];
    [|split_and!; try done; by rewrite app_nil_r].
  destruct (wifi_part s) as (Hw & Hm & Hd & Hc & Hdc & _ & l & Hl & Hl').
  cbv zeta in *.
  match goal with |- context [contains_rx "+IPD," ?x] => set (s1 := x) in * end.
  rewrite (ESP8266_ParseIPD_ext s1 s Hw Hm).
  assert (contains_rx "+IPD," s1 = contains_rx "+IPD," s) as ->
    by (unfold contains_rx; by rewrite Hw).
  rewrite <- Hl'. clear Hl'. unfold fire_link. rewrite Hd.
  destruct (contains_rx "+IPD," s); [destruct (ESP8266_ParseIPD s) as [d|];
    [destruct (onDataReceived (link s))|]|];
    cbn [world link link_calls]; rewrite ?Hl, ?app_nil_r, <- ?app_assoc;
    by split_and!.
Qed.

(** X20. A tick of [ESP8266_ProcessData] never changes the response buffer
    or the receive flag, so it does not consume what it handles: a second
    tick makes the calls of the first once more.  Without a receive event
    pending it does nothing.  With one, a buffer that contains
    WIFI DISCONNECT clears [wifiConnected], also when it contains
    WIFI CONNECTED as well; only otherwise WIFI CONNECTED sets it. *)
Theorem X20_driver_tick_does_not_consume (s : Station) :
  let s' := ESP8266_ProcessData s in
  world s' = world s
  /\ multiConnMode (link s') = multiConnMode (link s)
  /\ (rxComplete (esp8266 (world s)) = false -> s' = s)
  /\ (rxComplete (esp8266 (world s)) = true ->
      wifiConnected (link s')
      = (if contains_rx "WIFI DISCONNECT" s then false
         else if contains_rx "WIFI CONNECTED" s then true
         else wifiConnected (link s)))
  /\ exists l, link_calls s' = (link_calls s ++ l)%list
       /\ link_calls (ESP8266_ProcessData s') = (link_calls s' ++ l)%list.
Proof.
  intros s'.
  destruct (ESP8266_ProcessData_effect s) as (Hw & Hm & Hd & Hc & Hdc & Hl).
  destruct (ESP8266_ProcessData_effect s') as (_ & _ & _ & _ & _ & Hl2).
  cbv zeta in *. fold s' in Hw, Hm, Hd, Hc, Hdc, Hl.
  split; [done|]. split; [done|]. split_and!.
  - intros Hrx. subst s'. unfold ESP8266_ProcessData. by rewrite Hrx.
  - intros Hrx. subst s'. unfold ESP8266_ProcessData. rewrite Hrx. cbn [negb].
    destruct (wifi_part s) as (Hw1 & Hm1 & Hd1 & _ & _ & Hwifi & _).
    cbv zeta in *.
    match goal with |- context [contains_rx "+IPD," ?x] => set (s1 := x) in * end.
    rewrite <- Hwifi. unfold fire_link.
    by repeat case_match.
  - eexists. split; [exact Hl|]. rewrite Hl2.
    rewrite (ESP8266_ParseIPD_ext s' s Hw Hm), Hd, Hc, Hdc.
    unfold contains_rx. by rewrite Hw.
Qed.

(** In the example the same five bytes are handed over by each tick. *)
Example driver_tick_delivers_twice :
  link_calls (ESP8266_ProcessData (ESP8266_ProcessData data_arrived))
  = [Call_onDataReceived {| rx_linkId := 3; rx_length := 5; rx_data := binary_data |};
     Call_onDataReceived {| rx_linkId := 3; rx_length := 5; rx_data := binary_data |}].
Proof. vm_compute. reflexivity. Qed.
(** ** The address of the station *)

Lemma strncpy_0 (s : string) : strncpy s 0 = EmptyString.
Proof. by destruct s. Qed.

Lemma strncpy_app_min (c : ascii) (rest : string) : forall a k,
  free_of c a = true ->
  strncpy (a +:+ String c rest) (Nat.min (String.length a) k) = strncpy a k.
Proof.
  induction a as [|x a IH]; intros k; app_norm.
  - intros _. cbn [String.length Nat.min]. rewrite strncpy_0. by destruct k.
  - cbn [free_of String.length]. intros H. apply andb_true_iff in H as (H & Ha).
    apply andb_true_iff in H as (_ & Hx). apply negb_true_iff in Hx.
    destruct k as [|k]; [by rewrite Nat.min_0_r, !strncpy_0|].
    cbn [Nat.min]. rewrite !strncpy_cons, Hx. by rewrite IH.
Qed.

(** X21. [ESP8266_GetIPInfo] reads the address of the station.  When the
    AT+CIFSR exchange succeeds and the first STAIP, with its opening quote
    in the response is followed by the text [a] and a closing quote, the
    call returns
    [ESP8266_OK] and [ip] holds [a], cut to 15 characters; [gateway] and
    [netmask] are never filled in and keep what the caller's structure
    held. *)
Theorem X21_station_address (fuel : nat) (info : ESP8266_IPInfo_t) (w w1 : World)
    (before a rest : string) :
  ESP8266_SendCommand fuel (Some ("AT+CIFSR" +:+ CRLF)) (Some "OK")
    ESP8266_DEFAULT_TIMEOUT w = Some (ESP8266_OK, w1) ->
  rxBuffer (esp8266 w1) = before +:+ ("STAIP," +:+ DQ +:+ a +:+ DQ +:+ rest) ->
  cstr before = before ->
  occurs_before ("STAIP," +:+ DQ) (rxBuffer (esp8266 w1)) (String.length before) = false ->
  free_of DQUOTE a = true ->
  ESP8266_GetIPInfo fuel (Some info) w
  = Some ((ESP8266_OK,
           Some {| ip := strncpy a 15; gateway := gateway info;
                   netmask := netmask info |}), w1).
Proof.
  intros Hex Hbuf Hnul Hocc Ha. unfold ESP8266_GetIPInfo. rewrite Hex. cbn [is_OK].
  rewrite Hbuf in *. rewrite <- (app_String_assoc "STAIP," DQ) in *.
  replace (DQ +:+ rest) with (String DQUOTE rest) in * by (unfold DQ; by app_norm).
  set (K := "STAIP," +:+ DQ) in *.
  assert (Hpre : String.prefix (cstr K) (K +:+ a +:+ String DQUOTE rest) = true).
  { change (cstr K) with K. apply prefix_app_same. }
  rewrite (strstr_at K before _ Hnul Hocc Hpre).
  assert (Hptr : forall t, ptr_add (K +:+ t) 7 = t) by (intros t; exact (ptr_add_app K t)).
  rewrite Hptr, (strchr_offset_app DQUOTE a) by done.
  assert (Hmin : (if (15 <? String.length a)%nat then 15%nat else String.length a)
                 = Nat.min (String.length a) 15)
    by (destruct (Nat.ltb_spec 15 (String.length a)); lia).
  by rewrite Hmin, (strncpy_app_min DQUOTE).
Qed.

Lemma X21_witness :
  ESP8266_SendCommand plenty (Some ("AT+CIFSR" +:+ CRLF)) (Some "OK")
    ESP8266_DEFAULT_TIMEOUT address_asked = Some (ESP8266_OK, address_answered)
  /\ rxBuffer (esp8266 address_answered)
     = "+CIFSR:" +:+ ("STAIP," +:+ DQ +:+ "192.168.1.23" +:+ DQ
                      +:+ ptr_add CIFSR_answer 27 +:+ String NUL EmptyString)
  /\ cstr "+CIFSR:" = "+CIFSR:"
  /\ occurs_before ("STAIP," +:+ DQ) (rxBuffer (esp8266 address_answered))
       (String.length "+CIFSR:") = false
  /\ free_of DQUOTE "192.168.1.23" = true
  /\ ESP8266_GetIPInfo plenty (Some no_address) address_asked
     = Some ((ESP8266_OK,
              Some {| ip := strncpy "192.168.1.23" 15; gateway := gateway no_address;
                      netmask := netmask no_address |}), address_answered).
Proof.
  assert (H1 : ESP8266_SendCommand plenty (Some ("AT+CIFSR" +:+ CRLF)) (Some "OK")
                 ESP8266_DEFAULT_TIMEOUT address_asked
               = Some (ESP8266_OK, address_answered)) by (vm_compute; reflexivity).
  assert (H2 : rxBuffer (esp8266 address_answered)
               = "+CIFSR:" +:+ ("STAIP," +:+ DQ +:+ "192.168.1.23" +:+ DQ
                                +:+ ptr_add CIFSR_answer 27 +:+ String NUL EmptyString))
    by (vm_compute; reflexivity).
  assert (H3 : cstr "+CIFSR:" = "+CIFSR:") by reflexivity.
  assert (H4 : occurs_before ("STAIP," +:+ DQ) (rxBuffer (esp8266 address_answered))
                 (String.length "+CIFSR:") = false) by (vm_compute; reflexivity).
  assert (H5 : free_of DQUOTE "192.168.1.23" = true) by reflexivity.
  split; [exact H1|]. split; [exact H2|]. split; [exact H3|]. split; [exact H4|].
  split; [exact H5|].
  exact (X21_station_address plenty no_address address_asked address_answered
           "+CIFSR:" "192.168.1.23"
           (ptr_add CIFSR_answer 27 +:+ String NUL EmptyString) H1 H2 H3 H4 H5).
Defined.
(** ** Sending network data *)

Lemma ESP8266_WaitForResponse_found (fuel : nat) (t : string) (d : Z) (w w' : World) :
  ESP8266_WaitForResponse fuel t d w = Some (true, w') ->
  ESP8266_ContainsString t w' = true.
Proof.
  unfold ESP8266_WaitForResponse. generalize (HAL_GetTick w) as start.
  revert w. induction fuel as [|f IH]; intros w start;
    cbn [ESP8266_WaitForResponse_loop]; [done|].
  destruct (_ <? _); [|done].
  destruct (ESP8266_ContainsString t w) eqn:E; [by intros [= <-]|apply IH].
Qed.

Lemma in_world_inv {A : Type} (f : World -> option (A * World)) (s : Station)
    (r : A) (s' : Station) :
  in_world f s = Some (r, s') ->
  f (world s) = Some (r, world s')
  /\ link s' = link s /\ link_calls s' = link_calls s.
Proof.
  unfold in_world. destruct (f (world s)) as [[r1 w1]|]; [|done]. by intros [= <- <-].
Qed.

(** X22. [ESP8266_Send] answers [ESP8266_INVALID_PARAM] exactly for a null
    pointer or a length of zero, and then does nothing; every other call
    ends with [ESP8266_OK] or [ESP8266_SEND_FAIL], so a timeout, an error
    answer and a busy module are all reported as [ESP8266_SEND_FAIL].
    [ESP8266_OK] is returned only with SEND OK in the response buffer.  The
    call leaves the session and the other members of the driver alone.
    [ESP8266_SendString] passes the length of the string, so the empty
    string is rejected. *)
Theorem X22_send_statuses (fuel : nat) (linkId : Z) (data' : option string) (len : Z)
    (s : Station) (r : ESP8266_Status_t) (s' : Station) :
  ESP8266_Send fuel linkId data' len s = Some (r, s') ->
  (r = ESP8266_INVALID_PARAM \/ r = ESP8266_SEND_FAIL \/ r = ESP8266_OK)
  /\ (r = ESP8266_INVALID_PARAM <-> data' = None \/ len = 0)
  /\ (r = ESP8266_INVALID_PARAM -> s' = s)
  /\ (r = ESP8266_OK -> contains_rx "SEND OK" s' = true)
  /\ link s' = link s /\ link_calls s' = link_calls s
  /\ same_session (world s) (world s')
  /\ (forall str, cstr str = EmptyString ->
      ESP8266_SendString fuel linkId (Some str) s = Some (ESP8266_INVALID_PARAM, s)).
Proof.
  intros H.
  assert (Hstr : forall str, cstr str = EmptyString ->
            ESP8266_SendString fuel linkId (Some str) s = Some (ESP8266_INVALID_PARAM, s)).
  { intros str Hs. unfold ESP8266_SendString, ESP8266_Send, strlen. by rewrite Hs. }
  revert H. unfold ESP8266_Send.
  destruct data' as [d|];
    [|intros [= <- <-]; split_and!; try done; try tauto; apply same_session_refl].
  destruct (Z.eqb_spec len 0) as [Hz|Hz];
    [intros [= <- <-]; split_and!; try done; try tauto; apply same_session_refl|].
  destruct (in_world _ s) as [[r1 s1]|] eqn:E1; [|done].
  apply in_world_inv in E1 as (E1 & Hl1 & Hc1).
  apply ESP8266_SendCommandF_frame in E1.
  destruct (is_OK r1); cbn [negb].
  2:{ intros [= <- <-]. split_and!; try done; try tauto.
      split; [done|]. intros [[=]|?]; done. }
  destruct (in_world (ESP8266_SendDMA _ _ _) _) as [[r2 s2]|] eqn:E2; [|done].
  apply in_world_inv in E2 as (E2 & Hl2 & Hc2).
  apply ESP8266_SendDMA_frame in E2. cbn [world link link_calls with_world] in *.
  destruct (in_world _ s2) as [[found s3]|] eqn:E3; [|done].
  apply in_world_inv in E3 as (E3 & Hl3 & Hc3).
  pose proof (ESP8266_WaitForResponse_frame _ _ _ _ _ _ E3) as Hs3.
  assert (Hsess : same_session (world s) (world s3)).
  { eapply same_session_trans; [exact E1|]. eapply same_session_trans; [|exact Hs3].
    eapply same_session_trans; [|exact E2]. apply ESP8266_ClearBuffer_frame. }
  destruct found; intros [= <- <-]; split_and!; try done; try tauto; try congruence.
  - split; [done|]. intros [[=]|?]; done.
  - intros _. unfold contains_rx. by eapply ESP8266_WaitForResponse_found.
  - split; [done|]. intros [[=]|?]; done.
Qed.

Lemma X22_witness :
  ESP8266_Send plenty 0 (Some "hello") 5 sending = Some (ESP8266_OK, sent)
  /\ (ESP8266_OK = ESP8266_INVALID_PARAM \/ ESP8266_OK = ESP8266_SEND_FAIL
      \/ ESP8266_OK = ESP8266_OK)
  /\ (ESP8266_OK = ESP8266_INVALID_PARAM <-> Some "hello" = None \/ 5 = 0)
  /\ (ESP8266_OK = ESP8266_INVALID_PARAM -> sent = sending)
  /\ (ESP8266_OK = ESP8266_OK -> contains_rx "SEND OK" sent = true)
  /\ link sent = link sending /\ link_calls sent = link_calls sending
  /\ same_session (world sending) (world sent)
  /\ (forall str, cstr str = EmptyString ->
      ESP8266_SendString plenty 0 (Some str) sending
      = Some (ESP8266_INVALID_PARAM, sending)).
Proof.
  assert (H1 : ESP8266_Send plenty 0 (Some "hello") 5 sending = Some (ESP8266_OK, sent))
    by (vm_compute; reflexivity).
  split; [exact H1|].
  exact (X22_send_statuses plenty 0 (Some "hello") 5 sending ESP8266_OK sent H1).
Defined.

(** What the example puts on the wire. *)
Example send_puts_command_and_data_on_the_wire :
  wire (world sent) = ["AT+CIPSEND=5" +:+ CRLF; "hello"].
Proof. vm_compute. reflexivity. Qed.

(** ** The last will *)

(** X23. [MQTT_SetLWT] with a topic and a message.  Whatever the call
    returns, the handle holds the new will afterwards: the topic cut to 127
    characters, the message cut to 1023, the QoS, and the retain flag as 0
    or 1; the keep-alive interval and the clean-session flag stay.  Below
    [MQTT_STATE_USER_SET] nothing is sent.  Otherwise the configuration is
    sent again; when that fails the will stays stored although the
    co-processor did not take it, and when it succeeds the state becomes
    [MQTT_STATE_CONN_SET] while the connected flag stays as it was. *)
Theorem X23_last_will (fuel : nat) (t m : string) (q : MQTT_QoS_t) (rt : Z)
    (w : World) (r : MQTT_Status_t) (w' : World) :
  MQTT_SetLWT fuel (Some t) (Some m) q rt w = Some (r, w') ->
  connConfig (mqtt w')
  = {| keepAlive := keepAlive (connConfig (mqtt w));
       disableCleanSession := disableCleanSession (connConfig (mqtt w));
       lwtTopic := strncpy t 127; lwtMessage := strncpy m 1023;
       lwtQos := q; lwtRetain := if rt =? 0 then 0 else 1 |}
  /\ (state (mqtt w) < MQTT_STATE_USER_SET ->
      r = MQTT_OK /\ wire w' = wire w /\ state (mqtt w') = state (mqtt w))
  /\ (r <> MQTT_OK -> state (mqtt w') = state (mqtt w))
  /\ (MQTT_STATE_USER_SET <= state (mqtt w) -> r = MQTT_OK ->
      state (mqtt w') = MQTT_STATE_CONN_SET)
  /\ connected (mqtt w') = connected (mqtt w)
  /\ subscriptions (mqtt w') = subscriptions (mqtt w).
Proof.
  unfold MQTT_SetLWT. cbn [mqtt with_mqtt state with_connConfig connConfig].
  change (MQTT_TOPIC_MAX_LEN - 1)%nat with 127%nat.
  change (MQTT_MESSAGE_MAX_LEN - 1)%nat with 1023%nat.
  destruct (Z.geb_spec (state (mqtt w)) MQTT_STATE_USER_SET) as [Hge|Hlt].
  - intros Hset. destruct (MQTT_OK_or_not r) as [->|Hr].
    + apply MQTT_SetConnConfig_OK in Hset. rewrite Hset.
      split_and!; try done; lia.
    + apply MQTT_SetConnConfig_not_OK in Hset; [|done]. rewrite Hset.
      split_and!; try done; lia.
  - intros [= <- <-]. split_and!; try done; lia.
Qed.

Lemma X23_witness :
  MQTT_SetLWT plenty (Some "stm32/status") (Some "offline") MQTT_QOS_1 5 two_exchanges
  = Some (MQTT_OK, will_set)
  /\ connConfig (mqtt will_set)
     = {| keepAlive := keepAlive (connConfig (mqtt two_exchanges));
          disableCleanSession := disableCleanSession (connConfig (mqtt two_exchanges));
          lwtTopic := strncpy "stm32/status" 127; lwtMessage := strncpy "offline" 1023;
          lwtQos := MQTT_QOS_1; lwtRetain := if 5 =? 0 then 0 else 1 |}
  /\ (state (mqtt two_exchanges) < MQTT_STATE_USER_SET ->
      MQTT_OK = MQTT_OK /\ wire will_set = wire two_exchanges
      /\ state (mqtt will_set) = state (mqtt two_exchanges))
  /\ (MQTT_OK <> MQTT_OK -> state (mqtt will_set) = state (mqtt two_exchanges))
  /\ (MQTT_STATE_USER_SET <= state (mqtt two_exchanges) -> MQTT_OK = MQTT_OK ->
      state (mqtt will_set) = MQTT_STATE_CONN_SET)
  /\ connected (mqtt will_set) = connected (mqtt two_exchanges)
  /\ subscriptions (mqtt will_set) = subscriptions (mqtt two_exchanges).
Proof.
  assert (H1 : MQTT_SetLWT plenty (Some "stm32/status") (Some "offline") MQTT_QOS_1 5
                 two_exchanges = Some (MQTT_OK, will_set)) by (vm_compute; reflexivity).
  split; [exact H1|].
  exact (X23_last_will plenty "stm32/status" "offline" MQTT_QOS_1 5 two_exchanges
           MQTT_OK will_set H1).
Defined.
(** ** Reconnecting *)

(** X24. [MQTT_Reconnect] counts the attempt, cleans the link, sends the
    stored user configuration again and connects.  It never touches the
    subscription table: after a successful reconnect the session is
    connected in state [MQTT_STATE_CONN_NO_SUB] while the table and its
    counter still hold the subscriptions made before.  After any other
    result the session is marked as not connected, and
    [MQTT_NOT_INITIALIZED] is returned exactly on a handle that is not
    initialized. *)
Theorem X24_reconnect_keeps_the_table (fuel : nat) (w : World)
    (r : MQTT_Status_t) (w' : World) :
  MQTT_Reconnect fuel w = Some (r, w') ->
  reconnectCount (mqtt w') = uint32 (reconnectCount (mqtt w) + 1)
  /\ subscriptions (mqtt w') = subscriptions (mqtt w)
  /\ subscriptionCount (mqtt w') = subscriptionCount (mqtt w)
  /\ (r = MQTT_OK ->
      connected (mqtt w') = true /\ state (mqtt w') = MQTT_STATE_CONN_NO_SUB)
  /\ (r <> MQTT_OK -> connected (mqtt w') = false)
  /\ (r = MQTT_NOT_INITIALIZED <-> initialized (mqtt w) = false).
Proof.
  intros H. pose proof (MQTT_Reconnect_table _ _ _ _ H) as (Ht1 & Ht2).
  revert H. unfold MQTT_Reconnect, MQTT_Clean, MQTT_Delay, MQTT_SetUserConfigSimple,
    MQTT_Connect.
  cbn [mqtt with_mqtt].
  destruct (ESP8266_SendCommandF _ _ _ _ _) as [[r1 w1]|] eqn:E1; [|done].
  apply ESP8266_SendCommandF_frame in E1 as (_ & Hm1 & _).
  cbn [mqtt with_mqtt] in Hm1.
  destruct (HAL_Delay_frame 1000
              (with_mqtt (with_state MQTT_STATE_NOT_INIT (with_connected false (mqtt w1)))
                 w1)) as ((_ & Hm2 & _) & _).
  cbn [mqtt with_mqtt] in Hm2.
  match goal with |- context [HAL_Delay 1000 ?x] => set (w2 := HAL_Delay 1000 x) in * end.
  assert (Hi : initialized (mqtt w2) = initialized (mqtt w)) by by rewrite Hm2, Hm1.
  rewrite Hi. destruct (initialized (mqtt w)); cbn [negb].
  2:{ intros [= <- <-]. rewrite Hm2, Hm1. by split_and!. }
  destruct (ESP8266_SendCommandF _ _ _ _ w2) as [[r3 w3]|] eqn:E3; [|done].
  apply ESP8266_SendCommandF_frame in E3 as (_ & Hm3 & _).
  destruct r3.
  2-11: intros [= <- <-]; rewrite Hm3, Hm2, Hm1; by split_and!.
  cbn [mqtt with_mqtt].
  destruct (ESP8266_SendCommandF _ _ _ _ _) as [[r4 w4]|] eqn:E4; [|done].
  apply ESP8266_SendCommandF_frame in E4 as (_ & Hm4 & _).
  cbn [mqtt with_mqtt] in Hm4.
  destruct r4; intros [= <- <-]; rewrite fire_mqtt; cbn [mqtt with_mqtt];
    rewrite Hm4, Hm3, Hm2, Hm1; by split_and!.
Qed.

Lemma X24_witness :
  MQTT_Reconnect plenty full_session = Some (MQTT_OK, reconnected)
  /\ reconnectCount (mqtt reconnected)
     = uint32 (reconnectCount (mqtt full_session) + 1)
  /\ subscriptions (mqtt reconnected) = subscriptions (mqtt full_session)
  /\ subscriptionCount (mqtt reconnected) = subscriptionCount (mqtt full_session)
  /\ (MQTT_OK = MQTT_OK ->
      connected (mqtt reconnected) = true
      /\ state (mqtt reconnected) = MQTT_STATE_CONN_NO_SUB)
  /\ (MQTT_OK <> MQTT_OK -> connected (mqtt reconnected) = false)
  /\ (MQTT_OK = MQTT_NOT_INITIALIZED <-> initialized (mqtt full_session) = false).
Proof.
  assert (H1 : MQTT_Reconnect plenty full_session = Some (MQTT_OK, reconnected))
    by (vm_compute; reflexivity).
  split; [exact H1|].
  exact (X24_reconnect_keeps_the_table plenty full_session MQTT_OK reconnected H1).
Defined.
(** ** Storing a configuration *)

(** X25. [MQTT_SetUserConfig] and [MQTT_SetConnConfig] store a
    configuration only when the co-processor accepted it.  With a result
    other than [MQTT_OK] the handle is as before and no callback was
    called; with [MQTT_OK] the handle holds the given configuration, member
    by member, the state is [MQTT_STATE_USER_SET] or [MQTT_STATE_CONN_SET],
    whatever it was, and the connected flag and the subscription table are
    as before. *)
Theorem X25_configuration_is_stored_on_success (fuel : nat) (w : World)
    (r : MQTT_Status_t) (w' : World) :
  (forall u, MQTT_SetUserConfig fuel u w = Some (r, w') ->
     (r = MQTT_OK ->
      u = Some (userConfig (mqtt w')) /\ state (mqtt w') = MQTT_STATE_USER_SET
      /\ connConfig (mqtt w') = connConfig (mqtt w))
     /\ (r <> MQTT_OK -> mqtt w' = mqtt w)
     /\ connected (mqtt w') = connected (mqtt w)
     /\ same_table w w' /\ calls w' = calls w)
  /\ (forall c, MQTT_SetConnConfig fuel c w = Some (r, w') ->
     (r = MQTT_OK ->
      c = Some (connConfig (mqtt w')) /\ state (mqtt w') = MQTT_STATE_CONN_SET
      /\ userConfig (mqtt w') = userConfig (mqtt w))
     /\ (r <> MQTT_OK -> mqtt w' = mqtt w)
     /\ connected (mqtt w') = connected (mqtt w)
     /\ same_table w w' /\ calls w' = calls w).
Proof.
  split.
  - intros u. unfold MQTT_SetUserConfig.
    destruct (initialized (mqtt w)); cbn [negb];
      [|intros [= <- <-]; split_and!; try done; apply same_table_refl].
    destruct u as [u|]; [|intros [= <- <-]; split_and!; try done; apply same_table_refl].
    destruct (ESP8266_SendCommandF _ _ _ _ _) as [[ret w1]|] eqn:E; [|done].
    apply ESP8266_SendCommandF_frame in E as (_ & Hm & Hc).
    destruct ret; intros [= <- <-]; cbn [mqtt with_mqtt calls]; unfold same_table;
      rewrite ?Hm, ?Hc; by split_and!.
  - intros c. unfold MQTT_SetConnConfig.
    destruct (initialized (mqtt w)); cbn [negb];
      [|intros [= <- <-]; split_and!; try done; apply same_table_refl].
    destruct c as [c|]; [|intros [= <- <-]; split_and!; try done; apply same_table_refl].
    destruct (ESP8266_SendCommandF _ _ _ _ _) as [[ret w1]|] eqn:E; [|done].
    apply ESP8266_SendCommandF_frame in E as (_ & Hm & Hc).
    destruct ret; intros [= <- <-]; cbn [mqtt with_mqtt calls]; unfold same_table;
      rewrite ?Hm, ?Hc; by split_and!.
Qed.
(** ** Every call returns *)

Lemma MQTT_Publish_wait_total (t : string) (n0 : Z) : forall (fuel : nat) (w : World),
  0 <= now w - n0 <= 5009 -> 5000 - (now w - n0) <= 10 * Z.of_nat fuel - 10 ->
  is_Some (MQTT_Publish_wait fuel t (uint32 n0) w).
Proof.
  induction fuel as [|f IH]; intros w He Hf; [lia|]. cbn [MQTT_Publish_wait].
  unfold MQTT_PUBLISH_TIMEOUT. rewrite elapsed_since by lia.
  destruct (Z.ltb_spec (now w - n0) 5000) as [Hlt|_]; [|by eexists].
  destruct (_ || _); [by eexists|]. destruct (_ || _); [by eexists|].
  destruct (HAL_Delay_now 10 w) as (Hn & _); [lia|].
  apply IH; rewrite Hn; lia.
Qed.

Ltac timeout_in_range :=
  unfold MQTT_DEFAULT_TIMEOUT, MQTT_CONNECT_TIMEOUT, MQTT_SUBSCRIBE_TIMEOUT,
    MQTT_PUBLISH_TIMEOUT, ESP8266_DEFAULT_TIMEOUT, ESP8266_CONNECT_TIMEOUT; lia.

(** One step towards the result of a call: an exchange, a transmission or
    a wait returns, a test is decided. *)
Ltac returns_step Hfuel :=
  match goal with
  | |- is_Some (Some _) => by eexists
  | |- context [ESP8266_SendCommandF ?f ?e ?d ?t ?w] =>
      let E := fresh "E" in
      destruct (ESP8266_SendCommandF_total f e d t w) as (? & ? & E);
      [timeout_in_range | exact Hfuel | apply fuel_for_wait; [timeout_in_range|exact Hfuel]
      | rewrite E; clear E]
  | |- context [ESP8266_SendCommand ?f ?c ?e ?d ?w] =>
      let E := fresh "E" in
      destruct (ESP8266_SendCommand_total f c e d w) as (? & ? & E);
      [timeout_in_range | exact Hfuel | apply fuel_for_wait; [timeout_in_range|exact Hfuel]
      | rewrite E; clear E]
  | |- context [ESP8266_SendDMA ?f ?d ?l ?w] =>
      let E := fresh "E" in
      destruct (ESP8266_SendDMA_total f d l w) as (? & ? & E & _);
      [exact Hfuel | rewrite E; clear E]
  | |- context [ESP8266_WaitForResponse ?f ?t ?d ?w] =>
      let E := fresh "E" in
      destruct (ESP8266_WaitForResponse_total f t d w) as (? & ? & E);
      [timeout_in_range | apply fuel_for_wait; [timeout_in_range|exact Hfuel]
      | rewrite E; clear E]
  | |- context [MQTT_Publish_wait ?f ?t (HAL_GetTick ?w) ?w] =>
      let E := fresh "E" in
      destruct (MQTT_Publish_wait_total t (now w) f w) as [[? ?] E];
      [lia | lia | unfold HAL_GetTick; rewrite E; clear E]
  | |- is_Some (if ?b then _ else _) => destruct b
  | |- is_Some (match ?x with _ => _ end) => destruct x
  | |- is_Some (let '(_, _) := ?x in _) => destruct x
  end.

Ltac returns Hfuel := repeat returns_step Hfuel.

Section Returns.

Variable fuel : nat.
Hypothesis Hfuel : 5002 <= Z.of_nat fuel.

Lemma MQTT_Clean_total w : is_Some (MQTT_Clean fuel w).
Proof. unfold MQTT_Clean. returns Hfuel. Qed.

Lemma MQTT_Connect_total w : is_Some (MQTT_Connect fuel w).
Proof. unfold MQTT_Connect. returns Hfuel. Qed.

Lemma MQTT_Disconnect_total w : is_Some (MQTT_Disconnect fuel w).
Proof. unfold MQTT_Disconnect. returns Hfuel. Qed.

Lemma MQTT_SetUserConfigSimple_total c u p w :
  is_Some (MQTT_SetUserConfigSimple fuel c u p w).
Proof. unfold MQTT_SetUserConfigSimple. returns Hfuel. Qed.

Lemma MQTT_Reconnect_total w : is_Some (MQTT_Reconnect fuel w).
Proof.
  unfold MQTT_Reconnect.
  match goal with |- context [MQTT_Clean fuel ?v] =>
    destruct (MQTT_Clean_total v) as [[? w1] ->] end.
  match goal with |- context [MQTT_SetUserConfigSimple fuel ?c ?u ?p ?v] =>
    destruct (MQTT_SetUserConfigSimple_total c u p v) as [[r2 w2] ->] end.
  destruct r2; try by eexists. apply MQTT_Connect_total.
Qed.

Lemma MQTT_DeInit_total w : is_Some (MQTT_DeInit fuel w).
Proof.
  unfold MQTT_DeInit.
  assert (H : exists r1 w1,
    (if connected (mqtt w) then MQTT_Disconnect fuel w else Some (MQTT_OK, w))
    = Some (r1, w1)).
  { destruct (connected (mqtt w)); [|by eexists _, _].
    destruct (MQTT_Disconnect_total w) as [[? ?] ->]. by eexists _, _. }
  destruct H as (r1 & w1 & ->).
  destruct (MQTT_Clean_total w1) as [[? ?] ->]. by eexists.
Qed.

Lemma MQTT_Subscribe_total t q w : is_Some (MQTT_Subscribe fuel t q w).
Proof. unfold MQTT_Subscribe. returns Hfuel. Qed.

Lemma MQTT_Unsubscribe_total t w : is_Some (MQTT_Unsubscribe fuel t w).
Proof. unfold MQTT_Unsubscribe. returns Hfuel. Qed.

Lemma MQTT_Publish_total t m q r w : is_Some (MQTT_Publish fuel t m q r w).
Proof. unfold MQTT_Publish. returns Hfuel. Qed.

Lemma MQTT_PublishRaw_total t d l q r w : is_Some (MQTT_PublishRaw fuel t d l q r w).
Proof. unfold MQTT_PublishRaw. returns Hfuel. Qed.

Lemma MQTT_PublishData_total t d l q r w : is_Some (MQTT_PublishData fuel t d l q r w).
Proof.
  unfold MQTT_PublishData.
  destruct (negb _); [by eexists|]. destruct (negb _); [by eexists|].
  destruct t; [|by eexists]. destruct d; [|by eexists].
  destruct (_ =? _); [by eexists|].
  destruct (_ <? _); [apply MQTT_Publish_total|apply MQTT_PublishRaw_total].
Qed.

Lemma MQTT_QueryConnection_total w : is_Some (MQTT_QueryConnection fuel w).
Proof. unfold MQTT_QueryConnection. returns Hfuel. Qed.

Lemma MQTT_SetConnConfig_total c w : is_Some (MQTT_SetConnConfig fuel c w).
Proof. unfold MQTT_SetConnConfig. returns Hfuel. Qed.

Lemma MQTT_SetUserConfig_total u w : is_Some (MQTT_SetUserConfig fuel u w).
Proof. unfold MQTT_SetUserConfig. returns Hfuel. Qed.

Lemma MQTT_SetKeepAlive_total k w : is_Some (MQTT_SetKeepAlive fuel k w).
Proof.
  unfold MQTT_SetKeepAlive. cbv zeta.
  destruct (_ >=? _); [apply MQTT_SetConnConfig_total|by eexists].
Qed.

Lemma MQTT_SetLWT_total t m q rt w : is_Some (MQTT_SetLWT fuel t m q rt w).
Proof.
  unfold MQTT_SetLWT. destruct t; [|by eexists]. destruct m; [|by eexists]. cbv zeta.
  destruct (_ >=? _); [apply MQTT_SetConnConfig_total|by eexists].
Qed.

Lemma MQTT_ConnectToBroker_total h p c u pw w :
  is_Some (MQTT_ConnectToBroker fuel h p c u pw w).
Proof.
  unfold MQTT_ConnectToBroker.
  destruct (MQTT_SetUserConfigSimple_total c u pw w) as [[r1 w1] ->].
  destruct r1; try by eexists.
  destruct (MQTT_SetBroker h p 1 w1) as [[] w2]; try by eexists.
  apply MQTT_Connect_total.
Qed.

Lemma MQTT_Unsubscribe_at_total p w : is_Some (MQTT_Unsubscribe_at fuel p w).
Proof. unfold MQTT_Unsubscribe_at. returns Hfuel. Qed.

Lemma MQTT_UnsubscribeAll_loop_total (n : nat) : forall i w,
  is_Some (MQTT_UnsubscribeAll_loop fuel i n w).
Proof.
  induction n as [|n IH]; intros i w; cbn [MQTT_UnsubscribeAll_loop]; [by eexists|].
  destruct (subscriptions (mqtt w) !! i) as [s|]; [|apply IH].
  destruct (active s); [|apply IH].
  destruct (MQTT_Unsubscribe_at_total (Ptr_slot_topic i) w) as [[r1 w1] ->].
  destruct r1; try by eexists. apply IH.
Qed.

Lemma MQTT_SubscribeMultiple_loop_total (topics : list (option string))
    (qos' : list MQTT_QoS_t) (n : nat) : forall i w,
  (i + n <= length topics)%nat -> (i + n <= length qos')%nat ->
  is_Some (MQTT_SubscribeMultiple_loop fuel topics qos' i n w).
Proof.
  induction n as [|n IH]; intros i w Ht Hq; cbn [MQTT_SubscribeMultiple_loop];
    [by eexists|].
  destruct (lookup_lt_is_Some_2 topics i) as [t ->]; [lia|].
  destruct (lookup_lt_is_Some_2 qos' i) as [q ->]; [lia|].
  destruct (MQTT_Subscribe_total t q w) as [[r1 w1] ->].
  destruct r1; try by eexists. apply IH; lia.
Qed.

End Returns.

Lemma run_returns (fuel : nat) (a : Api) (w : World) :
  5002 <= Z.of_nat fuel -> is_Some (run fuel a w).
Proof.
  intros Hfuel. destruct a; cbn [run]; try by eexists.
  all: apply fmap_is_Some.
  - by apply MQTT_DeInit_total.
  - by apply MQTT_SetUserConfigSimple_total.
  - by apply MQTT_Connect_total.
  - by apply MQTT_Disconnect_total.
  - by apply MQTT_Reconnect_total.
  - by apply MQTT_Clean_total.
  - by apply MQTT_Subscribe_total.
  - by apply MQTT_Unsubscribe_total.
  - by apply MQTT_Publish_total.
  - by apply MQTT_PublishData_total.
  - by apply MQTT_PublishRaw_total.
  - by apply MQTT_QueryConnection_total.
Qed.

(** X26. Every call of the library returns.  With the timeouts of the
    source no loop runs for ever, whatever the co-processor answers or
    fails to answer and whatever the handles hold: each call of the API,
    the configuration calls, [MQTT_ConnectToBroker], [MQTT_UnsubscribeAll],
    and [MQTT_SubscribeMultiple] on arrays of at least [count] entries,
    come to a result. *)
Theorem X26_every_call_returns (fuel : nat) (w : World) :
  5002 <= Z.of_nat fuel ->
  (forall a, is_Some (run fuel a w))
  /\ (forall u, is_Some (MQTT_SetUserConfig fuel u w))
  /\ (forall c, is_Some (MQTT_SetConnConfig fuel c w))
  /\ (forall k, is_Some (MQTT_SetKeepAlive fuel k w))
  /\ (forall t m q rt, is_Some (MQTT_SetLWT fuel t m q rt w))
  /\ (forall h p c u pw, is_Some (MQTT_ConnectToBroker fuel h p c u pw w))
  /\ is_Some (MQTT_UnsubscribeAll fuel w)
  /\ (forall topics qos' count,
        (Z.to_nat count <= length topics)%nat -> (Z.to_nat count <= length qos')%nat ->
        is_Some (MQTT_SubscribeMultiple fuel (Some topics) (Some qos') count w)).
Proof.
  intros Hfuel. split_and!.
  - intros a. by apply run_returns.
  - intros u. by apply MQTT_SetUserConfig_total.
  - intros c. by apply MQTT_SetConnConfig_total.
  - intros k. by apply MQTT_SetKeepAlive_total.
  - intros t m q rt. by apply MQTT_SetLWT_total.
  - intros h p c u pw. by apply MQTT_ConnectToBroker_total.
  - by apply MQTT_UnsubscribeAll_loop_total.
  - intros topics qos' count Ht Hq. unfold MQTT_SubscribeMultiple.
    destruct (count =? 0); [by eexists|].
    apply MQTT_SubscribeMultiple_loop_total; [done|lia..].
Qed.

Lemma X26_witness :
  5002 <= Z.of_nat plenty
  /\ (forall a, is_Some (run plenty a session_unanswered))
  /\ (forall u, is_Some (MQTT_SetUserConfig plenty u session_unanswered))
  /\ (forall c, is_Some (MQTT_SetConnConfig plenty c session_unanswered))
  /\ (forall k, is_Some (MQTT_SetKeepAlive plenty k session_unanswered))
  /\ (forall t m q rt, is_Some (MQTT_SetLWT plenty t m q rt session_unanswered))
  /\ (forall h p c u pw,
        is_Some (MQTT_ConnectToBroker plenty h p c u pw session_unanswered))
  /\ is_Some (MQTT_UnsubscribeAll plenty session_unanswered)
  /\ (forall topics qos' count,
        (Z.to_nat count <= length topics)%nat -> (Z.to_nat count <= length qos')%nat ->
        is_Some (MQTT_SubscribeMultiple plenty (Some topics) (Some qos') count
                   session_unanswered)).
Proof.
  assert (H1 : 5002 <= Z.of_nat plenty) by (unfold plenty; lia).
  split; [exact H1|].
  exact (X26_every_call_returns plenty session_unanswered H1).
Defined.

(** On a co-processor that never answers, a subscribe comes back after a
    transmission that does not complete in 5001 ms and a wait of
    5000 ms. *)
Example subscribe_on_a_silent_board :
  exists w', MQTT_Subscribe plenty (Some "b") MQTT_QOS_0 session_unanswered
             = Some (MQTT_SUBSCRIBE_FAIL, w')
             /\ now w' = 10001.
Proof. eexists. split; vm_compute; reflexivity. Qed.

(** X27. The calls of the driver return as well: [ESP8266_Connect],
    [ESP8266_GetIPInfo], [ESP8266_Send] and [ESP8266_SendString] come to a
    result whatever the co-processor does and whatever their arguments
    are. *)
Theorem X27_driver_calls_return (fuel : nat) (s : Station) :
  5002 <= Z.of_nat fuel ->
  (forall type h p l, is_Some (ESP8266_Connect fuel type h p l (world s)))
  /\ (forall info, is_Some (ESP8266_GetIPInfo fuel info (world s)))
  /\ (forall id d len, is_Some (ESP8266_Send fuel id d len s))
  /\ (forall id str, is_Some (ESP8266_SendString fuel id str s)).
Proof.
  intros Hfuel.
  assert (Hsend : forall id d len, is_Some (ESP8266_Send fuel id d len s)).
  { intros id d len. unfold ESP8266_Send, in_world. cbn [world with_world].
    returns Hfuel. }
  split_and!.
  - intros type h p l. unfold ESP8266_Connect. returns Hfuel.
  - intros info. unfold ESP8266_GetIPInfo. returns Hfuel.
  - exact Hsend.
  - intros id str. unfold ESP8266_SendString. destruct str; [apply Hsend|by eexists].
Qed.

Lemma X27_witness :
  5002 <= Z.of_nat plenty
  /\ (forall type h p l, is_Some (ESP8266_Connect plenty type h p l (world sending)))
  /\ (forall info, is_Some (ESP8266_GetIPInfo plenty info (world sending)))
  /\ (forall id d len, is_Some (ESP8266_Send plenty id d len sending))
  /\ (forall id str, is_Some (ESP8266_SendString plenty id str sending)).
Proof.
  assert (H1 : 5002 <= Z.of_nat plenty) by (unfold plenty; lia).
  split; [exact H1|].
  exact (X27_driver_calls_return plenty sending H1).
Defined.
(** ** How long a call blocks *)

























(** The bounds in numbers. *)
Example worst_case_in_numbers :
  worst_case Api_Clean = 9011
  /\ worst_case (Api_Subscribe None MQTT_QOS_0) = 11011
  /\ worst_case Api_Connect = 16011
  /\ worst_case (Api_Publish None None MQTT_QOS_0 0) = 20022
  /\ worst_case Api_DeInit = 18022
  /\ worst_case Api_Reconnect = 35033.
Proof. by split_and!. Qed.
(** ** The pending message *)























